(** * generate-dita.py: TOC normalisation, corpus index, translator, map builder

    A shallow embedding of [book/generate-dita.py] and the properties of its
    specification.  Python strings are [string]s whose characters are the code
    points below 256; dictionaries are [gmap]s; the BeautifulSoup tree is an
    inductive [node]; the in-place list appends of the script are functions
    returning the appended lines; an exception that leaves a function is the
    result [None].  The calls of [log] are left out. *)

From Stdlib Require Import String Ascii List ZArith Lia Bool.
From stdpp Require Import base option list gmap strings pretty.

Local Open Scope string_scope.
Local Open Scope list_scope.

(** ** Python string primitives *)

Module Py.

(** [str.isspace] on the code points below 256. *)
Definition isspace (c : ascii) : bool :=
  let n := nat_of_ascii c in
  (((9 <=? n) && (n <=? 13)) || ((28 <=? n) && (n <=? 32))
   || (n =? 133) || (n =? 160))%nat.

(** [str.isdigit] on the code points below 256: the decimal digits and the
    superscripts two, three and one. *)
Definition isdigit (c : ascii) : bool :=
  let n := nat_of_ascii c in
  (((48 <=? n) && (n <=? 57)) || (n =? 178) || (n =? 179) || (n =? 185))%nat.

(** The regular expression class [\d] (decimal digits only). *)
Definition is_decimal (c : ascii) : bool :=
  let n := nat_of_ascii c in ((48 <=? n) && (n <=? 57))%nat.

Definition startswith (s p : string) : bool := String.prefix p s.

Fixpoint rev_onto (s acc : string) : string :=
  match s with
  | EmptyString => acc
  | String c s' => rev_onto s' (String c acc)
  end.

Definition srev (s : string) : string := rev_onto s "".

Definition endswith (s p : string) : bool := String.prefix (srev p) (srev s).

(** [s[n:]] and [s[:n]] for a non-negative [n]. *)
Fixpoint drop (n : nat) (s : string) : string :=
  match n, s with
  | S k, String _ s' => drop k s'
  | _, _ => s
  end.

Fixpoint take (n : nat) (s : string) : string :=
  match n, s with
  | S k, String c s' => String c (take k s')
  | _, _ => ""
  end.

(** [s[:-n]] for a positive [n]. *)
Definition drop_last (n : nat) (s : string) : string :=
  take (String.length s - n) s.

Fixpoint drop_while (p : ascii -> bool) (s : string) : string :=
  match s with
  | EmptyString => ""
  | String c s' => if p c then drop_while p s' else s
  end.

Fixpoint mem_char (c : ascii) (chars : string) : bool :=
  match chars with
  | EmptyString => false
  | String d r => Ascii.eqb c d || mem_char c r
  end.

(** [s.lstrip(chars)]: every leading character that occurs in [chars] goes. *)
Definition lstrip_chars (chars s : string) : string :=
  drop_while (fun c => mem_char c chars) s.

Definition lstrip (s : string) : string := drop_while isspace s.
Definition rstrip (s : string) : string := srev (drop_while isspace (srev s)).
Definition strip (s : string) : string := rstrip (lstrip s).

(** [sub in s]. *)
Fixpoint contains (sub s : string) : bool :=
  String.prefix sub s ||
  match s with
  | EmptyString => false
  | String _ s' => contains sub s'
  end.

(** [s.split(sep)] for a non-empty [sep]; [limit] is the number of splits
    still allowed ([None] for no bound, as in [s.split(sep)]). *)
Fixpoint split_go (sep : string) (limit : option nat) (skip : nat)
    (cur : string) (s : string) : list string :=
  match s with
  | EmptyString => [srev cur]
  | String c s' =>
      match skip with
      | S k => split_go sep limit k cur s'
      | O =>
          let allowed := match limit with Some O => false | _ => true end in
          if allowed && String.prefix sep s
          then srev cur ::
               split_go sep (option_map Nat.pred limit)
                        (String.length sep - 1) "" s'
          else split_go sep limit O (String c cur) s'
      end
  end.

Definition split (sep s : string) : list string := split_go sep None 0 "" s.
Definition split_max (sep : string) (n : nat) (s : string) : list string :=
  split_go sep (Some n) 0 "" s.

(** [s.replace(old, new)] for a non-empty [old]. *)
Fixpoint replace_go (old new : string) (skip : nat) (s : string) : string :=
  match s with
  | EmptyString => ""
  | String c s' =>
      match skip with
      | S k => replace_go old new k s'
      | O =>
          if String.prefix old s
          then new +:+ replace_go old new (String.length old - 1) s'
          else String c (replace_go old new O s')
      end
  end.

Definition replace (old new s : string) : string := replace_go old new 0 s.

(** [sep.join(parts)]. *)
Fixpoint join (sep : string) (parts : list string) : string :=
  match parts with
  | [] => ""
  | [p] => p
  | p :: rest => p +:+ sep +:+ join sep rest
  end.

(** [''.join(parts)]. *)
Definition concat_all (parts : list string) : string := String.concat "" parts.

(** [s * n]. *)
Fixpoint repeat_str (s : string) (n : nat) : string :=
  match n with
  | O => ""
  | S k => s +:+ repeat_str s k
  end.

(** The characters [int(s)] skips around a number: the white space of
    ASCII, and the white space from code point 128 on, which it reads as a
    space.  The separators 28 to 31 are white space for [str.strip] and not
    for [int]. *)
Definition int_space (c : ascii) : bool :=
  let n := nat_of_ascii c in
  (((9 <=? n) && (n <=? 13)) || (n =? 32) || (n =? 133) || (n =? 160))%nat.

(** The default of [sys.get_int_max_str_digits()]: a text with more digits
    is refused. *)
Definition max_str_digits : nat := 4300.

Fixpoint digit_count (s : string) : nat :=
  match s with
  | EmptyString => 0
  | String c s' => (if is_decimal c then 1 else 0) + digit_count s'
  end.

(** The text [int(s)] reads: optional surrounding white space, an optional
    sign, then decimal digits that single underscores may separate.  [None]
    stands for the [ValueError] the call raises on anything else. *)
Fixpoint digits_value (expect_digit : bool) (acc : Z) (s : string) : option Z :=
  match s with
  | EmptyString => if expect_digit then None else Some acc
  | String c s' =>
      if is_decimal c
      then digits_value false (acc * 10 + Z.of_nat (nat_of_ascii c - 48)) s'
      else if Ascii.eqb c "_" && negb expect_digit
           then digits_value true acc s'
           else None
  end.

Definition int (s : string) : option Z :=
  let body := srev (drop_while int_space (srev (drop_while int_space s))) in
  if (max_str_digits <? digit_count body)%nat then None
  else
    match body with
    | String "+" r => digits_value true 0 r
    | String "-" r => Z.opp <$> digits_value true 0 r
    | r => digits_value true 0 r
    end.

(** [os.path.join(a, b)] on POSIX. *)
Definition path_join (a b : string) : string :=
  if startswith b "/" then b
  else if String.eqb a "" || endswith a "/" then a +:+ b
  else a +:+ "/" +:+ b.

(** The component loop of [posixpath.normpath]; [acc] holds the kept
    components, the last one first. *)
Fixpoint norm_comps (initial_slashes : bool) (acc : list string)
    (comps : list string) : list string :=
  match comps with
  | [] => rev acc
  | comp :: rest =>
      if String.eqb comp "" || String.eqb comp "." then
        norm_comps initial_slashes acc rest
      else if negb (String.eqb comp "..")
              || (negb initial_slashes && match acc with [] => true | _ => false end)
              || match acc with last :: _ => String.eqb last ".." | [] => false end
      then norm_comps initial_slashes (comp :: acc) rest
      else norm_comps initial_slashes (tl acc) rest
  end.

(** [os.path.normpath] on POSIX. *)
Definition normpath (path : string) : string :=
  if String.eqb path "" then "."
  else
    let initial_slashes :=
      if startswith path "/"
      then if startswith path "//" && negb (startswith path "///") then 2 else 1
      else 0 in
    let comps := norm_comps (negb (initial_slashes =? 0)%nat) [] (split "/" path) in
    let path' := repeat_str "/" initial_slashes +:+ join "/" comps in
    if String.eqb path' "" then "." else path'.

End Py.

(** ** Configuration *)

Definition MD_DIR : string := "md".

(** ** [normalize_path] *)

Definition normalize_path (path : string) : string :=
  let path := Py.lstrip_chars "/" (Py.lstrip_chars "./" path) in
  let path := if Py.endswith path ".html"
              then Py.drop_last 5 path +:+ ".md" else path in
  Py.normpath path.

(** ** The BeautifulSoup tree *)

#[local] Set Warnings "-register-all".

(** A parsed document: strings and tags.  A tag has a name, a dictionary
    of attributes and the list of its children ([.contents]).  Every string
    is a [str] object; the library gives it one of three kinds of class.
    [NavigableString] is text (the classes [NavigableString] and [CData]).
    [Comment] stands for the classes no [get_text] joins: comments,
    declarations, processing instructions, the document type.
    [ContainerString] is a string of the class the parser gives the text
    below an element named [script], [style], [template], [rt] or [rp]
    ([Script], [Stylesheet], [TemplateString], [RubyTextString],
    [RubyParenthesisString]), kept here with the name of that element:
    [get_text] of an element of that name joins it, [get_text] of any
    other element leaves it out. *)
Inductive node : Type :=
| NavigableString (text : string)
| Comment (text : string)
| ContainerString (container : string) (text : string)
| Tag (name : string) (attrs : gmap string string) (contents : list node).

(** The names of the elements whose text has a class of its own
    ([string_containers] of the tree builder). *)
Definition string_containers : list string :=
  ["rt"; "rp"; "style"; "script"; "template"].

Module Soup.

(** [isinstance(child, str)]. *)
Definition is_string (n : node) : bool :=
  match n with
  | NavigableString _ | Comment _ | ContainerString _ _ => true
  | Tag _ _ _ => false
  end.

(** [str(child)] of a string or comment. *)
Definition string_text (n : node) : string :=
  match n with
  | NavigableString s | Comment s | ContainerString _ s => s
  | Tag _ _ _ => ""
  end.

(** [n.name in names]; the name of a string is [None]. *)
Definition named (names : list string) (n : node) : bool :=
  match n with
  | NavigableString _ | Comment _ | ContainerString _ _ => false
  | Tag nm _ _ => existsb (String.eqb nm) names
  end.

Definition children (n : node) : list node :=
  match n with
  | NavigableString _ | Comment _ | ContainerString _ _ => []
  | Tag _ _ cs => cs
  end.

(** [n.get(key)]. *)
Definition get (key : string) (n : node) : option string :=
  match n with
  | NavigableString _ | Comment _ | ContainerString _ _ => None
  | Tag _ a _ => a !! key
  end.

(** [n.get(key, "")]. *)
Definition get_or_empty (key : string) (n : node) : string :=
  default "" (get key n).

Definition has_attr (key : string) (n : node) : bool :=
  match get key n with Some _ => true | None => false end.

(** [n[key] = value]. *)
Definition set_attr (key value : string) (n : node) : node :=
  match n with
  | NavigableString _ | Comment _ | ContainerString _ _ => n
  | Tag nm a cs => Tag nm (<[key := value]> a) cs
  end.

(** [n.descendants]: every node below [n], in document order. *)
Fixpoint descendants (n : node) : list node :=
  match n with
  | NavigableString _ | Comment _ | ContainerString _ _ => []
  | Tag _ _ cs =>
      (fix below (cs : list node) : list node :=
         match cs with
         | [] => []
         | c :: rest => c :: descendants c ++ below rest
         end) cs
  end.

(** [n.find_all(...)] and [n.find(...)], with [recursive=False] or not. *)
Definition find_all (p : node -> bool) (n : node) : list node :=
  List.filter p (descendants n).

Definition find (p : node -> bool) (n : node) : option node :=
  head (find_all p n).

Definition find_all_direct (p : node -> bool) (n : node) : list node :=
  List.filter p (children n).

Definition find_direct (p : node -> bool) (n : node) : option node :=
  head (find_all_direct p n).

(** [interesting_string_types] of an element named [name], as a test on a
    string: the class of its own text for an element of
    [string_containers], text for any other. *)
Definition interesting (name : string) (d : node) : option string :=
  let container := existsb (String.eqb name) string_containers in
  match d with
  | NavigableString s => if container then None else Some s
  | ContainerString c s =>
      if container && String.eqb c name then Some s else None
  | Comment _ | Tag _ _ _ => None
  end.

(** The strings [get_text] joins, in document order: those below an
    element that are of its interesting class; a text is its own string,
    a string of another class has none. *)
Definition strings (n : node) : list string :=
  match n with
  | NavigableString s => [s]
  | Comment _ | ContainerString _ _ => []
  | Tag nm _ _ => omap (interesting nm) (descendants n)
  end.

(** [n.get_text()]. *)
Definition get_text (n : node) : string := Py.concat_all (strings n).

(** [n.get_text(strip=True)]: every string stripped, the empty ones left out. *)
Definition get_text_strip (n : node) : string :=
  Py.concat_all
    (List.filter (fun s => negb (String.eqb s "")) (map Py.strip (strings n))).

(** [li.find(text=True, recursive=False)]: the first child that is a
    string, of whatever class. *)
Definition find_text_direct (n : node) : option string :=
  string_text <$> find_direct is_string n.

(** The first child that satisfies [p], handed to [k]; [d] when there is
    none.  This is [find_direct] in the form recursive traversals use. *)
Definition with_first_child {A} (p : node -> bool) (k : node -> A) (d : A)
    (n : node) : A :=
  match n with
  | NavigableString _ | Comment _ | ContainerString _ _ => d
  | Tag _ _ cs =>
      (fix scan (cs : list node) : A :=
         match cs with
         | [] => d
         | c :: rest => if p c then k c else scan rest
         end) cs
  end.

End Soup.

(** The double quote, as a one-character string. *)
Definition dq : string := String "034"%char "".

(** ** [escape_xml] *)

Definition escape_xml (text : string) : string :=
  Py.replace "'" "&apos;"
    (Py.replace dq "&quot;"
       (Py.replace ">" "&gt;"
          (Py.replace "<" "&lt;"
             (Py.replace "&" "&amp;" text)))).

(** ** Pass 1: the corpus index ([build_dita_map.collect_files]) *)

Record topic_info : Type := TopicInfo {
  topic_id : string;
  topic_filename : string;
  topic_title : string
}.

(** One entry of [files_to_process]: [(href, topic_id, title, topic_filename)]. *)
Record pending : Type := Pending {
  p_href : string;
  p_id : string;
  p_title : string;
  p_filename : string
}.

(** The three variables the first pass updates. *)
Record index_state : Type := IndexState {
  topic_counter : nat;
  file_to_topic : gmap string topic_info;
  files_to_process : list pending
}.

Definition initial_index : index_state := IndexState 0 ∅ [].

Definition is_url (href : string) : bool :=
  Py.startswith href "http://" || Py.startswith href "https://".

Definition is_li : node -> bool := Soup.named ["li"].
Definition is_list : node -> bool := Soup.named ["ol"; "ul"].
Definition is_a_href (n : node) : bool :=
  Soup.named ["a"] n && Soup.has_attr "href" n.

Section Outline.

Variable base_path : string.

(** The lines under "Normalize path" of both outline passes: the target of an
    outline link as a path below [base_path]. *)
Definition outline_path (href : string) : string :=
  let href := if Py.startswith href "/" then "." +:+ href
              else if negb (Py.startswith href "./") then "./" +:+ href
              else href in
  let href := Py.path_join base_path href in
  if Py.endswith href ".html" then Py.drop_last 5 href +:+ ".md" else href.

(** The lines under "Build mapping": a new key takes the next number. *)
Definition register (title href : string) (st : index_state) : index_state :=
  let normalized := normalize_path href in
  match file_to_topic st !! normalized with
  | Some _ => st
  | None =>
      let counter := S (topic_counter st) in
      let tid := "topic_" +:+ pretty counter in
      let tfile := tid +:+ ".dita" in
      {| topic_counter := counter;
         file_to_topic :=
           <[normalized := TopicInfo tid tfile title]> (file_to_topic st);
         files_to_process :=
           files_to_process st ++ [Pending href tid title tfile] |}
  end.

(** [collect_files], as a function of the three variables it updates.  The
    unused [level] argument of the script is left out. *)
Fixpoint collect_files (ol : node) (st : index_state) {struct ol} : index_state :=
  match ol with
  | NavigableString _ | Comment _ | ContainerString _ _ => st
  | Tag _ _ items =>
      (fix each (items : list node) (st : index_state) : index_state :=
         match items with
         | [] => st
         | li :: rest =>
             if is_li li then
               let nested st :=
                 Soup.with_first_child is_list
                   (fun nested_ol => collect_files nested_ol st) st li in
               each rest
                 match Soup.find is_a_href li with
                 | Some link_tag =>
                     let title := Soup.get_text_strip link_tag in
                     let href := Soup.get_or_empty "href" link_tag in
                     if is_url href then nested st
                     else nested (register title (outline_path href) st)
                 | None => nested st
                 end
             else each rest st
         end) items st
  end.

(** *** Pass 3: the map ([build_dita_map.build_map_structure]) *)

(** One line appended to [ditamap_parts] by the map builder. *)
Inductive map_line : Type :=
| TopicrefOpen (indent filename : string)
| TopicrefClose (indent : string)
| TopicrefLeaf (indent filename : string)
| TopicheadOpen (indent navtitle : string)
| TopicheadClose (indent : string).

(** The text of a line, as the f-strings of the builder write it. *)
Definition render_map_line (l : map_line) : string :=
  match l with
  | TopicrefOpen indent filename =>
      indent +:+ "<topicref href=" +:+ dq +:+ filename +:+ dq +:+ ">"
  | TopicrefClose indent => indent +:+ "</topicref>"
  | TopicrefLeaf indent filename =>
      indent +:+ "<topicref href=" +:+ dq +:+ filename +:+ dq +:+ "/>"
  | TopicheadOpen indent navtitle =>
      indent +:+ "<topichead navtitle=" +:+ dq +:+ navtitle +:+ dq +:+ ">"
  | TopicheadClose indent => indent +:+ "</topichead>"
  end.

Section MapStructure.

Variable index : gmap string topic_info.

(** The unused [level] argument of the script is left out. *)
Fixpoint build_map_structure (ol : node) (indent : string) {struct ol}
    : list map_line :=
  match ol with
  | NavigableString _ | Comment _ | ContainerString _ _ => []
  | Tag _ _ items =>
      (fix each (items : list node) : list map_line :=
         match items with
         | [] => []
         | li :: rest =>
             if is_li li then
               let nested indent :=
                 Soup.with_first_child is_list
                   (fun nested_ol => build_map_structure nested_ol indent)
                   [] li in
               let has_nested :=
                 match Soup.find_direct is_list li with
                 | Some _ => true | None => false end in
               match Soup.find_direct is_a_href li with
               | Some link_tag =>
                   let href := Soup.get_or_empty "href" link_tag in
                   if is_url href then nested indent
                   else
                     match index !! normalize_path (outline_path href) with
                     | Some topic_info =>
                         if has_nested then
                           TopicrefOpen indent (topic_filename topic_info)
                           :: nested (indent +:+ "  ")
                           ++ [TopicrefClose indent]
                         else [TopicrefLeaf indent (topic_filename topic_info)]
                     | None => []
                     end
               | None =>
                   match Soup.find_text_direct li with
                   | Some (String _ _ as title_text) =>
                       let title_text := Py.strip title_text in
                       if negb (String.eqb title_text "") then
                         TopicheadOpen indent (escape_xml title_text)
                         :: nested (indent +:+ "  ")
                         ++ [TopicheadClose indent]
                       else []
                   | _ => nested indent
                   end
               end ++ each rest
             else each rest
         end) items
  end.

End MapStructure.

End Outline.

(** ** Pass 2: the translator *)

(** The line feed, as a one-character string. *)
Definition nl : string := String "010"%char "".

(** [key="value"] inside a tag. *)
Definition xml_attr (key value : string) : string :=
  key +:+ "=" +:+ dq +:+ value +:+ dq.

(** [text_content.strip()] and the like, used as a condition. *)
Definition truthy (s : string) : bool := negb (String.eqb s "").

(** *** [is_inline_image] *)

(** The script reads [img_element.parent]; the tree here has no parent
    pointers, so the caller passes the parent ([None] for a detached image).
    Every child has a [get_text] method (the library from 4.10 on), so the
    text of a child that is not an image is what [get_text] gives: the
    string itself, nothing for a comment. *)
Definition is_inline_image (parent : option node) : bool :=
  match parent with
  | None => false
  | Some parent =>
      if Soup.named ["span"] parent then true
      else if Soup.named ["p"; "div"; "li"; "td"; "th"] parent then
        let text_content :=
          Py.concat_all
            (map (fun child => if Soup.named ["img"] child then ""
                               else Soup.get_text child)
                 (Soup.children parent)) in
        truthy (Py.strip text_content)
      else false
  end.

(** *** [convert_element_content] *)

Definition xref_dita (href link_text : string) : string :=
  "<xref " +:+ xml_attr "href" href +:+ " " +:+ xml_attr "format" "dita"
  +:+ ">" +:+ escape_xml link_text +:+ "</xref>".

Definition xref_external (href link_text : string) : string :=
  "<xref " +:+ xml_attr "href" (escape_xml href) +:+ " "
  +:+ xml_attr "format" "html" +:+ " " +:+ xml_attr "scope" "external"
  +:+ ">" +:+ escape_xml link_text +:+ "</xref>".

(** The branch for an [a] child; [convert_element_content] and
    [convert_list_item_content] have the same lines. *)
Definition convert_link (child : node) : string :=
  let link_text := Soup.get_text_strip child in
  match Soup.get "data-dita-href" child with
  | Some (String _ _ as href) => xref_dita href link_text
  | _ =>
      let href := Soup.get_or_empty "href" child in
      if is_url href then xref_external href link_text
      else escape_xml link_text
  end.

Definition codeph (child : node) : string :=
  "<codeph>" +:+ escape_xml (Soup.get_text child) +:+ "</codeph>".
Definition bold (child : node) : string :=
  "<b>" +:+ escape_xml (Soup.get_text child) +:+ "</b>".
Definition italic (child : node) : string :=
  "<i>" +:+ escape_xml (Soup.get_text child) +:+ "</i>".

Definition image_inline (img_src : string) : string :=
  "<image " +:+ xml_attr "href" (escape_xml img_src) +:+ " "
  +:+ xml_attr "placement" "inline" +:+ ">".

Definition image_break (img_src : string) : string :=
  "<image " +:+ xml_attr "href" (escape_xml img_src) +:+ " "
  +:+ xml_attr "placement" "break" +:+ " " +:+ xml_attr "align" "left" +:+ ">".

(** What one child of [element] adds to [result]. *)
Definition convert_child (element child : node) : string :=
  match child with
  | NavigableString s | Comment s | ContainerString _ s => escape_xml s
  | Tag _ _ _ =>
      if Soup.named ["a"] child then convert_link child
      else if Soup.named ["code"] child then codeph child
      else if Soup.named ["strong"; "b"] child then bold child
      else if Soup.named ["em"; "i"] child then italic child
      else if Soup.named ["img"] child then
        let img_src := Soup.get_or_empty "src" child in
        let img_alt := Soup.get_or_empty "alt" child in
        if truthy img_src then
          (if is_inline_image (Some element)
           then image_inline img_src else image_break img_src)
          +:+ (if truthy img_alt
               then "<alt>" +:+ escape_xml img_alt +:+ "</alt>" else "")
          +:+ "</image>"
        else ""
      else escape_xml (Soup.get_text child)
  end.

Definition convert_element_content (element : node) : string :=
  Py.concat_all (map (convert_child element) (Soup.children element)).

(** *** Code blocks *)

(** [\S+]: the classes of a [class] attribute. *)
Fixpoint words_go (cur : string) (s : string) : list string :=
  match s with
  | EmptyString => if truthy cur then [Py.srev cur] else []
  | String c s' =>
      if Py.isspace c
      then (if truthy cur then [Py.srev cur] else []) ++ words_go "" s'
      else words_go (String c cur) s'
  end.

Definition class_list (n : node) : list string :=
  match Soup.get "class" n with
  | Some v => words_go "" v
  | None => []
  end.

(** The lines both converters run on a [pre] element, without indentation. *)
Definition convert_pre (element : node) : string :=
  match Soup.find (Soup.named ["code"]) element with
  | Some code_elem =>
      let language :=
        match List.find (fun cls => Py.startswith cls "language-")
                        (class_list code_elem) with
        | Some cls => Py.replace "language-" "" cls
        | None => ""
        end in
      let code_text := Soup.get_text code_elem in
      if truthy language then
        "<codeblock " +:+ xml_attr "outputclass" ("language-" +:+ language)
        +:+ ">" +:+ escape_xml code_text +:+ "</codeblock>"
      else "<codeblock>" +:+ escape_xml code_text +:+ "</codeblock>"
  | None =>
      "<codeblock>" +:+ escape_xml (Soup.get_text element) +:+ "</codeblock>"
  end.

(** *** [convert_list_item_content] *)

Definition convert_list_item_child (child : node) : list string :=
  match child with
  | NavigableString s | Comment s | ContainerString _ s =>
      let text := Py.strip s in
      if truthy text then [escape_xml text] else []
  | Tag _ _ _ =>
      if Soup.named ["p"] child then
        ["<p>" +:+ convert_element_content child +:+ "</p>"]
      else if Soup.named ["pre"] child then [convert_pre child]
      else if Soup.named ["ul"; "ol"] child then []
      else if Soup.named ["code"] child then [codeph child]
      else if Soup.named ["strong"; "b"] child then [bold child]
      else if Soup.named ["em"; "i"] child then [italic child]
      else if Soup.named ["a"] child then [convert_link child]
      else []
  end.

Definition convert_list_item_content (li_element : node) : list string :=
  concat (map convert_list_item_child (Soup.children li_element)).

(** *** [convert_table_to_dita] *)

Definition is_cell : node -> bool := Soup.named ["th"; "td"].
Definition is_tr : node -> bool := Soup.named ["tr"].

(** [num_cols]: the cells of the first row of [thead], else of [tbody];
    1 when the section has no row or the table has neither section. *)
Definition table_num_cols (table_element : node) : nat :=
  let first_row_cells section :=
    match Soup.find is_tr section with
    | Some first_row => length (Soup.find_all is_cell first_row)
    | None => 1
    end in
  match Soup.find (Soup.named ["thead"]) table_element with
  | Some thead => first_row_cells thead
  | None =>
      match Soup.find (Soup.named ["tbody"]) table_element with
      | Some tbody => first_row_cells tbody
      | None => 1
      end
  end.

(** The [colspec] line of column [i] (counted from 0). *)
Definition colspec_line (i : nat) : string :=
  "        <colspec " +:+ xml_attr "colname" ("c" +:+ pretty (i + 1)) +:+ " "
  +:+ xml_attr "colnum" (pretty (i + 1)) +:+ "/>".

Definition colspan_attr (colspan : string) : string :=
  xml_attr "namest" "c1" +:+ " " +:+ xml_attr "nameend" ("c" +:+ colspan).

Definition morerows_attr (rows : Z) : string :=
  xml_attr "morerows" (pretty (rows - 1)%Z).

(** [entry_attrs] of a cell; [None] when [int(rowspan)] raises. *)
Definition entry_attrs (cell : node) : option (list string) :=
  let colspan := Soup.get_or_empty "colspan" cell in
  let rowspan := Soup.get_or_empty "rowspan" cell in
  let span := if truthy colspan then [colspan_attr colspan] else [] in
  if truthy rowspan then
    rows ← Py.int rowspan; Some (span ++ [morerows_attr rows])
  else Some span.

Definition entry_line (cell : node) : option string :=
  let cell_content := convert_element_content cell in
  attrs ← entry_attrs cell;
  Some (match attrs with
        | [] => "            <entry>" +:+ cell_content +:+ "</entry>"
        | _ => "            <entry " +:+ Py.join " " attrs +:+ ">"
               +:+ cell_content +:+ "</entry>"
        end).

Definition row_lines (tr : node) : option (list string) :=
  entries ← mapM entry_line (Soup.find_all is_cell tr);
  Some ("          <row>" :: entries ++ ["          </row>"]).

(** The lines of [thead] or [tbody]; the two loops of the script differ in
    the tag name only. *)
Definition section_lines (tag : string) (section : option node)
    : option (list string) :=
  match section with
  | Some section =>
      rows ← mapM row_lines (Soup.find_all is_tr section);
      Some (("        <" +:+ tag +:+ ">") :: concat rows
            ++ ["        </" +:+ tag +:+ ">"])
  | None => Some []
  end.

(** The list [dita_table] at the end of the function. *)
Definition table_lines (table_element : node) : option (list string) :=
  let thead := Soup.find (Soup.named ["thead"]) table_element in
  let tbody := Soup.find (Soup.named ["tbody"]) table_element in
  let num_cols := table_num_cols table_element in
  head_lines ← section_lines "thead" thead;
  body_lines ← section_lines "tbody" tbody;
  Some ("    <table>"
        :: ("      <tgroup " +:+ xml_attr "cols" (pretty num_cols) +:+ ">")
        :: map colspec_line (seq 0 num_cols)
        ++ head_lines ++ body_lines
        ++ ["      </tgroup>"; "    </table>"]).

Definition convert_table_to_dita (table_element : node) : option string :=
  Py.join nl <$> table_lines table_element.

(** *** [md_to_dita_topic] *)

Definition xml_declaration : string :=
  "<?xml " +:+ xml_attr "version" "1.0" +:+ " "
  +:+ xml_attr "encoding" "UTF-8" +:+ "?>".

Definition doctype (root dtd_name dtd_file : string) : string :=
  "<!DOCTYPE " +:+ root +:+ " PUBLIC " +:+ dq +:+ "-//OASIS//DTD DITA "
  +:+ dtd_name +:+ "//EN" +:+ dq +:+ " " +:+ dq +:+ dtd_file +:+ dq +:+ ">".

(** The first lines of every topic. *)
Definition topic_header (tid title : string) : list string :=
  [ xml_declaration;
    doctype "topic" "Topic" "topic.dtd";
    "<topic " +:+ xml_attr "id" tid +:+ ">";
    "  <title>" +:+ title +:+ "</title>";
    "  <body>" ].

(** What a path of the source tree holds: nothing ([os.path.exists] is
    false), something that [open] or [read] refuses (a directory, a file
    without permission, bytes that are not UTF-8), or a text. *)
Inductive source_file : Type :=
| Absent
| Unreadable
| Contents (text : string).

(** The only block of the body of a topic whose source is missing. *)
Definition missing_notice (md_path : string) : string :=
  "    <p><i>Missing file: " +:+ md_path +:+ "</i></p>".

(** The text returned for a missing source (a triple-quoted f-string that
    ends with a line feed). *)
Definition missing_topic (md_path tid title : string) : string :=
  Py.join nl (topic_header tid title
              ++ [missing_notice md_path; "  </body>"; "</topic>"; ""]).

Section Translator.

(** The collaborators of the translator that are not part of the script. *)

(** [urlparse(href)], as the pair [(netloc, path)]; [None] when the call
    raises [ValueError] (a host with an unmatched bracket, for one). *)
Variable urlparse : string -> option (string * string).

(** [markdown.markdown] followed by [BeautifulSoup(html, "html.parser")]:
    the children of the soup of a source text. *)
Variable markdown_soup : string -> list node.

(** The body of the [try] block of [resolve_image_path]: the image path
    resolved next to the source file and taken relative to the output
    directory; [None] when it raises. *)
Variable resolve_relative : string -> string -> option string.

(** The source files. *)
Variable read_file : string -> source_file.

Definition resolve_image_path (img_src md_file_path : string) : string :=
  if Py.startswith img_src "data:" || Py.startswith img_src "http://"
     || Py.startswith img_src "https://"
  then img_src
  else default img_src (resolve_relative img_src md_file_path).

(** The lines of the link loop from the base path on: the key it looks up;
    [None] where the loop [continue]s before the lookup. *)
Definition key_of_base (base_path : string) : option string :=
  let base_path := if Py.contains "#" base_path
                   then hd "" (Py.split "#" base_path) else base_path in
  let base_path := if Py.contains "?" base_path
                   then hd "" (Py.split "?" base_path) else base_path in
  let base_path := if Py.endswith base_path ".html"
                   then Py.drop_last 5 base_path else base_path in
  if negb (truthy base_path) || String.eqb base_path "/" then None
  else
    let link_path := base_path +:+ ".md" in
    let link_path :=
      if Py.startswith link_path "/" then "." +:+ link_path
      else if negb (Py.startswith link_path "./") then "./" +:+ link_path
      else link_path in
    let link_path_with_dir := Py.path_join MD_DIR link_path in
    Some (normalize_path link_path_with_dir).

(** The key the link loop looks up for [href].  The outer [None] stands for
    the [ValueError] of [urlparse], the inner one for a [continue] before
    the lookup. *)
Definition link_key (href : string) : option (option string) :=
  if Py.startswith href "#" then Some None
  else if is_url href then
    '(netloc, path) ← urlparse href;
    if Py.contains "helpx.adobe.com" netloc || Py.contains "adobe.com" netloc
    then Some (key_of_base path) else Some None
  else Some (key_of_base href).

Section WithIndex.

Variable file_to_topic : gmap string topic_info.

(** The body of the link loop for one [a] tag with an [href]; [None] when
    [urlparse] raises. *)
Definition mark_link (a_tag : node) : option node :=
  found ← link_key (Soup.get_or_empty "href" a_tag);
  Some match found with
       | Some normalized =>
           match file_to_topic !! normalized with
           | Some target_topic =>
               Soup.set_attr "data-dita-scope" "local"
                 (Soup.set_attr "data-dita-href" (topic_filename target_topic)
                    a_tag)
           | None => a_tag
           end
       | None => a_tag
       end.

(** The link loop: every [a] with an [href] below a node is updated in
    place; [None] when [urlparse] raises on one of them. *)
Fixpoint mark_links (n : node) : option node :=
  match n with
  | NavigableString _ | Comment _ | ContainerString _ _ => Some n
  | Tag nm a cs =>
      cs' ← mapM mark_links cs;
      if is_a_href n then mark_link (Tag nm a cs') else Some (Tag nm a cs')
  end.

End WithIndex.

(** The image loop: an image is removed ([decompose]) or has its [src]
    rewritten; [None] for a removed node. *)
Fixpoint process_images (md_path : string) (n : node) : option node :=
  match n with
  | NavigableString _ | Comment _ | ContainerString _ _ => Some n
  | Tag nm a cs =>
      let n' := Tag nm a (omap (process_images md_path) cs) in
      let img_src := Soup.get_or_empty "src" n in
      if Soup.named ["img"] n && truthy img_src then
        if Py.startswith img_src "data:" then None
        else
          let resolved_path := resolve_image_path img_src md_path in
          if is_url resolved_path then None
          else Some (Soup.set_attr "src" resolved_path n')
      else Some n'
  end.

(** What one child of the soup appends to [dita_parts]; [None] when the
    table converter raises. *)
Definition convert_block (element : node) : option (list string) :=
  let list_lines tag :=
    ("    <" +:+ tag +:+ ">")
    :: concat (map (fun li =>
                      "      <li>"
                      :: map (fun part => "        " +:+ part)
                             (convert_list_item_content li)
                      ++ ["      </li>"])
                   (Soup.find_all_direct is_li element))
    ++ ["    </" +:+ tag +:+ ">"] in
  if Soup.named ["h1"] element then Some []
  else if Soup.named ["h2"; "h3"; "h4"; "h5"; "h6"] element then
    Some ["    <section><title>" +:+ escape_xml (Soup.get_text_strip element)
          +:+ "</title></section>"]
  else if Soup.named ["p"] element then
    Some ["    <p>" +:+ convert_element_content element +:+ "</p>"]
  else if Soup.named ["ul"] element then Some (list_lines "ul")
  else if Soup.named ["ol"] element then Some (list_lines "ol")
  else if Soup.named ["pre"] element then Some ["    " +:+ convert_pre element]
  else if Soup.named ["table"] element then
    table ← convert_table_to_dita element; Some [table]
  else if Soup.named ["img"] element then
    let img_src := Soup.get_or_empty "src" element in
    let img_alt := Soup.get_or_empty "alt" element in
    if truthy img_src then
      Some (("    " +:+ image_break img_src)
            :: (if truthy img_alt
                then ["      <alt>" +:+ escape_xml img_alt +:+ "</alt>"] else [])
            ++ ["    </image>"])
    else Some []
  else Some [].

(** The soup of a source after the link loop and the image loop; [None]
    when the link loop raises. *)
Definition prepared_soup (md_path md_content : string)
    (file_to_topic : gmap string topic_info) : option (list node) :=
  let soup := markdown_soup md_content in
  soup ← (if decide (file_to_topic = ∅) then Some soup
          else mapM (mark_links file_to_topic) soup);
  Some (omap (process_images md_path) soup).

(** [None] stands for an exception that leaves the function. *)
Definition md_to_dita_topic (md_path tid title : string)
    (file_to_topic : gmap string topic_info) : option string :=
  match read_file md_path with
  | Absent => Some (missing_topic md_path tid title)
  | Unreadable => None
  | Contents md_content =>
      soup ← prepared_soup md_path md_content file_to_topic;
      blocks ← mapM convert_block soup;
      Some (Py.join nl (topic_header tid title ++ concat blocks
                        ++ ["  </body>"; "</topic>"]))
  end.

(** *** [build_dita_map] *)

(** The title of the map: the argument, else the text of the first link of
    the first item of the outline, else a fixed word. *)
Definition document_title (toc_soup : node) (title : option string) : string :=
  let given := default "" title in
  if truthy given then given
  else
    let from_outline :=
      top_ol ← Soup.find is_list toc_soup;
      first_li ← Soup.find is_li top_ol;
      first_link ← Soup.find (Soup.named ["a"]) first_li;
      Some (Soup.get_text_strip first_link) in
    let doc_title := default "" from_outline in
    if truthy doc_title then doc_title else "Documentation".

(** The second pass: one file written per entry of [files_to_process], in
    order; the flag tells whether the loop ran to its end. *)
Fixpoint generate_topics (file_to_topic : gmap string topic_info)
    (todo : list pending) : list (string * string) * bool :=
  match todo with
  | [] => ([], true)
  | p :: rest =>
      match md_to_dita_topic (p_href p) (p_id p) (p_title p) file_to_topic with
      | None => ([], false)
      | Some dita_content =>
          let '(written, finished) := generate_topics file_to_topic rest in
          ((p_filename p, dita_content) :: written, finished)
      end
  end.

(** The index after the first pass over the outline. *)
Definition corpus_index (toc_soup : node) (base_path : string) : index_state :=
  match Soup.find is_list toc_soup with
  | Some top_ol => collect_files base_path top_ol initial_index
  | None => initial_index
  end.

(** The lines the third pass appends to [ditamap_parts]. *)
Definition map_lines (toc_soup : node) (base_path : string) : list map_line :=
  match Soup.find is_list toc_soup with
  | Some top_ol =>
      build_map_structure base_path
        (file_to_topic (corpus_index toc_soup base_path)) top_ol "  "
  | None => []
  end.

Definition ditamap_content (toc_soup : node) (base_path doc_title : string)
    : string :=
  Py.join nl
    ([ xml_declaration;
       doctype "map" "Map" "map.dtd";
       "<map>";
       "  <title>" +:+ escape_xml doc_title +:+ "</title>" ]
     ++ map render_map_line (map_lines toc_soup base_path)
     ++ ["</map>"]).

(** The run: the topic files written below [dita_dir], as pairs of a file
    name and its text, and the returned [(ditamap_content, doc_title)];
    [None] when an exception ends the run before the map is built. *)
Definition build_dita_map (toc_soup : node) (base_path : string)
    (title : option string)
    : list (string * string) * option (string * string) :=
  let doc_title := document_title toc_soup title in
  let st := corpus_index toc_soup base_path in
  let '(written, finished) :=
    generate_topics (file_to_topic st) (files_to_process st) in
  (written,
   if finished then Some (ditamap_content toc_soup base_path doc_title, doc_title)
   else None).

End Translator.

(** ** The TOC parser: [convert_headings_to_lists] *)

(** The loop variables.  [heading_stack] has its top first. *)
Record toc_state : Type := TocState {
  heading_stack : list nat;
  item_counters : gmap nat nat;
  output : list string
}.

(** The [while] loop that counts and removes the leading [#]s. *)
Fixpoint count_hashes (s : string) : nat * string :=
  match s with
  | String "#" s' => let '(n, r) := count_hashes s' in (S n, r)
  | _ => (0, s)
  end.

(** [re.match(r'^[\d.]+\s+(.+)$', heading_text)] and its group 1, for a
    [heading_text] that is stripped and holds no line feed (it is a piece of
    a line): the numbering, the white space after it, and some text. *)
Definition clean_heading (heading_text : string) : string :=
  let after_number :=
    Py.drop_while (fun c => Py.is_decimal c || Ascii.eqb c ".") heading_text in
  let after_space := Py.drop_while Py.isspace after_number in
  if String.eqb after_number heading_text then heading_text
  else if String.eqb after_space after_number then heading_text
  else if String.eqb after_space "" then heading_text
  else after_space.

(** [del item_counters[clear_level]] for the levels of
    [range(indent_level + 1, 10)] that are present. *)
Definition clear_deeper (indent_level : nat) (counters : gmap nat nat)
    : gmap nat nat :=
  foldr delete counters (seq (indent_level + 1) (10 - (indent_level + 1))).

(** [item_counters[k] = item_counters.get(k, 0) + 1]. *)
Definition bump (k : nat) (counters : gmap nat nat) : gmap nat nat :=
  <[k := default 0 (counters !! k) + 1]> counters.

(** The numbered entry the loop appends: four spaces per level, the counter
    of the level, a dot, a space and the text (the branch of the script for
    level 0 writes the same text with no indentation). *)
Definition numbered_entry (indent_level number : nat) (text : string) : string :=
  Py.repeat_str "    " indent_level +:+ pretty number +:+ ". " +:+ text.

(** The item appended for a list line below the current heading. *)
Definition append_item (content : string) (st : toc_state) : toc_state :=
  let indent_level := length (heading_stack st) in
  let counters := bump indent_level (item_counters st) in
  {| heading_stack := heading_stack st;
     item_counters := counters;
     output := output st ++
       [numbered_entry indent_level (default 0 (counters !! indent_level))
          content] |}.

(** [while heading_stack and heading_stack[-1] >= level: heading_stack.pop()]. *)
Fixpoint pop_closed (level : nat) (stack : list nat) : list nat :=
  match stack with
  | top :: below => if (level <=? top)%nat then pop_closed level below else stack
  | [] => []
  end.

(** The body of the [while] loop for one line. *)
Definition toc_line (st : toc_state) (line : string) : toc_state :=
  let stripped := Py.strip line in
  if Py.startswith stripped "#" then
    let '(level, rest) := count_hashes stripped in
    let heading_text := Py.strip rest in
    if (level =? 1)%nat then st
    else
      let indent_level := level - 2 in
      let stack := pop_closed level (heading_stack st) in
      let counters := bump indent_level
                        (clear_deeper indent_level (item_counters st)) in
      {| heading_stack := level :: stack;
         item_counters := counters;
         output := output st ++
           [numbered_entry indent_level
              (default 0 (counters !! indent_level))
              (clean_heading heading_text)] |}
  else if truthy stripped then
    match stripped with
    | String c _ =>
        if Py.isdigit c && Py.contains ". " (Py.take 5 stripped) then
          let content :=
            if Py.contains ". " stripped
            then default "" (Py.split_max ". " 1 stripped !! 1)
            else stripped in
          append_item content st
        else if Py.startswith stripped "- " then
          append_item (Py.strip (Py.drop 2 stripped)) st
        else st
    | EmptyString => st
    end
  else st.

Definition convert_headings_to_lists (md_text : string) : string :=
  Py.join nl
    (output (foldl toc_line (TocState [] ∅ []) (Py.split nl md_text))).

(** ** The traversal of the first pass, as a sequence of encounters *)

(** One encounter of the first pass: a link that reaches the lines under
    "Build mapping", with its text and its path. *)
Record visit : Type := Visit { v_title : string; v_href : string }.

Definition v_key (v : visit) : string := normalize_path (v_href v).

Section Encounters.

Variable base_path : string.

(** The encounter of an item itself, before its nested list is entered. *)
Definition own_visit (li : node) : list visit :=
  match Soup.find is_a_href li with
  | Some link_tag =>
      let href := Soup.get_or_empty "href" link_tag in
      if is_url href then []
      else [Visit (Soup.get_text_strip link_tag) (outline_path base_path href)]
  | None => []
  end.

(** The encounters of [collect_files], depth first and left to right. *)
Fixpoint visits (ol : node) {struct ol} : list visit :=
  match ol with
  | NavigableString _ | Comment _ | ContainerString _ _ => []
  | Tag _ _ items =>
      (fix each (items : list node) : list visit :=
         match items with
         | [] => []
         | li :: rest =>
             if is_li li then
               (own_visit li ++ Soup.with_first_child is_list visits [] li)
               ++ each rest
             else each rest
         end) items
  end.

(** What the first pass does at one encounter. *)
Definition index_visit (st : index_state) (v : visit) : index_state :=
  register (v_title v) (v_href v) st.

End Encounters.

(** The encounters that meet their key for the first time, in order. *)
Fixpoint first_seen (seen : list string) (vs : list visit) : list visit :=
  match vs with
  | [] => []
  | v :: rest =>
      if bool_decide (v_key v ∈ seen) then first_seen seen rest
      else v :: first_seen (v_key v :: seen) rest
  end.

(** The identifier and the file name of the [n]-th topic. *)
Definition nth_topic_id (n : nat) : string := "topic_" +:+ pretty n.
Definition nth_topic_filename (n : nat) : string := nth_topic_id n +:+ ".dita".

(** The entry of [files_to_process] for the encounter that opens topic
    [start + i]. *)
Definition pending_of (start i : nat) (v : visit) : pending :=
  Pending (v_href v) (nth_topic_id (start + i)) (v_title v)
          (nth_topic_filename (start + i)).

Definition info_of (n : nat) (v : visit) : topic_info :=
  TopicInfo (nth_topic_id n) (nth_topic_filename n) (v_title v).

(** ** A model of [urllib.parse.urlparse] for the examples *)

Module Url.

(** The text up to the first character of [stops]. *)
Fixpoint until (stops : string) (s : string) : string :=
  match s with
  | EmptyString => ""
  | String c s' => if Py.mem_char c stops then "" else String c (until stops s')
  end.

(** [_splitparams]: the parameters start at the first semicolon after the
    last slash. *)
Definition without_params (path : string) : string :=
  let pieces := Py.split "/" path in
  let last_piece := List.last pieces "" in
  Py.take (String.length path - String.length last_piece) path
  +:+ until ";" last_piece.

(** [(netloc, path)] of an [http://] or [https://] address: tabs and line
    breaks are removed, the host ends at the first [/], [?] or [#], the path
    at the first [#], [?] or parameter.  A host with one kind of bracket
    and not the other is the [ValueError] of an invalid address.  Recent
    versions of the library also check what stands between two brackets,
    and the library rejects some hosts outside ASCII; the examples have no
    such host. *)
Definition urlparse (url : string) : option (string * string) :=
  let url := Py.replace (String "009"%char "") ""
               (Py.replace (String "013"%char "") "" (Py.replace nl "" url)) in
  let rest := if Py.startswith url "https:" then Py.drop 6 url
              else if Py.startswith url "http:" then Py.drop 5 url else url in
  let '(netloc, rest) :=
    if Py.startswith rest "//"
    then let host := until "/?#" (Py.drop 2 rest) in
         (host, Py.drop (2 + String.length host) rest)
    else ("", rest) in
  if xorb (Py.contains "[" netloc) (Py.contains "]" netloc) then None
  else Some (netloc, without_params (until "#?" rest)).

End Url.

(** ** The canonical outline of the specification *)

(** The outline tree of the data model: a link with its children, or a
    labelled container. *)
Inductive outline : Type :=
| Link (title target : string) (children : list outline)
| Container (label : string) (children : list outline).

(** The nested list a Markdown outline is parsed to: an item holds its link
    or its label, then the list of its children if it has any; line feeds
    separate the items. *)
Definition html_list (items : list node) : node :=
  Tag "ol" ∅ (NavigableString nl
              :: flat_map (fun li => [li; NavigableString nl]) items).

Definition html_nested (items : list node) : list node :=
  match items with
  | [] => []
  | _ => [html_list items; NavigableString nl]
  end.

Definition html_link (target title : string) : node :=
  Tag "a" {[ "href" := target ]} [NavigableString title].

Fixpoint outline_item (o : outline) : node :=
  match o with
  | Link title target children =>
      Tag "li" ∅ (html_link target title
                  :: html_nested (map outline_item children))
  | Container label children =>
      Tag "li" ∅ (NavigableString label
                  :: html_nested (map outline_item children))
  end.

Definition outline_list (os : list outline) : node :=
  html_list (map outline_item os).


Section Mirror.

Variable base_path : string.
Variable index : gmap string topic_info.

(** The key of an outline target, and the file name the index gives it. *)
Definition target_key (target : string) : string :=
  normalize_path (outline_path base_path target).





End Mirror.

(** ** The TOC parser: [parse_markdown_toc] and the title of [main] *)

(** The title taken from the first line that starts with a single mark and
    a space. *)
Definition extract_title (toc_md_text : string) : option string :=
  (fun line => Py.strip (Py.drop 2 (Py.strip line)))
  <$> List.find (fun line => Py.startswith (Py.strip line) "# ")
                (Py.split nl toc_md_text).

(** [has_headings]. *)
Definition has_headings (toc_md_text : string) : bool :=
  existsb (fun line => Py.startswith (Py.strip line) "#")
          (Py.split nl toc_md_text).

(** One line of the test [has_indented_lists]: indented by two spaces, and
    starting, once stripped, with a bracket or a digit. *)
Definition is_indented_item (line : string) : bool :=
  Py.startswith line "  "
  && match Py.strip line with
     | EmptyString => false
     | String c _ as stripped => Py.startswith stripped "[" || Py.isdigit c
     end.

Definition has_indented_lists (toc_md_text : string) : bool :=
  existsb is_indented_item (Py.split nl toc_md_text).

(** The horizontal tab, as a one-character string. *)
Definition tab : string := String "009"%char "".

(** [prev_is_list] and [next_is_list] for a neighbour that exists: the line
    is not blank and starts with two spaces or a tab. *)
Definition is_list_line (line : string) : bool :=
  truthy (Py.strip line)
  && (Py.startswith line "  " || Py.startswith line tab).

Definition neighbour_is_list (neighbour : option string) : bool :=
  match neighbour with
  | Some line => is_list_line line
  | None => false
  end.

(** The loop that builds [cleaned_lines]; [prev] is [lines[i-1]], absent for
    the first line, and the head of the remaining lines is [lines[i+1]]. *)
Fixpoint drop_list_blanks (prev : option string) (lines : list string)
    : list string :=
  match lines with
  | [] => []
  | line :: rest =>
      if String.eqb (Py.strip line) ""
         && neighbour_is_list prev && neighbour_is_list (head rest)
      then drop_list_blanks (Some line) rest
      else line :: drop_list_blanks (Some line) rest
  end.

(** [cleaned_md]: the text handed to the Markdown parser. *)
Definition cleaned_toc (toc_md_text : string) : string :=
  let toc_md_text :=
    if has_headings toc_md_text && negb (has_indented_lists toc_md_text)
    then convert_headings_to_lists toc_md_text
    else toc_md_text in
  Py.join nl (drop_list_blanks None (Py.split nl toc_md_text)).

Section TocParser.

(** [markdown.markdown(text, extensions=["extra"])] followed by
    [BeautifulSoup(html, "html.parser")]. *)
Variable toc_soup_of : string -> node.

(** The source files, as in the translator. *)
Variable read_file : string -> source_file.

(** [None] stands for the [FileNotFoundError] of a missing outline and for
    the exception of one that cannot be read. *)
Definition parse_markdown_toc (md_file : string) : option (node * option string) :=
  match read_file md_file with
  | Contents toc_md_text =>
      Some (toc_soup_of (cleaned_toc toc_md_text), extract_title toc_md_text)
  | Absent | Unreadable => None
  end.

End TocParser.

(** [final_title = args.title or extracted_title] of [main]. *)
Definition final_title (arg_title extracted_title : option string)
    : option string :=
  if truthy (default "" arg_title) then arg_title else extracted_title.

(** * Specification-side definitions

    The notions the properties are stated with, the helper functions of
    their proofs, and the sample inputs. *)

(** The third pass on one item. *)
Definition map_item (base_path : string) (index : gmap string topic_info)
    (indent : string) (li : node) : list map_line :=
  let nested indent :=
    match Soup.find_direct is_list li with
    | Some nested_ol => build_map_structure base_path index nested_ol indent
    | None => []
    end in
  match Soup.find_direct is_a_href li with
  | Some link_tag =>
      let href := Soup.get_or_empty "href" link_tag in
      if is_url href then nested indent
      else
        match index !! normalize_path (outline_path base_path href) with
        | Some topic_info =>
            match Soup.find_direct is_list li with
            | Some _ =>
                TopicrefOpen indent (topic_filename topic_info)
                :: nested (indent +:+ "  ") ++ [TopicrefClose indent]
            | None => [TopicrefLeaf indent (topic_filename topic_info)]
            end
        | None => []
        end
  | None =>
      match Soup.find_text_direct li with
      | Some (String _ _ as title_text) =>
          let title_text := Py.strip title_text in
          if truthy title_text then
            TopicheadOpen indent (escape_xml title_text)
            :: nested (indent +:+ "  ") ++ [TopicheadClose indent]
          else []
      | _ => nested indent
      end
  end.



(** The soup of an outline document: the list is the only child. *)
Definition outline_document (os : list outline) : node :=
  Tag "[document]" ∅ [outline_list os].

Definition no_resolve : string -> string -> option string := fun _ _ => None.




(** The level and the text of a heading line; [None] for another line. *)
Definition heading_of (line : string) : option (nat * string) :=
  let stripped := Py.strip line in
  if Py.startswith stripped "#" then
    let '(level, rest) := count_hashes stripped in Some (level, Py.strip rest)
  else None.

(** A line of a heading-only outline: blank, or a heading of at most
    [max_level] marks. *)
Definition heading_or_blank (max_level : nat) (line : string) : bool :=
  match heading_of line with
  | Some (level, _) => (level <=? max_level)%nat
  | None => negb (truthy (Py.strip line))
  end.

(** The earlier headings of [level] in the open scope: those met going back
    from the latest heading until a shallower one.  [before] lists the levels
    of the earlier headings below the top level, the latest first. *)
Fixpoint open_siblings (level : nat) (before : list nat) : nat :=
  match before with
  | [] => 0
  | l :: earlier =>
      if (l <? level)%nat then 0
      else (if (l =? level)%nat then 1 else 0) + open_siblings level earlier
  end.

Definition sibling_number (level : nat) (before : list nat) : nat :=
  S (open_siblings level before).

(** The entries the specification gives a sequence of headings. *)
Fixpoint number_headings (before : list nat) (headings : list (nat * string))
    : list string :=
  match headings with
  | [] => []
  | (level, text) :: rest =>
      if (level =? 1)%nat then number_headings before rest
      else numbered_entry (level - 2) (sibling_number level before)
                          (clean_heading text)
           :: number_headings (level :: before) rest
  end.

(** The counters agree with the open scopes of the headings met so far. *)
Definition counters_agree (counters : gmap nat nat) (before : list nat) : Prop :=
  forall d, d < 10 -> default 0 (counters !! d) = open_siblings (d + 2) before.

(** Some character of [s] is not white space. *)
Definition has_visible (s : string) : Prop :=
  exists c, In c (list_ascii_of_string s) /\ Py.isspace c = false.

(** The text of the children of [parent] other than images. *)
Definition sibling_text (parent : node) : string :=
  Py.concat_all
    (map (fun child => if Soup.named ["img"] child then ""
                       else Soup.get_text child)
         (Soup.children parent)).

(** The cells the converter emits for a table: those of the rows of its
    head, then those of the rows of its body. *)
Definition section_cells (section : option node) : list node :=
  match section with
  | Some section => flat_map (Soup.find_all is_cell) (Soup.find_all is_tr section)
  | None => []
  end.

Definition table_cells (table_element : node) : list node :=
  section_cells (Soup.find (Soup.named ["thead"]) table_element)
  ++ section_cells (Soup.find (Soup.named ["tbody"]) table_element).

(** A line that specifies a column. *)
Definition is_colspec (line : string) : bool :=
  Py.startswith line "        <colspec ".

(** The column count of the specification: the number of cells of the
    first row of the head, or of the first row of the body when there is no
    head; 1 when there is no such row. *)
Definition specified_columns (table_element : node) : nat :=
  let cells_of_first_row section :=
    (fun first_row => length (Soup.find_all is_cell first_row))
    <$> Soup.find is_tr section in
  default 1
    match Soup.find (Soup.named ["thead"]) table_element with
    | Some thead => cells_of_first_row thead
    | None => Soup.find (Soup.named ["tbody"]) table_element
              ≫= cells_of_first_row
    end.

(** The column specification of the column with number [k]. *)
Definition specified_colspec (k : nat) : string :=
  "        <colspec colname=" +:+ dq +:+ "c" +:+ pretty k +:+ dq
  +:+ " colnum=" +:+ dq +:+ pretty k +:+ dq +:+ "/>".

(** The entry of a cell: a column span [n] is kept as the start column 1
    and the end column [n], a row span as the number of additional rows. *)
Definition specified_entry (cell : node) : string :=
  let colspan := Soup.get_or_empty "colspan" cell in
  let rowspan := Soup.get_or_empty "rowspan" cell in
  "            <entry"
  +:+ (if truthy colspan
       then " namest=" +:+ dq +:+ "c1" +:+ dq
            +:+ " nameend=" +:+ dq +:+ "c" +:+ colspan +:+ dq
       else "")
  +:+ (if truthy rowspan
       then " morerows=" +:+ dq
            +:+ pretty (default 0%Z (Py.int rowspan) - 1)%Z +:+ dq
       else "")
  +:+ ">" +:+ convert_element_content cell +:+ "</entry>".

Definition specified_row (tr : node) : list string :=
  ["          <row>"]
  ++ map specified_entry (Soup.find_all is_cell tr)
  ++ ["          </row>"].

Definition specified_section (tag : string) (section : option node)
    : list string :=
  match section with
  | Some section =>
      ["        <" +:+ tag +:+ ">"]
      ++ flat_map specified_row (Soup.find_all is_tr section)
      ++ ["        </" +:+ tag +:+ ">"]
  | None => []
  end.

(** The lines of a table, as the specification describes it. *)
Definition specified_table_lines (table_element : node) : list string :=
  let columns := specified_columns table_element in
  [ "    <table>";
    "      <tgroup cols=" +:+ dq +:+ pretty columns +:+ dq +:+ ">" ]
  ++ map specified_colspec (seq 1 columns)
  ++ specified_section "thead" (Soup.find (Soup.named ["thead"]) table_element)
  ++ specified_section "tbody" (Soup.find (Soup.named ["tbody"]) table_element)
  ++ [ "      </tgroup>"; "    </table>" ].



(** The address is on the site the link loop accepts. *)
Definition on_expected_site (urlparse : string -> option (string * string))
    (href : string) : bool :=
  match urlparse href with
  | Some (netloc, _) =>
      Py.contains "helpx.adobe.com" netloc || Py.contains "adobe.com" netloc
  | None => false
  end.

(** The index entry the link loop finds for [href], if any; the outer
    [None] when the loop raises on [href]. *)
Definition link_target (urlparse : string -> option (string * string))
    (index : gmap string topic_info) (href : string)
    : option (option topic_info) :=
  found ← link_key urlparse href;
  Some (found ≫= fun normalized => index !! normalized).

(** The output the specification gives a link: an internal reference when
    the key is indexed, else an external reference for an address that is
    not on the expected site, else the text of the link. *)
Definition specified_link_output (urlparse : string -> option (string * string))
    (index : gmap string topic_info) (a_tag : node) : string :=
  let href := Soup.get_or_empty "href" a_tag in
  let link_text := Soup.get_text_strip a_tag in
  match default None (link_target urlparse index href) with
  | Some target =>
      "<xref href=" +:+ dq +:+ topic_filename target +:+ dq +:+ " format="
      +:+ dq +:+ "dita" +:+ dq +:+ ">" +:+ escape_xml link_text +:+ "</xref>"
  | None =>
      if is_url href && negb (on_expected_site urlparse href)
      then "<xref href=" +:+ dq +:+ escape_xml href +:+ dq +:+ " format="
           +:+ dq +:+ "html" +:+ dq +:+ " scope=" +:+ dq +:+ "external" +:+ dq
           +:+ ">" +:+ escape_xml link_text +:+ "</xref>"
      else escape_xml link_text
  end.

(** The output of the script for a link with the index entry [target]: an
    unmatched address stays an external reference, on the expected site or
    not. *)
Definition resolved_link_output (target : option topic_info)
    (href link_text : string) : string :=
  match target with
  | Some target =>
      "<xref href=" +:+ dq +:+ topic_filename target +:+ dq +:+ " format="
      +:+ dq +:+ "dita" +:+ dq +:+ ">" +:+ escape_xml link_text +:+ "</xref>"
  | None =>
      if is_url href
      then "<xref href=" +:+ dq +:+ escape_xml href +:+ dq +:+ " format="
           +:+ dq +:+ "html" +:+ dq +:+ " scope=" +:+ dq +:+ "external" +:+ dq
           +:+ ">" +:+ escape_xml link_text +:+ "</xref>"
      else escape_xml link_text
  end.

(** The strings at and below [n] that [get_text] of an element named
    [name] joins. *)
Definition strings_for (name : string) (n : node) : list string :=
  omap (Soup.interesting name) (n :: Soup.descendants n).

Definition scenario_toc : node :=
  outline_document [ Link "Intro" "guide/intro.html" [];
                     Link "Layers" "guide/layers.html" [] ].

Definition scenario_index : gmap string topic_info :=
  file_to_topic (corpus_index scenario_toc MD_DIR).

Definition layers_source : string := "See [Intro](../intro.html#anchor).".

Definition scenario_files (path : string) : source_file :=
  if String.eqb path "md/./guide/layers.md" then Contents layers_source
  else if String.eqb path "md/./guide/intro.md" then Contents "Intro text."
  else Absent.

(** What the Markdown parser returns for the two sources. *)
Definition scenario_markdown (md_content : string) : list node :=
  if String.eqb md_content layers_source then
    [Tag "p" ∅ [ NavigableString "See ";
                 html_link "../intro.html#anchor" "Intro";
                 NavigableString "." ]]
  else [Tag "p" ∅ [NavigableString md_content]].

Definition missing_link : node :=
  html_link "https://helpx.adobe.com/missing.html" "Missing".

(** A source whose only paragraph links to an address with an unmatched
    bracket in its host. *)
Definition bracket_source : string := "[bad](http://[bad/page.html)".

Definition bracket_files (path : string) : source_file := Contents bracket_source.

Definition bracket_markdown (md_content : string) : list node :=
  [Tag "p" ∅ [html_link "http://[bad/page.html" "bad"]].



(** Two outlines with the same encounters: the second wraps the link in a
    paragraph and has strings between its items. *)
Definition tight_list : node :=
  Tag "ol" ∅ [Tag "li" ∅ [html_link "a.html" "A"]].

Definition loose_list : node :=
  Tag "ul" ∅ [ NavigableString nl;
               Tag "li" ∅ [ NavigableString nl;
                            Tag "p" ∅ [html_link "a.html" "A"];
                            NavigableString nl ];
               NavigableString nl ].

(** An outline that meets one key three times. *)
Definition repeating_list : node :=
  outline_list [ Link "Intro" "guide/intro.html" [];
                 Link "Layers" "guide/layers.html"
                   [Link "Intro again" "/guide/intro.md" []];
                 Link "Intro, third" "./guide/intro.html" [] ].

Definition deep_headings : string :=
  Py.join nl ["############ X"; "## Y"; "############ Z"].

Definition sample_headings : string :=
  Py.join nl ["# Title"; "## A"; "### B"; "### C"; ""; "## D"; "### E"].



(** The characters that open or close markup or an attribute value. *)
Definition markup_chars : list ascii :=
  ["<"; ">"; "034"; "'"]%char.

(** The record of an entry of [files_to_process]. *)
Definition record_of (p : pending) : topic_info :=
  TopicInfo (p_id p) (p_filename p) (p_title p).

(** The sizes agree and every entry has its record. *)
Definition index_agrees (st : index_state) : Prop :=
  topic_counter st = length (files_to_process st)
  /\ size (file_to_topic st) = length (files_to_process st)
  /\ (forall p, p ∈ files_to_process st ->
        file_to_topic st !! normalize_path (p_href p) = Some (record_of p))
  /\ (forall k info, file_to_topic st !! k = Some info ->
        exists p, p ∈ files_to_process st /\ normalize_path (p_href p) = k
                  /\ info = record_of p).

(** The address of an outline link made relative to the root: the lines
    under "Normalize path" before the join. *)
Definition rooted (href : string) : string :=
  if Py.startswith href "/" then "." +:+ href
  else if negb (Py.startswith href "./") then "./" +:+ href
  else href.

(** [base_path] with the separator [os.path.join] adds. *)
Definition join_prefix (base_path : string) : string :=
  if String.eqb base_path "" || Py.endswith base_path "/" then base_path
  else base_path +:+ "/".

(** No character of [s] is one of [stops]. *)
Definition free_of (stops s : string) : Prop :=
  forall c, In c (list_ascii_of_string s) -> Py.mem_char c stops = false.

(** A suffix that is empty or starts a fragment or a query. *)
Definition is_suffix (suffix : string) : Prop :=
  suffix = "" \/ Py.startswith suffix "#" = true
  \/ Py.startswith suffix "?" = true.

(** An element of the map that is open: a topic reference or a heading,
    with the indentation of its opening line. *)
Inductive frame : Type :=
| RefFrame (indent : string)
| HeadFrame (indent : string).

Definition frame_indent (f : frame) : string :=
  match f with RefFrame indent | HeadFrame indent => indent end.

(** The indentation of the lines inside the innermost open element. *)
Definition inner_indent (base : string) (stack : list frame) : string :=
  match stack with
  | [] => base
  | f :: _ => frame_indent f +:+ "  "
  end.

(** Reading the lines of a map: an opening line pushes its element, a
    closing line must close the innermost open element, and every line but
    a closing one must be indented two spaces more than that element.
    [None] when a line breaks the nesting. *)
Fixpoint read_map (base : string) (stack : list frame) (lines : list map_line)
    : option (list frame) :=
  match lines with
  | [] => Some stack
  | line :: rest =>
      let here := inner_indent base stack in
      match line with
      | TopicrefLeaf indent _ =>
          if String.eqb indent here then read_map base stack rest else None
      | TopicrefOpen indent _ =>
          if String.eqb indent here
          then read_map base (RefFrame indent :: stack) rest else None
      | TopicheadOpen indent _ =>
          if String.eqb indent here
          then read_map base (HeadFrame indent :: stack) rest else None
      | TopicrefClose indent =>
          match stack with
          | RefFrame opened :: below =>
              if String.eqb indent opened then read_map base below rest else None
          | _ => None
          end
      | TopicheadClose indent =>
          match stack with
          | HeadFrame opened :: below =>
              if String.eqb indent opened then read_map base below rest else None
          | _ => None
          end
      end
  end.

(** A link on which the link loop raises: its address is not a fragment,
    starts with [http://] or [https://], and [urlparse] rejects it. *)
Definition link_raises (urlparse : string -> option (string * string))
    (d : node) : bool :=
  let href := Soup.get_or_empty "href" d in
  is_a_href d && negb (Py.startswith href "#") && is_url href
  && bool_decide (urlparse href = None).

(** An image whose source is fetched over the network. *)
Definition remote_image (n : node) : bool :=
  Soup.named ["img"] n && is_url (Soup.get_or_empty "src" n).

(** A tree without the two attributes the link loop sets. *)
Fixpoint unmark (n : node) : node :=
  match n with
  | NavigableString s => NavigableString s
  | Comment s => Comment s
  | ContainerString c s => ContainerString c s
  | Tag nm a cs =>
      Tag nm (delete "data-dita-scope" (delete "data-dita-href" a)) (map unmark cs)
  end.

(** A list item without the lists nested in it. *)
Definition without_nested_lists (li : node) : node :=
  match li with
  | NavigableString s => NavigableString s
  | Comment s => Comment s
  | ContainerString c s => ContainerString c s
  | Tag nm a cs => Tag nm a (List.filter (fun c => negb (is_list c)) cs)
  end.

(** A list whose items have lost their nested lists. *)
Definition flat_list (element : node) : node :=
  match element with
  | NavigableString s => NavigableString s
  | Comment s => Comment s
  | ContainerString c s => ContainerString c s
  | Tag nm a cs => Tag nm a (map without_nested_lists cs)
  end.

(** What the five replacements make of one character. *)
Definition escape_char (x : ascii) : list ascii :=
  if ascii_dec "&" x then list_ascii_of_string "&amp;"
  else if ascii_dec "<" x then list_ascii_of_string "&lt;"
  else if ascii_dec ">" x then list_ascii_of_string "&gt;"
  else if ascii_dec "034" x then list_ascii_of_string "&quot;"
  else if ascii_dec "'" x then list_ascii_of_string "&apos;"
  else [x].

(** The levels of the open headings, the innermost first: each at least 2
    and deeper than the ones below it. *)
Fixpoint open_levels (stack : list nat) : Prop :=
  match stack with
  | [] => True
  | top :: below =>
      2 <= top /\ Forall (fun level => level < top) below /\ open_levels below
  end.

Definition is_blank (line : string) : bool := String.eqb (Py.strip line) "".

Definition numbering_char (c : ascii) : bool := Py.is_decimal c || Ascii.eqb c ".".

Definition all_chars (p : ascii -> bool) (s : string) : Prop :=
  forall c, In c (list_ascii_of_string s) -> p c = true.

(** The children [convert_element_content] has a branch of its own for. *)
Definition inline_markup : list string :=
  ["a"; "code"; "strong"; "b"; "em"; "i"; "img"].

(** A string that [get_text] of an element around it leaves out. *)
Definition left_out (n : node) : bool :=
  match n with Comment _ | ContainerString _ _ => true | _ => false end.

(** A paragraph with a remote image and a local one. *)
Definition sample_images : list node :=
  [Tag "p" ∅
     [ Tag "img" {[ "src" := "https://example.com/logo.png" ]} [];
       Tag "img" {[ "src" := "figure.png" ]} [] ]].

Definition sample_resolve (img_src md_file_path : string) : option string :=
  Some ("../md/" +:+ img_src).

(** A list item with a list nested in it. *)
Definition sample_nested_list : node :=
  Tag "ul" ∅
    [Tag "li" ∅
       [ NavigableString "outer";
         Tag "ul" ∅ [Tag "li" ∅ [NavigableString "inner"]] ]].

(** * Properties *)

(** ** The primitives on sample inputs *)

Example normalize_path_ex1 :
  normalize_path "md/./guide/intro.md" = "md/guide/intro.md".
Proof. vm_compute. reflexivity. Qed.

Example normalize_path_ex2 : normalize_path "md/./../intro.md" = "intro.md".
Proof. vm_compute. reflexivity. Qed.

Example normalize_path_ex3 : normalize_path "./../a/b.html" = "a/b.md".
Proof. vm_compute. reflexivity. Qed.

Example split_ex :
  Py.split "#" "a#b#" = ["a"; "b"; ""] /\ Py.split_max ". " 1 "1. a. b" = ["1"; "a. b"]
  /\ Py.int " +1_0 " = Some 10%Z /\ Py.int "1__0" = None /\ Py.int "-2" = Some (-2)%Z
  /\ Py.int (String "028"%char "2") = None /\ Py.int "+ 1" = None.
Proof. vm_compute. repeat split; reflexivity. Qed.

Example convert_headings_docstring :
  convert_headings_to_lists
    (Py.join nl
       [ "# Title"; "## Section 1"; "1. [Link 1](url1)"; "2. [Link 2](url2)";
         "### Subsection 1.1"; "1. [Link 3](url3)"; "## Section 2";
         "1. [Link 4](url4)" ])
  = Py.join nl
      [ "1. Section 1"; "    1. [Link 1](url1)"; "    2. [Link 2](url2)";
        "    3. Subsection 1.1"; "        1. [Link 3](url3)"; "2. Section 2";
        "    1. [Link 4](url4)" ].
Proof. vm_compute. reflexivity. Qed.

(** ** Reasoning on the tree *)

Lemma node_ind_forall (P : node -> Prop) :
  (forall s, P (NavigableString s)) ->
  (forall s, P (Comment s)) ->
  (forall c s, P (ContainerString c s)) ->
  (forall nm a cs, Forall P cs -> P (Tag nm a cs)) ->
  forall n, P n.
Proof.
  intros Hs Hc Hk Ht. fix IH 1. intros [s | s | c s | nm a cs].
  - apply Hs.
  - apply Hc.
  - apply Hk.
  - apply Ht. induction cs as [| c cs IHcs]; constructor; [apply IH | exact IHcs].
Qed.

(** Induction that reaches the grandchildren, as the traversals of the
    outline do: from a list to the nested list of one of its items. *)
Lemma node_ind_nested (P : node -> Prop) :
  (forall s, P (NavigableString s)) ->
  (forall s, P (Comment s)) ->
  (forall c s, P (ContainerString c s)) ->
  (forall nm a cs,
      (forall c d, c ∈ cs -> d ∈ Soup.children c -> P d) -> P (Tag nm a cs)) ->
  forall n, P n.
Proof.
  intros Hs Hcomment Hcontainer Ht n.
  enough (P n /\ forall d, d ∈ Soup.children n -> P d) by tauto.
  induction n as [s | s | cn s | nm a cs IH] using node_ind_forall.
  - split; [apply Hs | intros d Hd; simpl in Hd; inversion Hd].
  - split; [apply Hcomment | intros d Hd; simpl in Hd; inversion Hd].
  - split; [apply Hcontainer | intros d Hd; simpl in Hd; inversion Hd].
  - rewrite Forall_forall in IH.
    assert (Hgrand : forall c d, c ∈ cs -> d ∈ Soup.children c -> P d).
    { intros c d Hc Hd. exact (proj2 (IH c Hc) d Hd). }
    split; [apply Ht; exact Hgrand |].
    intros d Hd. simpl in Hd. exact (proj1 (IH d Hd)).
Qed.

Lemma with_first_child_find {A} (p : node -> bool) (k : node -> A) (d : A) n :
  Soup.with_first_child p k d n
  = match Soup.find_direct p n with Some c => k c | None => d end.
Proof.
  destruct n as [s | s | cn s | nm a cs]; [reflexivity | reflexivity | reflexivity |].
  unfold Soup.find_direct, Soup.find_all_direct. simpl.
  induction cs as [| c cs IH]; [reflexivity |].
  simpl. destruct (p c); [reflexivity | exact IH].
Qed.

Lemma find_direct_child (p : node -> bool) n c :
  Soup.find_direct p n = Some c -> c ∈ Soup.children n /\ p c = true.
Proof.
  unfold Soup.find_direct, Soup.find_all_direct.
  intros H. apply head_Some_elem_of in H.
  apply list_elem_of_In, filter_In in H. destruct H as [H1 H2].
  split; [apply list_elem_of_In; exact H1 | exact H2].
Qed.

Lemma visits_items base_path nm a items :
  visits base_path (Tag nm a items)
  = concat (map (fun li =>
                   own_visit base_path li
                   ++ match Soup.find_direct is_list li with
                      | Some nested_ol => visits base_path nested_ol
                      | None => []
                      end)
                (List.filter is_li items)).
Proof.
  simpl. induction items as [| li rest IH]; [reflexivity |].
  simpl. destruct (is_li li); [| exact IH].
  simpl. rewrite with_first_child_find, IH. reflexivity.
Qed.

(** The first pass is the fold of [index_visit] over its encounters. *)
Lemma collect_files_visits base_path ol :
  forall st, collect_files base_path ol st
             = foldl index_visit st (visits base_path ol).
Proof.
  induction ol as [s | s | cn s | nm a items IH] using node_ind_nested;
    [reflexivity | reflexivity | reflexivity |].
  intros st. rewrite visits_items. simpl.
  revert st. induction items as [| li rest IHrest]; intros st; [reflexivity |].
  assert (IH' : forall c d, c ∈ rest -> d ∈ Soup.children c ->
                  forall st, collect_files base_path d st
                             = foldl index_visit st (visits base_path d)).
  { intros c d Hc. apply IH. apply list_elem_of_further. exact Hc. }
  specialize (IHrest IH').
  simpl. destruct (is_li li) eqn:Hli; [| apply IHrest].
  simpl. rewrite foldl_app, IHrest. f_equal.
  rewrite foldl_app.
  assert (Hnested : forall st',
    match Soup.find_direct is_list li with
    | Some c => collect_files base_path c st' | None => st' end
    = foldl index_visit st'
        match Soup.find_direct is_list li with
        | Some nested_ol => visits base_path nested_ol | None => [] end).
  { intros st'. destruct (Soup.find_direct is_list li) as [c |] eqn:Hc; [| reflexivity].
    apply find_direct_child in Hc. apply (IH li c); [apply list_elem_of_here | tauto]. }
  unfold own_visit.
  destruct (Soup.find is_a_href li) as [link_tag |];
    [destruct (is_url _) |]; rewrite with_first_child_find; apply Hnested.
Qed.

(** *** The fold of [index_visit] *)

Lemma index_visit_known st v :
  is_Some (file_to_topic st !! v_key v) -> index_visit st v = st.
Proof.
  intros [info Hinfo]. unfold index_visit, register.
  fold (v_key v). rewrite Hinfo. reflexivity.
Qed.

Lemma index_visit_new st v :
  file_to_topic st !! v_key v = None ->
  index_visit st v
  = {| topic_counter := S (topic_counter st);
       file_to_topic :=
         <[v_key v := info_of (S (topic_counter st)) v]> (file_to_topic st);
       files_to_process :=
         files_to_process st ++ [pending_of (S (topic_counter st)) 0 v] |}.
Proof.
  intros Hnone. unfold index_visit, register.
  fold (v_key v). rewrite Hnone.
  unfold pending_of, info_of. rewrite Nat.add_0_r. reflexivity.
Qed.

Lemma foldl_index_visit_known vs : forall st,
  (forall v, v ∈ vs -> is_Some (file_to_topic st !! v_key v)) ->
  foldl index_visit st vs = st.
Proof.
  induction vs as [| v vs IH]; intros st Hall; [reflexivity |].
  simpl. rewrite index_visit_known by (apply Hall, list_elem_of_here).
  apply IH. intros w Hw. apply Hall, list_elem_of_further, Hw.
Qed.

Lemma first_seen_fresh vs : forall seen v,
  v ∈ first_seen seen vs -> v_key v ∉ seen.
Proof.
  induction vs as [| w vs IH]; intros seen v Hv; simpl in Hv.
  - inversion Hv.
  - case_bool_decide as Hw; [exact (IH _ _ Hv) |].
    apply elem_of_cons in Hv as [-> | Hv]; [exact Hw |].
    apply IH in Hv. intros Hin. apply Hv, list_elem_of_further, Hin.
Qed.

Lemma first_seen_NoDup vs : forall seen, NoDup (v_key <$> first_seen seen vs).
Proof.
  induction vs as [| w vs IH]; intros seen; simpl; [constructor |].
  case_bool_decide as Hw; [apply IH |].
  rewrite fmap_cons. constructor; [| apply IH].
  intros Hin. apply list_elem_of_fmap in Hin as (v & Hkey & Hv).
  apply first_seen_fresh in Hv. apply Hv. rewrite <- Hkey. apply list_elem_of_here.
Qed.

Lemma first_seen_covers vs : forall seen v,
  v ∈ vs -> v_key v ∈ seen \/ v_key v ∈ (v_key <$> first_seen seen vs).
Proof.
  induction vs as [| w vs IH]; intros seen v Hv; [inversion Hv |].
  simpl. apply elem_of_cons in Hv as [-> | Hv].
  - case_bool_decide as Hw; [left; exact Hw |].
    right. rewrite fmap_cons. apply list_elem_of_here.
  - case_bool_decide as Hw; [apply IH, Hv |].
    destruct (IH (v_key w :: seen) v Hv) as [Hs | Hf].
    + apply elem_of_cons in Hs as [Heq | Hs]; [| left; exact Hs].
      right. rewrite fmap_cons, Heq. apply list_elem_of_here.
    + right. rewrite fmap_cons. apply list_elem_of_further, Hf.
Qed.

Lemma first_seen_visited vs : forall seen v,
  v ∈ first_seen seen vs -> v ∈ vs.
Proof.
  induction vs as [| w vs IH]; intros seen v Hv; simpl in Hv; [exact Hv |].
  case_bool_decide; [apply list_elem_of_further, (IH _ _ Hv) |].
  apply elem_of_cons in Hv as [-> | Hv];
    [apply list_elem_of_here | apply list_elem_of_further, (IH _ _ Hv)].
Qed.

(** The state after a run of encounters, from a state whose keys are [seen]. *)
Lemma foldl_index_visit_spec vs : forall st seen,
  (forall k, k ∈ seen <-> is_Some (file_to_topic st !! k)) ->
  let st' := foldl index_visit st vs in
  let firsts := first_seen seen vs in
  topic_counter st' = topic_counter st + length firsts
  /\ files_to_process st'
     = files_to_process st ++ imap (pending_of (S (topic_counter st))) firsts
  /\ (forall i v, firsts !! i = Some v ->
        file_to_topic st' !! v_key v
        = Some (info_of (S (topic_counter st) + i) v))
  /\ (forall k, k ∉ (v_key <$> firsts) ->
        file_to_topic st' !! k = file_to_topic st !! k).
Proof.
  induction vs as [| v vs IH]; intros st seen Hseen; simpl.
  - rewrite Nat.add_0_r, app_nil_r.
    split; [reflexivity |]. split; [reflexivity |].
    split; [intros i v Hi; inversion Hi | reflexivity].
  - case_bool_decide as Hv.
    + rewrite index_visit_known by (apply Hseen, Hv). apply IH, Hseen.
    + assert (Hnone : file_to_topic st !! v_key v = None).
      { apply eq_None_not_Some. intros Hs. apply Hv, Hseen, Hs. }
      rewrite (index_visit_new _ _ Hnone).
      set (st1 := {| topic_counter := S (topic_counter st);
                     file_to_topic := _; files_to_process := _ |}).
      assert (Hseen1 : forall k, k ∈ v_key v :: seen
                                 <-> is_Some (file_to_topic st1 !! k)).
      { intros k. simpl. rewrite elem_of_cons, Hseen.
        destruct (decide (v_key v = k)) as [<- | Hne].
        - rewrite lookup_insert_eq. split; [eauto | left; reflexivity].
        - rewrite lookup_insert_ne by exact Hne. split; [intros [? | ?] | right]; congruence || assumption. }
      destruct (IH st1 _ Hseen1) as (Hc & Hf & Hl & Ho).
      simpl in Hc, Hf. split; [rewrite Hc; simpl; lia |].
      split.
      { rewrite Hf, <- app_assoc. f_equal. simpl. f_equal.
        apply imap_ext. intros i w _. unfold pending_of. simpl.
        rewrite !Nat.add_succ_r. reflexivity. }
      split.
      { intros [| i] w Hi; simpl in Hi.
        - injection Hi as <-. rewrite Ho.
          + simpl. rewrite lookup_insert_eq, Nat.add_0_r. reflexivity.
          + intros Hin. apply list_elem_of_fmap in Hin as (u & Hkey & Hu).
            apply first_seen_fresh in Hu. apply Hu. rewrite <- Hkey.
            apply list_elem_of_here.
        - rewrite (Hl i w Hi). simpl. rewrite Nat.add_succ_r. reflexivity. }
      intros k Hk. rewrite fmap_cons in Hk.
      apply not_elem_of_cons in Hk as [Hne Hk].
      rewrite (Ho k Hk). simpl. apply lookup_insert_ne. congruence.
Qed.

Lemma first_seen_keys vs k :
  k ∈ (v_key <$> first_seen [] vs) <-> k ∈ (v_key <$> vs).
Proof.
  rewrite !list_elem_of_fmap. split.
  - intros (v & -> & Hv). exists v. split; [reflexivity |].
    apply (first_seen_visited _ _ _ Hv).
  - intros (v & -> & Hv).
    destruct (first_seen_covers vs [] v Hv) as [Hnil | Hin]; [inversion Hnil |].
    apply list_elem_of_fmap in Hin. exact Hin.
Qed.

Lemma index_keys vs k :
  is_Some (file_to_topic (foldl index_visit initial_index vs) !! k)
  <-> k ∈ (v_key <$> vs).
Proof.
  destruct (foldl_index_visit_spec vs initial_index [])
    as (_ & _ & Hl & Ho).
  { intros k'. simpl. rewrite lookup_empty. split; [inversion 1 | intros [? ?]; discriminate]. }
  rewrite <- first_seen_keys.
  destruct (decide (k ∈ v_key <$> first_seen [] vs)) as [Hin | Hout].
  - split; [intros _; exact Hin | intros _].
    apply list_elem_of_fmap in Hin as (v & -> & Hv).
    apply list_elem_of_lookup in Hv as [i Hi].
    rewrite (Hl i v Hi). eauto.
  - rewrite (Ho k Hout). simpl. rewrite lookup_empty.
    split; [intros [? ?]; discriminate | intros ?; contradiction].
Qed.

Lemma pending_ids l : forall n,
  p_id <$> imap (pending_of n) l = nth_topic_id <$> seq n (length l).
Proof.
  induction l as [| v l IH]; intros n; [reflexivity |].
  simpl. f_equal; [rewrite Nat.add_0_r; reflexivity |].
  rewrite <- IH. f_equal. apply imap_ext. intros i w _. simpl.
  unfold pending_of. rewrite Nat.add_succ_r. reflexivity.
Qed.

(** C1.  The index the first pass builds from any outline holds a record
    for exactly the keys the traversal meets, one per key.  The entries of
    [files_to_process] are the first encounters of the keys, in the order of
    the traversal, and carry the identifiers [topic_1], [topic_2], ... in
    that order; the record of a key has the number and the title of its
    first encounter; and an encounter of a key that was met before leaves
    the whole state as it was. *)
Theorem index_one_record_per_key base_path ol :
  let st := collect_files base_path ol initial_index in
  let encounters := visits base_path ol in
  let firsts := first_seen [] encounters in
  (forall k, is_Some (file_to_topic st !! k) <-> k ∈ (v_key <$> encounters))
  /\ NoDup (v_key <$> firsts)
  /\ topic_counter st = length firsts
  /\ files_to_process st = imap (pending_of 1) firsts
  /\ p_id <$> files_to_process st = nth_topic_id <$> seq 1 (length firsts)
  /\ (forall i v, firsts !! i = Some v ->
        file_to_topic st !! v_key v = Some (info_of (1 + i) v))
  /\ (forall before v after,
        encounters = before ++ v :: after ->
        v_key v ∈ (v_key <$> before) ->
        foldl index_visit initial_index (before ++ [v])
        = foldl index_visit initial_index before).
Proof.
  intros st encounters firsts. subst st. rewrite collect_files_visits.
  fold encounters.
  destruct (foldl_index_visit_spec encounters initial_index [])
    as (Hc & Hf & Hl & _).
  { intros k. simpl. rewrite lookup_empty. split; [inversion 1 | intros [? ?]; discriminate]. }
  fold firsts in Hc, Hf, Hl. simpl in Hc, Hf, Hl.
  split; [intros k; apply index_keys |].
  split; [apply first_seen_NoDup |].
  split; [exact Hc |].
  split; [exact Hf |].
  split.
  { rewrite Hf. apply pending_ids. }
  split; [exact Hl |].
  intros before v after _ Hseen. rewrite foldl_app. simpl.
  apply index_visit_known, index_keys, Hseen.
Qed.


Section MapFacts.

Variable base_path : string.
Variable index : gmap string topic_info.

Lemma build_map_structure_items nm a items indent :
  build_map_structure base_path index (Tag nm a items) indent
  = concat (map (map_item base_path index indent) (List.filter is_li items)).
Proof.
  simpl. induction items as [| li rest IH]; [reflexivity |].
  simpl. destruct (is_li li); [| exact IH].
  simpl. rewrite IH. f_equal. unfold map_item.
  rewrite !with_first_child_find.
  destruct (Soup.find_direct is_a_href li) as [link_tag |].
  - destruct (is_url _); [reflexivity |].
    destruct (index !! _); [| reflexivity].
    destruct (Soup.find_direct is_list li); reflexivity.
  - destruct (Soup.find_text_direct li) as [[| c s] |]; try reflexivity.
Qed.

End MapFacts.

(** *** The parsed form of a canonical outline *)










Lemma flat_map_concat_map {A B} (f : A -> list B) l :
  flat_map f l = concat (map f l).
Proof. induction l as [| x l IH]; [reflexivity |]. simpl. rewrite IH. reflexivity. Qed.

Section MirrorFacts.

Variable base_path : string.
Variable index : gmap string topic_info.



End MirrorFacts.


Section CoverFacts.

Variable base_path : string.




End CoverFacts.


(** *** Topic names *)

Lemma append_length s t : String.length (s +:+ t) = String.length s + String.length t.
Proof. induction s as [| c s IH]; simpl; [reflexivity | rewrite IH; reflexivity]. Qed.

Lemma append_assoc a b c : (a +:+ b) +:+ c = a +:+ (b +:+ c).
Proof.
  induction a as [| x a IH]; [reflexivity |].
  change (String x ((a +:+ b) +:+ c) = String x (a +:+ (b +:+ c))).
  f_equal. exact IH.
Qed.



Lemma nth_topic_filename_truthy n : truthy (nth_topic_filename n) = true.
Proof. reflexivity. Qed.


(** A record of the index is the record of a first encounter. *)
Lemma index_records vs k info :
  file_to_topic (foldl index_visit initial_index vs) !! k = Some info ->
  exists i v, first_seen [] vs !! i = Some v /\ v_key v = k
              /\ info = info_of (1 + i) v.
Proof.
  intros Hinfo.
  assert (Hk : k ∈ (v_key <$> first_seen [] vs)).
  { apply first_seen_keys, index_keys. eauto. }
  apply list_elem_of_fmap in Hk as (v & -> & Hv).
  apply list_elem_of_lookup in Hv as [i Hi].
  destruct (foldl_index_visit_spec vs initial_index []) as (_ & _ & Hl & _).
  { intros k'. simpl. rewrite lookup_empty. split; [inversion 1 | intros [? ?]; discriminate]. }
  exists i, v. rewrite (Hl i v Hi) in Hinfo. injection Hinfo as <-. auto.
Qed.

Lemma corpus_index_visits toc_soup base_path :
  exists vs, corpus_index toc_soup base_path = foldl index_visit initial_index vs.
Proof.
  unfold corpus_index. destruct (Soup.find is_list toc_soup) as [top_ol |].
  - exists (visits base_path top_ol). apply collect_files_visits.
  - exists []. reflexivity.
Qed.


(** *** The references of the map *)




(** *** The second pass *)

Section RunFacts.

Variable urlparse : string -> option (string * string).
Variable markdown_soup : string -> list node.
Variable resolve_relative : string -> string -> option string.
Variable read_file : string -> source_file.

#[local] Abbreviation translate := (md_to_dita_topic urlparse markdown_soup resolve_relative read_file).
#[local] Abbreviation generate := (generate_topics urlparse markdown_soup resolve_relative read_file).
#[local] Abbreviation run := (build_dita_map urlparse markdown_soup resolve_relative read_file).







End RunFacts.



(** ** The map as text *)



Section TextFacts.

Variable base_path : string.
Variable index : gmap string topic_info.




Lemma descendants_tag nm a cs :
  Soup.descendants (Tag nm a cs)
  = flat_map (fun c => c :: Soup.descendants c) cs.
Proof.
  simpl. induction cs as [| c cs IH]; [reflexivity |].
  simpl. simpl in IH. rewrite IH. reflexivity.
Qed.





End TextFacts.




(** ** Heading-only outlines *)

Lemma lookup_clear_deeper indent_level counters d :
  clear_deeper indent_level counters !! d
  = if bool_decide (indent_level < d < 10) then None else counters !! d.
Proof.
  unfold clear_deeper.
  assert (H : forall n start,
    foldr delete counters (seq start n) !! d
    = if bool_decide (start <= d < start + n) then None else counters !! d).
  { induction n as [| n IH]; intros start; simpl.
    - case_bool_decide; [lia | reflexivity].
    - destruct (decide (start = d)) as [-> | Hne].
      + rewrite lookup_delete_eq. case_bool_decide; [reflexivity | lia].
      + rewrite lookup_delete_ne by exact Hne. rewrite IH.
        repeat case_bool_decide; try reflexivity; lia. }
  rewrite H. repeat case_bool_decide; try reflexivity; lia.
Qed.

Lemma heading_step st before level text line :
  heading_of line = Some (level, text) ->
  2 <= level <= 11 ->
  counters_agree (item_counters st) before ->
  let st' := toc_line st line in
  output st' = output st
               ++ [numbered_entry (level - 2) (sibling_number level before)
                     (clean_heading text)]
  /\ counters_agree (item_counters st') (level :: before).
Proof.
  unfold heading_of, toc_line. intros Hline Hlevel Hagree.
  destruct (Py.startswith (Py.strip line) "#"); [| discriminate Hline].
  destruct (count_hashes (Py.strip line)) as [lv rest].
  injection Hline as -> <-.
  destruct (level =? 1)%nat eqn:H1; [apply Nat.eqb_eq in H1; lia |].
  simpl.
  assert (Hcur : default 0 (bump (level - 2)
                   (clear_deeper (level - 2) (item_counters st)) !! (level - 2))
                 = sibling_number level before).
  { unfold bump. rewrite lookup_insert_eq. simpl.
    rewrite lookup_clear_deeper. case_bool_decide; [lia |].
    rewrite (Hagree (level - 2)) by lia.
    replace (level - 2 + 2) with level by lia. unfold sibling_number. lia. }
  split; [rewrite Hcur; reflexivity |].
  intros d Hd. simpl.
  destruct (decide (d = level - 2)) as [-> | Hne].
  - rewrite Hcur. replace (level - 2 + 2) with level by lia.
    rewrite Nat.ltb_irrefl, Nat.eqb_refl. unfold sibling_number. lia.
  - unfold bump. rewrite lookup_insert_ne by congruence.
    rewrite lookup_clear_deeper. case_bool_decide as Hdeep.
    + simpl. destruct (level <? d + 2)%nat eqn:Hlt; [reflexivity |].
      apply Nat.ltb_ge in Hlt. lia.
    + destruct (level <? d + 2)%nat eqn:Hlt; [apply Nat.ltb_lt in Hlt; lia |].
      destruct (level =? d + 2)%nat eqn:Heq; [apply Nat.eqb_eq in Heq; lia |].
      simpl. apply Hagree, Hd.
Qed.

Lemma top_heading_step st level text line :
  heading_of line = Some (level, text) -> level = 1 -> toc_line st line = st.
Proof.
  unfold heading_of, toc_line. intros Hline ->.
  destruct (Py.startswith (Py.strip line) "#"); [| discriminate Hline].
  destruct (count_hashes (Py.strip line)) as [lv rest].
  injection Hline as -> _. reflexivity.
Qed.

Lemma blank_step st line :
  heading_of line = None -> truthy (Py.strip line) = false -> toc_line st line = st.
Proof.
  unfold heading_of, toc_line. intros Hline Hblank.
  destruct (Py.startswith (Py.strip line) "#").
  - destruct (count_hashes (Py.strip line)); discriminate Hline.
  - rewrite Hblank. reflexivity.
Qed.

Lemma count_hashes_positive s :
  Py.startswith s "#" = true -> 1 <= (count_hashes s).1.
Proof.
  destruct s as [| c s]; [discriminate |].
  unfold Py.startswith.
  change (String.prefix "#" (String c s))
    with (if ascii_dec "#" c then String.prefix "" s else false).
  destruct (ascii_dec "#" c) as [<- | Hne]; [| discriminate].
  intros _. simpl. destruct (count_hashes s). simpl. lia.
Qed.

Lemma heading_level_positive line level text :
  heading_of line = Some (level, text) -> 1 <= level.
Proof.
  unfold heading_of.
  destruct (Py.startswith (Py.strip line) "#") eqn:Hstart; [| discriminate].
  apply count_hashes_positive in Hstart.
  destruct (count_hashes (Py.strip line)) as [lv rest].
  intros H. injection H as <- _. exact Hstart.
Qed.

(** The loop over the lines of a heading-only outline. *)
Lemma heading_only_fold max_level lines : forall st before,
  max_level <= 11 ->
  forallb (heading_or_blank max_level) lines = true ->
  counters_agree (item_counters st) before ->
  output (foldl toc_line st lines)
  = output st ++ number_headings before (omap heading_of lines).
Proof.
  induction lines as [| line lines IH]; intros st before Hmax Hlines Hagree.
  - simpl. rewrite app_nil_r. reflexivity.
  - simpl in Hlines. apply andb_prop in Hlines as [Hline Hlines].
    unfold heading_or_blank in Hline. simpl.
    destruct (heading_of line) as [[level text] |] eqn:Hheading.
    + apply Nat.leb_le in Hline.
      pose proof (heading_level_positive _ _ _ Hheading) as Hpos.
      simpl. destruct (level =? 1)%nat eqn:H1.
      * apply Nat.eqb_eq in H1.
        rewrite (top_heading_step st level text line Hheading H1).
        apply IH; assumption.
      * apply Nat.eqb_neq in H1.
        destruct (heading_step st before level text line Hheading) as [Hout Hagree'];
          [lia | exact Hagree |].
        rewrite (IH _ (level :: before) Hmax Hlines Hagree'), Hout, <- app_assoc.
        reflexivity.
    + apply negb_true_iff in Hline.
      rewrite (blank_step st line Hheading Hline).
      apply IH; assumption.
Qed.

(** X20.  For an outline whose lines are blank or headings of at
    most eleven marks, the converter emits, for each heading below the top
    level, an entry indented by four spaces per level beyond the second and
    numbered by its position among the headings of its level in the open
    scope: 1 at the start and after a shallower heading, one more than the
    previous sibling, and unchanged by deeper headings in between. *)
Theorem heading_only_outline_numbering (md_text : string) :
  forallb (heading_or_blank 11) (Py.split nl md_text) = true ->
  convert_headings_to_lists md_text
  = Py.join nl (number_headings [] (omap heading_of (Py.split nl md_text)))
  /\ (forall level text before rest, level <> 1 ->
        number_headings before ((level, text) :: rest)
        = (Py.repeat_str "    " (level - 2)
           +:+ pretty (sibling_number level before) +:+ ". "
           +:+ clean_heading text)
          :: number_headings (level :: before) rest)
  /\ (forall text before rest,
        number_headings before ((1, text) :: rest) = number_headings before rest)
  /\ (forall level : nat, sibling_number level [] = 1)
  /\ (forall level shallower before,
        shallower < level -> sibling_number level (shallower :: before) = 1)
  /\ (forall level before,
        sibling_number level (level :: before) = S (sibling_number level before))
  /\ (forall level deeper before,
        level < deeper ->
        sibling_number level (deeper :: before) = sibling_number level before).
Proof.
  intros Hlines. split.
  { unfold convert_headings_to_lists. f_equal.
    rewrite (heading_only_fold 11 _ (TocState [] ∅ []) []); [reflexivity | lia | exact Hlines |].
    intros d _. reflexivity. }
  split.
  { intros level text before rest Hlevel. simpl.
    destruct (level =? 1)%nat eqn:H1; [apply Nat.eqb_eq in H1; contradiction | reflexivity]. }
  split; [reflexivity |].
  split; [reflexivity |].
  split.
  { intros level shallower before Hlt. unfold sibling_number. simpl.
    apply Nat.ltb_lt in Hlt. rewrite Hlt. reflexivity. }
  split.
  { intros level before. unfold sibling_number. simpl.
    rewrite Nat.ltb_irrefl, Nat.eqb_refl. reflexivity. }
  intros level deeper before Hlt. unfold sibling_number. simpl.
  destruct (deeper <? level)%nat eqn:H1; [apply Nat.ltb_lt in H1; lia |].
  destruct (deeper =? level)%nat eqn:H2; [apply Nat.eqb_eq in H2; lia |].
  reflexivity.
Qed.

(** ** Visible text *)

Lemma chars_rev_onto s : forall acc,
  list_ascii_of_string (Py.rev_onto s acc)
  = rev (list_ascii_of_string s) ++ list_ascii_of_string acc.
Proof.
  induction s as [| c s IH]; intros acc; [reflexivity |].
  simpl. rewrite IH. simpl. rewrite <- app_assoc. reflexivity.
Qed.

Lemma chars_srev s :
  list_ascii_of_string (Py.srev s) = rev (list_ascii_of_string s).
Proof. unfold Py.srev. rewrite chars_rev_onto. simpl. apply app_nil_r. Qed.

Lemma drop_while_empty p s :
  Py.drop_while p s = "" <->
  (forall c, In c (list_ascii_of_string s) -> p c = true).
Proof.
  induction s as [| c s IH]; simpl.
  - split; [intros _ c [] | reflexivity].
  - destruct (p c) eqn:Hc.
    + rewrite IH. split.
      * intros H d [<- | Hd]; [exact Hc | apply H, Hd].
      * intros H d Hd. apply H. right. exact Hd.
    + split; [discriminate |].
      intros H. rewrite (H c) in Hc by (left; reflexivity). discriminate.
Qed.

Lemma drop_while_chars p s c :
  In c (list_ascii_of_string (Py.drop_while p s)) -> In c (list_ascii_of_string s).
Proof.
  induction s as [| d s IH]; simpl; [tauto |].
  destruct (p d); [intros H; right; apply IH, H | tauto].
Qed.

Lemma drop_while_head p s c r :
  Py.drop_while p s = String c r -> p c = false.
Proof.
  induction s as [| d s IH]; simpl; [discriminate |].
  destruct (p d) eqn:Hd; [exact IH |].
  intros H. injection H as <- _. exact Hd.
Qed.

Lemma srev_empty s : Py.srev s = "" <-> s = "".
Proof.
  split; [| intros ->; reflexivity].
  intros H. apply (f_equal list_ascii_of_string) in H.
  rewrite chars_srev in H. simpl in H.
  destruct s; [reflexivity |]. simpl in H.
  apply app_eq_nil in H as [_ H]. discriminate H.
Qed.

(** Stripping leaves something exactly when some character is visible. *)
Lemma strip_truthy s : truthy (Py.strip s) = true <-> has_visible s.
Proof.
  unfold truthy, has_visible.
  rewrite negb_true_iff. split.
  - intros Hne. apply String.eqb_neq in Hne.
    destruct (Py.drop_while Py.isspace s) as [| c r] eqn:Hdrop.
    + exfalso. apply Hne. unfold Py.strip, Py.lstrip, Py.rstrip.
      rewrite Hdrop. reflexivity.
    + exists c. split; [| exact (drop_while_head _ _ _ _ Hdrop)].
      apply (drop_while_chars Py.isspace). rewrite Hdrop. left. reflexivity.
  - intros (c & Hin & Hc). apply String.eqb_neq. intros Hstrip.
    unfold Py.strip, Py.lstrip, Py.rstrip in Hstrip.
    apply (proj1 (srev_empty _)) in Hstrip.
    destruct (Py.drop_while Py.isspace s) as [| d r] eqn:Hdrop.
    + rewrite (proj1 (drop_while_empty _ _) Hdrop c Hin) in Hc. discriminate.
    + pose proof (drop_while_head _ _ _ _ Hdrop) as Hd.
      rewrite (proj1 (drop_while_empty _ _) Hstrip d) in Hd; [discriminate |].
      rewrite chars_srev. apply in_rev. rewrite rev_involutive. left. reflexivity.
Qed.

(** C7.  An image without a parent is a block image.  An image with a
    parent is inline exactly when the parent is a [span], or the parent is a
    block container ([p], [div], [li], [td], [th]) whose children other than
    images hold some text that is not white space.  So an image next to
    text in a table cell is inline and an image alone in its paragraph is a
    block image; the converter writes the placement accordingly. *)
Theorem inline_image_classification :
  is_inline_image None = false
  /\ (forall parent,
        is_inline_image (Some parent) = true <->
        Soup.named ["span"] parent = true
        \/ (Soup.named ["p"; "div"; "li"; "td"; "th"] parent = true
            /\ has_visible (sibling_text parent)))
  /\ (forall attrs img_attrs text,
        has_visible text ->
        is_inline_image
          (Some (Tag "td" attrs [Tag "img" img_attrs []; NavigableString text]))
        = true)
  /\ (forall attrs img_attrs,
        is_inline_image (Some (Tag "p" attrs [Tag "img" img_attrs []])) = false)
  /\ (forall element attrs cs,
        let img := Tag "img" attrs cs in
        let img_src := Soup.get_or_empty "src" img in
        let img_alt := Soup.get_or_empty "alt" img in
        truthy img_src = true ->
        convert_child element img
        = "<image " +:+ xml_attr "href" (escape_xml img_src) +:+ " "
          +:+ (if is_inline_image (Some element)
               then xml_attr "placement" "inline"
               else xml_attr "placement" "break" +:+ " "
                    +:+ xml_attr "align" "left")
          +:+ ">"
          +:+ (if truthy img_alt
               then "<alt>" +:+ escape_xml img_alt +:+ "</alt>" else "")
          +:+ "</image>").
Proof.
  split; [reflexivity |].
  assert (Hiff : forall parent,
    is_inline_image (Some parent) = true <->
    Soup.named ["span"] parent = true
    \/ (Soup.named ["p"; "div"; "li"; "td"; "th"] parent = true
        /\ has_visible (sibling_text parent))).
  { intros parent. unfold is_inline_image. fold (sibling_text parent).
    destruct (Soup.named ["span"] parent); [tauto |].
    destruct (Soup.named ["p"; "div"; "li"; "td"; "th"] parent).
    - rewrite strip_truthy. split; [auto | intros [? | [_ ?]]; [discriminate | assumption]].
    - split; [discriminate | intros [? | [? _]]; discriminate]. }
  split; [exact Hiff |]. split; [| split].
  - intros attrs img_attrs text Htext. apply Hiff. right.
    split; [reflexivity |].
    unfold sibling_text, Soup.get_text, Py.concat_all. simpl.
    exact Htext.
  - intros attrs img_attrs. reflexivity.
  - intros element attrs cs img img_src img_alt Hsrc.
    unfold convert_child, img. simpl Soup.named. cbv zeta.
    fold img. fold img_src. fold img_alt. rewrite Hsrc.
    unfold image_inline, image_break.
    destruct (is_inline_image (Some element));
      rewrite ?append_assoc; reflexivity.
Qed.

(** ** Tables *)

Lemma mapM_Some_elem {A B} (f : A -> option B) l k x :
  mapM f l = Some k -> x ∈ l -> exists y, f x = Some y /\ y ∈ k.
Proof.
  intros H Hx. apply mapM_Some in H.
  apply list_elem_of_lookup in Hx as [i Hi].
  destruct (Forall2_lookup_l _ _ _ _ _ H Hi) as (y & Hy & Hf).
  exists y. split; [exact Hf | apply list_elem_of_lookup; eauto].
Qed.

Lemma mapM_Some_back {A B} (f : A -> option B) l k y :
  mapM f l = Some k -> y ∈ k -> exists x, f x = Some y /\ x ∈ l.
Proof.
  intros H Hy. apply mapM_Some in H.
  apply list_elem_of_lookup in Hy as [i Hi].
  destruct (Forall2_lookup_r _ _ _ _ _ H Hi) as (x & Hx & Hf).
  exists x. split; [exact Hf | apply list_elem_of_lookup; eauto].
Qed.

Lemma entry_line_not_colspec cell entry :
  entry_line cell = Some entry -> is_colspec entry = false.
Proof.
  unfold entry_line. destruct (entry_attrs cell) as [[| a attrs] |]; simpl;
    intros H; inversion H; reflexivity.
Qed.

Lemma row_lines_spec tr ls :
  row_lines tr = Some ls ->
  Forall (fun l => is_colspec l = false) ls
  /\ (forall cell, cell ∈ Soup.find_all is_cell tr ->
        exists entry, entry_line cell = Some entry /\ entry ∈ ls).
Proof.
  unfold row_lines. destruct (mapM entry_line _) as [entries |] eqn:Hentries; [| discriminate].
  simpl. intros H. injection H as <-. split.
  - constructor; [reflexivity |]. apply Forall_app. split; [| repeat constructor].
    apply Forall_forall. intros entry Hentry.
    destruct (mapM_Some_back _ _ _ _ Hentries Hentry) as (cell & Hcell & _).
    exact (entry_line_not_colspec _ _ Hcell).
  - intros cell Hcell.
    destruct (mapM_Some_elem _ _ _ _ Hentries Hcell) as (entry & He & Hin).
    exists entry. split; [exact He |].
    apply list_elem_of_further, elem_of_app. left. exact Hin.
Qed.

Lemma section_lines_spec tag section ls :
  tag = "thead" \/ tag = "tbody" ->
  section_lines tag section = Some ls ->
  Forall (fun l => is_colspec l = false) ls
  /\ (forall cell, cell ∈ section_cells section ->
        exists entry, entry_line cell = Some entry /\ entry ∈ ls).
Proof.
  intros Htag. unfold section_lines, section_cells.
  destruct section as [section |].
  2: { intros H. injection H as <-. split; [constructor | intros cell Hc; inversion Hc]. }
  destruct (mapM row_lines _) as [rows |] eqn:Hrows; [| discriminate].
  simpl. intros H. injection H as <-. split.
  - constructor; [destruct Htag as [-> | ->]; reflexivity |].
    apply Forall_app. split; [| constructor; [destruct Htag as [-> | ->]; reflexivity | constructor]].
    apply Forall_forall. intros l Hl.
    apply list_elem_of_In, in_concat in Hl as (row & Hrow & Hl).
    destruct (mapM_Some_back _ _ _ _ Hrows (proj2 (list_elem_of_In _ _) Hrow))
      as (tr & Htr & _).
    apply row_lines_spec in Htr as [Hall _].
    rewrite Forall_forall in Hall. apply Hall, list_elem_of_In, Hl.
  - intros cell Hcell.
    apply list_elem_of_In, in_flat_map in Hcell as (tr & Htr & Hcell).
    destruct (mapM_Some_elem _ _ _ _ Hrows (proj2 (list_elem_of_In _ _) Htr))
      as (row & Hrow & Hin).
    apply row_lines_spec in Hrow as [_ Hcells].
    destruct (Hcells cell (proj2 (list_elem_of_In _ _) Hcell)) as (entry & He & Hentry).
    exists entry. split; [exact He |].
    apply list_elem_of_further, elem_of_app. left.
    apply list_elem_of_In, in_concat. exists row.
    split; apply list_elem_of_In; assumption.
Qed.

Lemma entry_attrs_total cell :
  (truthy (Soup.get_or_empty "rowspan" cell) = true ->
   is_Some (Py.int (Soup.get_or_empty "rowspan" cell))) ->
  is_Some (entry_line cell).
Proof.
  unfold entry_line, entry_attrs. intros H.
  destruct (truthy (Soup.get_or_empty "rowspan" cell)); [| simpl; eauto].
  destruct (H eq_refl) as [rows ->]. simpl. eauto.
Qed.

Lemma section_lines_total tag section :
  (forall cell, cell ∈ section_cells section -> is_Some (entry_line cell)) ->
  is_Some (section_lines tag section).
Proof.
  unfold section_lines, section_cells. destruct section as [section |]; [| eauto].
  intros Hcells.
  assert (Hrows : is_Some (mapM row_lines (Soup.find_all is_tr section))).
  { apply mapM_is_Some, Forall_forall. intros tr Htr. unfold row_lines. simpl.
    assert (He : is_Some (mapM entry_line (Soup.find_all is_cell tr))).
    { apply mapM_is_Some, Forall_forall. intros cell Hcell. apply Hcells.
      apply list_elem_of_In, in_flat_map. exists tr.
      split; apply list_elem_of_In; assumption. }
    destruct He as [entries ->]. simpl. eauto. }
  destruct Hrows as [rows ->]. simpl. eauto.
Qed.

Lemma mapM_Some_map {A B} (f : A -> option B) (g : A -> B) l :
  (forall x, x ∈ l -> f x = Some (g x)) -> mapM f l = Some (map g l).
Proof.
  induction l as [| x l IH]; intros H; [reflexivity |].
  simpl. rewrite (H x) by apply list_elem_of_here. simpl.
  rewrite IH by (intros y Hy; apply H, list_elem_of_further, Hy). reflexivity.
Qed.

Lemma table_num_cols_specified table_element :
  table_num_cols table_element = specified_columns table_element.
Proof.
  unfold table_num_cols, specified_columns.
  destruct (Soup.find (Soup.named ["thead"]) table_element) as [thead |].
  - destruct (Soup.find is_tr thead); reflexivity.
  - destruct (Soup.find (Soup.named ["tbody"]) table_element) as [tbody |];
      [| reflexivity].
    simpl. destruct (Soup.find is_tr tbody); reflexivity.
Qed.

Lemma colspec_lines_specified n :
  map colspec_line (seq 0 n) = map specified_colspec (seq 1 n).
Proof.
  rewrite <- (fmap_S_seq 0 n). change (S <$> seq 0 n) with (map S (seq 0 n)).
  rewrite map_map. apply map_ext. intros i.
  unfold colspec_line, specified_colspec, xml_attr.
  rewrite Nat.add_1_r, !append_assoc. reflexivity.
Qed.

Lemma entry_line_specified cell :
  (truthy (Soup.get_or_empty "rowspan" cell) = true ->
   is_Some (Py.int (Soup.get_or_empty "rowspan" cell))) ->
  entry_line cell = Some (specified_entry cell).
Proof.
  unfold entry_line, entry_attrs, specified_entry. intros Hspan.
  destruct (truthy (Soup.get_or_empty "rowspan" cell)).
  - destruct (Hspan eq_refl) as [rows ->].
    destruct (truthy (Soup.get_or_empty "colspan" cell));
      cbn [mbind option_bind app Py.join default from_option id];
      unfold colspan_attr, morerows_attr, xml_attr;
      rewrite ?append_assoc; reflexivity.
  - destruct (truthy (Soup.get_or_empty "colspan" cell));
      cbn [mbind option_bind app Py.join];
      unfold colspan_attr, xml_attr; rewrite ?append_assoc; reflexivity.
Qed.

Lemma section_lines_specified tag section :
  (forall cell, cell ∈ section_cells section ->
     truthy (Soup.get_or_empty "rowspan" cell) = true ->
     is_Some (Py.int (Soup.get_or_empty "rowspan" cell))) ->
  section_lines tag section = Some (specified_section tag section).
Proof.
  unfold section_lines, specified_section, section_cells.
  destruct section as [section |]; [| reflexivity]. intros Hspans.
  rewrite (mapM_Some_map row_lines specified_row).
  - simpl. rewrite <- flat_map_concat_map. reflexivity.
  - intros tr Htr. unfold row_lines, specified_row.
    rewrite (mapM_Some_map entry_line specified_entry); [reflexivity |].
    intros cell Hcell. apply entry_line_specified, Hspans.
    apply list_elem_of_In, in_flat_map. exists tr.
    split; apply list_elem_of_In; assumption.
Qed.


Lemma table_lines_specified table_element :
  (forall cell, cell ∈ table_cells table_element ->
     truthy (Soup.get_or_empty "rowspan" cell) = true ->
     is_Some (Py.int (Soup.get_or_empty "rowspan" cell))) ->
  table_lines table_element = Some (specified_table_lines table_element).
Proof.
  intros Hspans. unfold table_lines, specified_table_lines.
  rewrite (section_lines_specified "thead")
    by (intros cell Hcell; apply Hspans, elem_of_app; left; exact Hcell).
  rewrite (section_lines_specified "tbody")
    by (intros cell Hcell; apply Hspans, elem_of_app; right; exact Hcell).
  cbn [mbind option_bind].
  rewrite table_num_cols_specified, colspec_lines_specified.
  unfold xml_attr. rewrite !append_assoc. reflexivity.
Qed.


(** A table is translated exactly when [int] reads its row spans. *)
Lemma convert_table_to_dita_total table_element :
  is_Some (convert_table_to_dita table_element) <->
  (forall cell, cell ∈ table_cells table_element ->
     truthy (Soup.get_or_empty "rowspan" cell) = true ->
     is_Some (Py.int (Soup.get_or_empty "rowspan" cell))).
Proof.
  unfold convert_table_to_dita. split.
  - intros Hsome cell Hcell Hspan.
    destruct (table_lines table_element) as [ls |] eqn:Hlines;
      [| destruct Hsome as [? Hs]; discriminate Hs].
    unfold table_lines in Hlines.
    destruct (section_lines "thead" _) as [head_lines |] eqn:Hhead; [| discriminate].
    destruct (section_lines "tbody" _) as [body_lines |] eqn:Hbody; [| discriminate].
    apply section_lines_spec in Hhead as [_ Hh]; [| left; reflexivity].
    apply section_lines_spec in Hbody as [_ Hb]; [| right; reflexivity].
    assert (Hentry : exists entry, entry_line cell = Some entry).
    { apply elem_of_app in Hcell as [Hc | Hc];
        [destruct (Hh cell Hc) as (e & He & _)
        | destruct (Hb cell Hc) as (e & He & _)]; eauto. }
    destruct Hentry as [entry Hentry]. unfold entry_line, entry_attrs in Hentry.
    rewrite Hspan in Hentry.
    destruct (Py.int (Soup.get_or_empty "rowspan" cell)); [eauto | discriminate].
  - intros Hspans. rewrite (table_lines_specified _ Hspans). simpl. eauto.
Qed.


(** C2.  The index depends on the outline through the sequence of
    encounters only: two outlines with the same encounters give the same
    state from every start, and a second pass over the state the first pass
    left, on the same outline or on one with the same encounters, changes
    nothing. *)
Theorem index_is_function_of_traversal base_path (ol ol' : node) :
  visits base_path ol = visits base_path ol' ->
  (forall st, collect_files base_path ol st = collect_files base_path ol' st)
  /\ collect_files base_path ol (collect_files base_path ol initial_index)
     = collect_files base_path ol initial_index
  /\ collect_files base_path ol' (collect_files base_path ol initial_index)
     = collect_files base_path ol initial_index.
Proof.
  intros Hsame.
  assert (Hagain : forall vs,
    foldl index_visit (foldl index_visit initial_index vs) vs
    = foldl index_visit initial_index vs).
  { intros vs. apply foldl_index_visit_known.
    intros v Hv. apply index_keys, list_elem_of_fmap_2, Hv. }
  split; [| split].
  - intros st. rewrite !collect_files_visits, Hsame. reflexivity.
  - rewrite !collect_files_visits. apply Hagain.
  - rewrite !collect_files_visits, <- Hsame. apply Hagain.
Qed.



(** ** Links *)

Lemma omap_flat_map {A B C} (f : B -> option C) (g : A -> list B) l :
  omap f (flat_map g l) = flat_map (fun x => omap f (g x)) l.
Proof.
  induction l as [| x l IH]; [reflexivity |].
  simpl. rewrite omap_app, IH. reflexivity.
Qed.

Lemma strings_tag nm a cs :
  Soup.strings (Tag nm a cs) = flat_map (strings_for nm) cs.
Proof.
  unfold Soup.strings. rewrite descendants_tag. apply omap_flat_map.
Qed.

Lemma strings_for_tag name nm a cs :
  strings_for name (Tag nm a cs) = flat_map (strings_for name) cs.
Proof.
  unfold strings_for at 1. rewrite descendants_tag.
  change (omap (Soup.interesting name) (Tag nm a cs :: ?l))
    with (omap (Soup.interesting name) l).
  apply omap_flat_map.
Qed.

Lemma strings_set_attr key value n :
  Soup.strings (Soup.set_attr key value n) = Soup.strings n.
Proof.
  destruct n; [reflexivity | reflexivity | reflexivity |].
  simpl Soup.set_attr. rewrite !strings_tag. reflexivity.
Qed.

Lemma strings_for_set_attr name key value n :
  strings_for name (Soup.set_attr key value n) = strings_for name n.
Proof.
  destruct n; [reflexivity | reflexivity | reflexivity |].
  simpl Soup.set_attr. rewrite !strings_for_tag. reflexivity.
Qed.

Section LinkFacts.

Variable urlparse : string -> option (string * string).
Variable index : gmap string topic_info.

Lemma strings_mark_link a_tag marked :
  mark_link urlparse index a_tag = Some marked ->
  Soup.strings marked = Soup.strings a_tag
  /\ forall name, strings_for name marked = strings_for name a_tag.
Proof.
  unfold mark_link. destruct (link_key _ _) as [found |]; [| discriminate].
  simpl. intros H. injection H as <-.
  destruct found as [normalized |]; [| split; reflexivity].
  destruct (index !! _); [| split; reflexivity].
  split; [| intros name].
  - rewrite !strings_set_attr. reflexivity.
  - rewrite !strings_for_set_attr. reflexivity.
Qed.

(** The children of a list that the link loop has gone through, one by
    one. *)
Lemma mapM_mark_links_strings name cs cs' :
  Forall (fun c => forall c', mark_links urlparse index c = Some c' ->
                     forall name, strings_for name c' = strings_for name c) cs ->
  mapM (mark_links urlparse index) cs = Some cs' ->
  flat_map (strings_for name) cs' = flat_map (strings_for name) cs.
Proof.
  intros IH. revert cs'. induction IH as [| c cs Hc _ IHcs]; intros cs' H.
  - injection H as <-. reflexivity.
  - simpl in H.
    destruct (mark_links urlparse index c) as [c' |]; [| discriminate H].
    simpl in H.
    destruct (mapM (mark_links urlparse index) cs) as [rest |]; [| discriminate H].
    injection H as <-. simpl. rewrite (Hc c' eq_refl name), (IHcs rest eq_refl).
    reflexivity.
Qed.

Lemma strings_for_mark_links n : forall marked,
  mark_links urlparse index n = Some marked ->
  forall name, strings_for name marked = strings_for name n.
Proof.
  induction n as [s | s | cn s | nm a cs IH] using node_ind_forall;
    intros marked H name.
  - injection H as <-. reflexivity.
  - injection H as <-. reflexivity.
  - injection H as <-. reflexivity.
  - simpl mark_links in H.
    destruct (mapM (mark_links urlparse index) cs) as [cs' |] eqn:Hcs;
      [| discriminate H].
    simpl in H.
    assert (Hinner : strings_for name (Tag nm a cs')
                     = strings_for name (Tag nm a cs)).
    { rewrite !strings_for_tag. exact (mapM_mark_links_strings name cs cs' IH Hcs). }
    destruct (is_a_href (Tag nm a cs)).
    + rewrite (proj2 (strings_mark_link _ _ H) name). exact Hinner.
    + injection H as <-. exact Hinner.
Qed.

(** The link loop keeps the strings [get_text] joins. *)
Lemma strings_mark_links n : forall marked,
  mark_links urlparse index n = Some marked ->
  Soup.strings marked = Soup.strings n.
Proof.
  destruct n as [s | s | cn s | nm a cs]; intros marked H.
  - injection H as <-. reflexivity.
  - injection H as <-. reflexivity.
  - injection H as <-. reflexivity.
  - simpl mark_links in H.
    destruct (mapM (mark_links urlparse index) cs) as [cs' |] eqn:Hcs;
      [| discriminate H].
    simpl in H.
    assert (Hinner : Soup.strings (Tag nm a cs') = Soup.strings (Tag nm a cs)).
    { rewrite !strings_tag. apply (mapM_mark_links_strings nm cs cs'); [| exact Hcs].
      apply Forall_forall. intros c _ c' Hc'.
      exact (strings_for_mark_links c c' Hc'). }
    destruct (is_a_href (Tag nm a cs)).
    + rewrite (proj1 (strings_mark_link _ _ H)). exact Hinner.
    + injection H as <-. exact Hinner.
Qed.

(** The link loop on a link: it raises when it raises below the link or on
    the address of the link; otherwise the tag keeps its name, its address
    and the text of its children, and carries the target's file name when
    the key is indexed. *)
Lemma mark_links_link attrs cs href :
  attrs !! "href" = Some href ->
  attrs !! "data-dita-href" = None ->
  mark_links urlparse index (Tag "a" attrs cs)
  = cs' ← mapM (mark_links urlparse index) cs;
    target ← link_target urlparse index href;
    Some (Tag "a"
            match target with
            | Some info =>
                <["data-dita-scope" := "local"]>
                  (<["data-dita-href" := topic_filename info]> attrs)
            | None => attrs
            end cs').
Proof.
  intros Hhref Hnone. simpl mark_links.
  assert (His : is_a_href (Tag "a" attrs cs) = true).
  { unfold is_a_href, Soup.has_attr. simpl. rewrite Hhref. reflexivity. }
  rewrite His.
  destruct (mapM (mark_links urlparse index) cs) as [cs' |]; [| reflexivity].
  simpl. unfold mark_link, link_target, Soup.get_or_empty. simpl Soup.get.
  rewrite Hhref. simpl default.
  destruct (link_key urlparse href) as [[normalized |] |]; simpl;
    [destruct (index !! normalized) as [target |]; simpl | |]; reflexivity.
Qed.

(** The link loop raises on an address exactly when [urlparse] is called
    on it and raises. *)
Lemma link_target_raises href :
  link_target urlparse index href = None
  <-> Py.startswith href "#" = false /\ is_url href = true
      /\ urlparse href = None.
Proof.
  unfold link_target, link_key.
  destruct (Py.startswith href "#"); [split; [discriminate | intros [H _]; discriminate H] |].
  destruct (is_url href); [| split; [discriminate | intros (_ & H & _); discriminate H]].
  destruct (urlparse href) as [[netloc path] |]; simpl.
  - destruct (_ || _); split; try discriminate; intros (_ & _ & H); discriminate H.
  - tauto.
Qed.

End LinkFacts.

(** The file names of the index are not empty. *)
Lemma corpus_index_filename_shape toc_soup base_path k info :
  file_to_topic (corpus_index toc_soup base_path) !! k = Some info ->
  exists n, topic_filename info = nth_topic_filename n.
Proof.
  destruct (corpus_index_visits toc_soup base_path) as [vs ->].
  intros H. apply index_records in H as (i & v & _ & _ & ->). eauto.
Qed.

(** C4, amended.  The link loop raises on a link exactly when it raises
    below the link or [urlparse] rejects the address of the link; the
    translation then has no result.  Otherwise the link is rendered, in a
    paragraph or cell and in a list item alike, as an internal reference
    carrying the file name of the target when its key is indexed; else as
    an external reference when its address starts with [http://] or
    [https://], on the expected site or not; else as its visible text
    alone. *)
Theorem link_rendering
    (urlparse : string -> option (string * string)) (toc_soup : node)
    (base_path : string) (element : node)
    (attrs : gmap string string) (cs : list node) (href : string) :
  attrs !! "href" = Some href ->
  attrs !! "data-dita-href" = None ->
  let index := file_to_topic (corpus_index toc_soup base_path) in
  let a_tag := Tag "a" attrs cs in
  let link_text := Soup.get_text_strip a_tag in
  (mark_links urlparse index a_tag = None <->
   mapM (mark_links urlparse index) cs = None
   \/ (Py.startswith href "#" = false /\ is_url href = true
       /\ urlparse href = None))
  /\ (forall marked,
        mark_links urlparse index a_tag = Some marked ->
        exists target,
          link_target urlparse index href = Some target
          /\ convert_child element marked
             = resolved_link_output target href link_text
          /\ convert_list_item_child marked
             = [resolved_link_output target href link_text])
  /\ (forall target,
        resolved_link_output (Some target) href link_text
        = "<xref href=" +:+ dq +:+ topic_filename target +:+ dq +:+ " format="
          +:+ dq +:+ "dita" +:+ dq +:+ ">" +:+ escape_xml link_text
          +:+ "</xref>")
  /\ (is_url href = true ->
      resolved_link_output None href link_text
      = "<xref href=" +:+ dq +:+ escape_xml href +:+ dq +:+ " format="
        +:+ dq +:+ "html" +:+ dq +:+ " scope=" +:+ dq +:+ "external" +:+ dq
        +:+ ">" +:+ escape_xml link_text +:+ "</xref>")
  /\ (is_url href = false ->
      resolved_link_output None href link_text = escape_xml link_text).
Proof.
  intros Hhref Hnone index a_tag link_text.
  pose proof (mark_links_link urlparse index attrs cs href Hhref Hnone) as Hloop.
  fold a_tag in Hloop.
  split; [| split; [| split; [| split]]].
  - rewrite Hloop, <- (link_target_raises urlparse index href).
    destruct (mapM (mark_links urlparse index) cs) as [cs' |]; simpl.
    + destruct (link_target urlparse index href); simpl.
      * split; [discriminate | intros [H | H]; discriminate H].
      * split; auto.
    + split; auto.
  - intros marked Hmarked.
    assert (Htext : Soup.get_text_strip marked = link_text).
    { unfold Soup.get_text_strip.
      rewrite (strings_mark_links urlparse index a_tag marked Hmarked).
      reflexivity. }
    rewrite Hloop in Hmarked.
    destruct (mapM (mark_links urlparse index) cs) as [cs' |]; [| discriminate].
    simpl in Hmarked.
    destruct (link_target urlparse index href) as [target |] eqn:Htarget;
      [| discriminate].
    simpl in Hmarked. injection Hmarked as <-.
    exists target. split; [reflexivity |].
    assert (Hlink :
      convert_link
        (Tag "a"
           match target with
           | Some info =>
               <["data-dita-scope" := "local"]>
                 (<["data-dita-href" := topic_filename info]> attrs)
           | None => attrs
           end cs')
      = resolved_link_output target href link_text).
    { unfold convert_link. rewrite Htext.
      unfold resolved_link_output, Soup.get_or_empty. simpl Soup.get.
      destruct target as [info |].
      - rewrite lookup_insert_ne, lookup_insert_eq by discriminate.
        unfold link_target in Htarget.
        destruct (link_key urlparse href) as [[normalized |] |];
          try discriminate Htarget.
        simpl in Htarget. injection Htarget as Htarget.
        destruct (corpus_index_filename_shape _ _ _ _ Htarget) as [n ->].
        change (nth_topic_filename n)
          with (String "t" ("opic_" +:+ pretty n +:+ ".dita")) at 1.
        unfold xref_dita, xml_attr. rewrite !append_assoc. reflexivity.
      - rewrite Hnone, Hhref. change (default "" (Some href)) with href.
        destruct (is_url href); [| reflexivity].
        unfold xref_external, xml_attr. rewrite !append_assoc. reflexivity. }
    split.
    + rewrite <- Hlink. destruct target; reflexivity.
    + rewrite <- Hlink. destruct target; reflexivity.
  - intros target. reflexivity.
  - intros Hurl. unfold resolved_link_output. rewrite Hurl. reflexivity.
  - intros Hurl. unfold resolved_link_output. rewrite Hurl. reflexivity.
Qed.

(** ** The scenario of the specification *)

(** C3.  The scenario on the script: the outline indexes [guide/intro.html]
    under the key [md/guide/intro.md]; the link [../intro.html#anchor] of the
    layers document is normalized against the corpus root to [intro.md], and
    [./intro.html#anchor] to [md/intro.md]; neither is a key of the index,
    so the translated paragraph holds the text of the link only.  The
    fragment is dropped, and the root-relative form of the same link does
    become an internal reference to [topic_1.dita]. *)
Theorem relative_link_scenario :
  scenario_index !! "md/guide/intro.md"
  = Some (TopicInfo "topic_1" "topic_1.dita" "Intro")
  /\ link_key Url.urlparse "../intro.html#anchor" = Some (Some "intro.md")
  /\ scenario_index !! "intro.md" = None
  /\ link_key Url.urlparse "./intro.html#anchor" = Some (Some "md/intro.md")
  /\ scenario_index !! "md/intro.md" = None
  /\ md_to_dita_topic Url.urlparse scenario_markdown no_resolve scenario_files
       "md/./guide/layers.md" "topic_2" "Layers" scenario_index
     = Some (Py.join nl (topic_header "topic_2" "Layers"
                         ++ ["    <p>See Intro.</p>"; "  </body>"; "</topic>"]))
  /\ link_key Url.urlparse "/guide/intro.html#anchor"
     = Some (Some "md/guide/intro.md")
  /\ convert_link
       <$> mark_links Url.urlparse scenario_index
             (html_link "/guide/intro.html#anchor" "Intro")
     = Some (xref_dita "topic_1.dita" "Intro").
Proof. vm_compute. repeat split; reflexivity. Qed.

(** C4, as stated, fails: a link to an address of the expected site whose
    key is not indexed is kept as an external reference, where the
    specification has it degrade to its text. *)
Lemma on_site_unmatched_link_stays_external :
  convert_child (Tag "p" ∅ [])
    <$> mark_links Url.urlparse scenario_index missing_link
  = Some ("<xref href=" +:+ dq +:+ "https://helpx.adobe.com/missing.html" +:+ dq
          +:+ " format=" +:+ dq +:+ "html" +:+ dq +:+ " scope=" +:+ dq
          +:+ "external" +:+ dq +:+ ">Missing</xref>")
  /\ specified_link_output Url.urlparse scenario_index missing_link = "Missing"
  /\ convert_child (Tag "p" ∅ [])
       <$> mark_links Url.urlparse scenario_index missing_link
     <> Some (specified_link_output Url.urlparse scenario_index missing_link).
Proof.
  split; [vm_compute; reflexivity |]. split; [vm_compute; reflexivity |].
  vm_compute. intros H. discriminate H.
Qed.

(** A link inside an inline wrapper is not a child of the converted
    element: the wrapper is rendered from its text, reference or not. *)
Example link_inside_bold :
  convert_element_content
    <$> mark_links Url.urlparse scenario_index
          (Tag "p" ∅ [Tag "strong" ∅ [html_link "/guide/intro.html" "Intro"]])
  = Some "<b>Intro</b>".
Proof. vm_compute. reflexivity. Qed.

(** An address with an unmatched bracket in its host ends the translation
    of its document, and with it the run. *)
Example bracket_host_aborts :
  Url.urlparse "http://[bad/page.html" = None
  /\ md_to_dita_topic Url.urlparse bracket_markdown no_resolve bracket_files
       "md/./guide/intro.md" "topic_1" "Intro" scenario_index = None
  /\ build_dita_map Url.urlparse bracket_markdown no_resolve bracket_files
       scenario_toc "md" None = ([], None).
Proof. vm_compute. repeat split; reflexivity. Qed.

Lemma link_rendering_witness :
  exists target,
    link_target Url.urlparse (file_to_topic (corpus_index scenario_toc "md"))
      "https://helpx.adobe.com/missing.html" = Some target
    /\ convert_child (Tag "p" ∅ [])
         (Tag "a" {[ "href" := "https://helpx.adobe.com/missing.html" ]}
            [NavigableString "Missing"])
       = resolved_link_output target "https://helpx.adobe.com/missing.html"
           (Soup.get_text_strip missing_link)
    /\ convert_list_item_child
         (Tag "a" {[ "href" := "https://helpx.adobe.com/missing.html" ]}
            [NavigableString "Missing"])
       = [resolved_link_output target "https://helpx.adobe.com/missing.html"
            (Soup.get_text_strip missing_link)].
Proof.
  refine (proj1 (proj2
            (link_rendering Url.urlparse scenario_toc "md" (Tag "p" ∅ [])
               {[ "href" := "https://helpx.adobe.com/missing.html" ]}
               [NavigableString "Missing"]
               "https://helpx.adobe.com/missing.html" _ _))
            (Tag "a" {[ "href" := "https://helpx.adobe.com/missing.html" ]}
               [NavigableString "Missing"]) _).
  - vm_compute. reflexivity.
  - vm_compute. reflexivity.
  - vm_compute. reflexivity.
Defined.




(** C8.  On a heading-only outline with headings of twelve marks the
    script leaves the specification: the counter of depth 10 is not cleared
    by the shallower heading between them, so the second heading of twelve
    marks, the first of its scope, is numbered 2 where the specification
    numbers it 1. *)
Theorem deep_heading_counter_not_reset :
  forallb (heading_or_blank 12) (Py.split nl deep_headings) = true
  /\ convert_headings_to_lists deep_headings
     = Py.join nl [ numbered_entry 10 1 "X"; numbered_entry 0 1 "Y";
                    numbered_entry 10 2 "Z" ]
  /\ Py.join nl (number_headings [] (omap heading_of (Py.split nl deep_headings)))
     = Py.join nl [ numbered_entry 10 1 "X"; numbered_entry 0 1 "Y";
                    numbered_entry 10 1 "Z" ]
  /\ convert_headings_to_lists deep_headings
     <> Py.join nl (number_headings [] (omap heading_of (Py.split nl deep_headings))).
Proof.
  split; [vm_compute; reflexivity |]. split; [vm_compute; reflexivity |].
  split; [vm_compute; reflexivity |].
  apply String.eqb_neq. vm_compute. reflexivity.
Qed.

Lemma heading_only_outline_numbering_witness :
  convert_headings_to_lists sample_headings
  = Py.join nl [ "1. A"; "    1. B"; "    2. C"; "2. D"; "    1. E" ].
Proof.
  refine (eq_trans (proj1 (heading_only_outline_numbering sample_headings _)) _).
  - vm_compute. reflexivity.
  - vm_compute. reflexivity.
Defined.

Lemma index_one_record_per_key_witness :
  file_to_topic (collect_files "md" repeating_list initial_index)
    !! "md/guide/intro.md"
  = Some (TopicInfo "topic_1" "topic_1.dita" "Intro")
  /\ foldl index_visit initial_index
       ([Visit "Intro" "md/./guide/intro.md"; Visit "Layers" "md/./guide/layers.md"]
        ++ [Visit "Intro again" "md/./guide/intro.md"])
     = foldl index_visit initial_index
         [Visit "Intro" "md/./guide/intro.md"; Visit "Layers" "md/./guide/layers.md"].
Proof.
  pose proof (index_one_record_per_key "md" repeating_list)
    as (_ & _ & _ & _ & _ & Hrecord & Hreuse).
  split.
  - refine (Hrecord 0 (Visit "Intro" "md/./guide/intro.md") _).
    vm_compute. reflexivity.
  - refine (Hreuse _ _ [Visit "Intro, third" "md/./guide/intro.md"] _ _).
    + vm_compute. reflexivity.
    + vm_compute. apply list_elem_of_here.
Defined.

Lemma index_is_function_of_traversal_witness :
  collect_files "md" tight_list initial_index
  = collect_files "md" loose_list initial_index.
Proof.
  refine (proj1 (index_is_function_of_traversal "md" tight_list loose_list _)
                initial_index).
  vm_compute. reflexivity.
Defined.




Lemma inline_image_classification_witness :
  is_inline_image
    (Some (Tag "td" ∅ [Tag "img" {[ "src" := "i.png" ]} []; NavigableString " caption"]))
  = true.
Proof.
  refine (proj1 (proj2 (proj2 inline_image_classification)) ∅ _ " caption" _).
  exists "c"%char. split; [right; left; reflexivity | reflexivity].
Defined.

(** ** Strings as lists of characters *)

Lemma chars_append s t :
  list_ascii_of_string (s +:+ t)
  = list_ascii_of_string s ++ list_ascii_of_string t.
Proof.
  induction s as [| c s IH]; [reflexivity |].
  change (String c s +:+ t) with (String c (s +:+ t)). simpl. f_equal. exact IH.
Qed.

Lemma chars_inj s t :
  list_ascii_of_string s = list_ascii_of_string t -> s = t.
Proof.
  intros H. rewrite <- (string_of_list_ascii_of_string s),
    <- (string_of_list_ascii_of_string t), H. reflexivity.
Qed.

Lemma prefix_one_char c x s :
  String.prefix (String c "") (String x s) = if ascii_dec c x then true else false.
Proof.
  change (String.prefix (String c "") (String x s))
    with (if ascii_dec c x then String.prefix "" s else false).
  destruct (ascii_dec c x); [destruct s |]; reflexivity.
Qed.

(** Replacing a character: every occurrence gives way to the new text. *)
Lemma chars_replace_char c new s :
  list_ascii_of_string (Py.replace (String c "") new s)
  = flat_map (fun x => if ascii_dec c x then list_ascii_of_string new else [x])
             (list_ascii_of_string s).
Proof.
  unfold Py.replace. induction s as [| x s IH]; [reflexivity |].
  cbn [Py.replace_go String.length Nat.sub list_ascii_of_string flat_map].
  rewrite prefix_one_char.
  destruct (ascii_dec c x) as [Heq | Hne].
  - rewrite chars_append, IH. reflexivity.
  - cbn [list_ascii_of_string app]. rewrite IH. reflexivity.
Qed.

Lemma replace_char_absent c new s :
  ~ In c (list_ascii_of_string s) -> Py.replace (String c "") new s = s.
Proof.
  intros Habsent. apply chars_inj. rewrite chars_replace_char.
  induction (list_ascii_of_string s) as [| x l IH]; [reflexivity |].
  simpl. destruct (ascii_dec c x) as [-> | Hne].
  - exfalso. apply Habsent. left. reflexivity.
  - simpl. f_equal. apply IH. intros Hin. apply Habsent. right. exact Hin.
Qed.

Lemma replace_char_gone c new s :
  ~ In c (list_ascii_of_string new) ->
  ~ In c (list_ascii_of_string (Py.replace (String c "") new s)).
Proof.
  intros Hnew. rewrite chars_replace_char.
  induction (list_ascii_of_string s) as [| x l IH]; [intros [] |].
  simpl. rewrite in_app_iff. intros [Hin | Hin]; [| exact (IH Hin)].
  destruct (ascii_dec c x) as [-> | Hne]; [exact (Hnew Hin) |].
  destruct Hin as [-> | []]. apply Hne. reflexivity.
Qed.

Lemma replace_char_keeps_absent d c new s :
  ~ In d (list_ascii_of_string new) ->
  ~ In d (list_ascii_of_string s) ->
  ~ In d (list_ascii_of_string (Py.replace (String c "") new s)).
Proof.
  intros Hnew Hs. rewrite chars_replace_char.
  induction (list_ascii_of_string s) as [| x l IH]; [intros [] |].
  simpl. rewrite in_app_iff. intros [Hin | Hin].
  - destruct (ascii_dec c x) as [-> | Hne]; [exact (Hnew Hin) |].
    destruct Hin as [-> | []]. apply Hs. left. reflexivity.
  - apply IH; [| exact Hin]. intros Hl. apply Hs. right. exact Hl.
Qed.

(** X1.  The text [escape_xml] returns holds none of the characters [<],
    [>], the double quote and the apostrophe, whatever the input: escaped
    text can neither open or close an element nor end an attribute value. *)
Theorem escape_xml_no_markup (text : string) (c : ascii) :
  In c markup_chars -> ~ In c (list_ascii_of_string (escape_xml text)).
Proof.
  unfold escape_xml, dq, markup_chars. intros Hc.
  assert (Hnot : forall (x : ascii) (s : string),
            negb (existsb (Ascii.eqb x) (list_ascii_of_string s)) = true ->
            ~ In x (list_ascii_of_string s)).
  { intros x s Hb Hin. apply negb_true_iff in Hb.
    assert (Ht : existsb (Ascii.eqb x) (list_ascii_of_string s) = true).
    { apply existsb_exists. exists x. split; [exact Hin | apply Ascii.eqb_refl]. }
    congruence. }
  set (t1 := Py.replace "&" "&amp;" text).
  set (t2 := Py.replace "<" "&lt;" t1).
  set (t3 := Py.replace ">" "&gt;" t2).
  set (t4 := Py.replace (String "034" "") "&quot;" t3).
  assert (H2 : ~ In "<"%char (list_ascii_of_string t2)).
  { apply replace_char_gone, Hnot. reflexivity. }
  assert (H3a : ~ In "<"%char (list_ascii_of_string t3)).
  { apply replace_char_keeps_absent; [apply Hnot; reflexivity | exact H2]. }
  assert (H3b : ~ In ">"%char (list_ascii_of_string t3)).
  { apply replace_char_gone, Hnot. reflexivity. }
  assert (H4a : ~ In "<"%char (list_ascii_of_string t4)).
  { apply replace_char_keeps_absent; [apply Hnot; reflexivity | exact H3a]. }
  assert (H4b : ~ In ">"%char (list_ascii_of_string t4)).
  { apply replace_char_keeps_absent; [apply Hnot; reflexivity | exact H3b]. }
  assert (H4c : ~ In "034"%char (list_ascii_of_string t4)).
  { apply replace_char_gone, Hnot. reflexivity. }
  destruct Hc as [<- | [<- | [<- | [<- | []]]]].
  - apply replace_char_keeps_absent; [apply Hnot; reflexivity | exact H4a].
  - apply replace_char_keeps_absent; [apply Hnot; reflexivity | exact H4b].
  - apply replace_char_keeps_absent; [apply Hnot; reflexivity | exact H4c].
  - apply replace_char_gone, Hnot. reflexivity.
Qed.

(** X2.  [escape_xml] returns a text without [&], [<], [>], double quote
    and apostrophe as it is. *)
Theorem escape_xml_plain (text : string) :
  (forall c, In c ("&"%char :: markup_chars) ->
             ~ In c (list_ascii_of_string text)) ->
  escape_xml text = text.
Proof.
  intros Hplain. unfold escape_xml, dq.
  rewrite (replace_char_absent "&" _ text) by (apply Hplain; simpl; auto).
  rewrite (replace_char_absent "<" _ text) by (apply Hplain; simpl; auto).
  rewrite (replace_char_absent ">" _ text) by (apply Hplain; simpl; auto).
  rewrite (replace_char_absent "034" _ text) by (apply Hplain; simpl; auto).
  apply replace_char_absent, Hplain. simpl. auto 6.
Qed.

(** ** The two structures of the first pass *)

Lemma record_of_pending n v : record_of (pending_of n 0 v) = info_of n v.
Proof. unfold record_of, pending_of, info_of. simpl. rewrite Nat.add_0_r. reflexivity. Qed.

Lemma index_visit_agrees st v : index_agrees st -> index_agrees (index_visit st v).
Proof.
  intros (Hc & Hs & Hp & Hk).
  destruct (file_to_topic st !! v_key v) as [info |] eqn:Hv.
  - rewrite index_visit_known by eauto. repeat split; assumption.
  - rewrite (index_visit_new _ _ Hv). unfold index_agrees. simpl.
    rewrite length_app. simpl.
    split; [lia |]. split; [rewrite map_size_insert_None by exact Hv; lia |].
    split.
    + intros p Hin. apply elem_of_app in Hin as [Hin | Hin].
      * rewrite lookup_insert_ne; [apply Hp, Hin |].
        intros Heq. specialize (Hp p Hin).
        rewrite <- Heq, Hv in Hp. discriminate Hp.
      * apply list_elem_of_singleton in Hin as ->. simpl.
        fold (v_key v). rewrite lookup_insert_eq, <- record_of_pending.
        reflexivity.
    + intros k info. destruct (decide (v_key v = k)) as [<- | Hne].
      * rewrite lookup_insert_eq. intros H. injection H as <-.
        exists (pending_of (S (topic_counter st)) 0 v).
        split; [apply elem_of_app; right; apply list_elem_of_here |].
        split; [reflexivity | symmetry; apply record_of_pending].
      * rewrite lookup_insert_ne by exact Hne. intros H.
        destruct (Hk k info H) as (p & Hin & Hkey & Hinfo).
        exists p. split; [apply elem_of_app; left; exact Hin | auto].
Qed.

Lemma foldl_index_visit_agrees vs : forall st,
  index_agrees st -> index_agrees (foldl index_visit st vs).
Proof.
  induction vs as [| v vs IH]; intros st Hst; [exact Hst |].
  simpl. apply IH, index_visit_agrees, Hst.
Qed.

Lemma initial_index_agrees : index_agrees initial_index.
Proof.
  repeat split; try reflexivity.
  - intros p Hp. inversion Hp.
  - intros k info H. simpl in H. rewrite lookup_empty in H. discriminate H.
Qed.

(** X3.  After the first pass over any list, from the empty index, the
    counter, the number of records of [file_to_topic] and the length of
    [files_to_process] are the same number; every entry of
    [files_to_process] has, under the normalized form of its path, a record
    with its identifier, file name and title; and every record comes from
    such an entry. *)
Theorem index_and_pending_agree (base_path : string) (ol : node) :
  let st := collect_files base_path ol initial_index in
  topic_counter st = length (files_to_process st)
  /\ size (file_to_topic st) = length (files_to_process st)
  /\ (forall p, p ∈ files_to_process st ->
        file_to_topic st !! normalize_path (p_href p)
        = Some (TopicInfo (p_id p) (p_filename p) (p_title p)))
  /\ (forall k info, file_to_topic st !! k = Some info ->
        exists p, p ∈ files_to_process st /\ normalize_path (p_href p) = k
                  /\ info = TopicInfo (p_id p) (p_filename p) (p_title p)).
Proof.
  intros st. subst st. rewrite collect_files_visits.
  apply (foldl_index_visit_agrees _ _ initial_index_agrees).
Qed.

(** ** Prefixes and suffixes *)

Lemma append_nil_r s : s +:+ "" = s.
Proof.
  induction s as [| c s IH]; [reflexivity |].
  change (String c s +:+ "") with (String c (s +:+ "")). f_equal. exact IH.
Qed.

Lemma rev_onto_append s : forall acc, Py.rev_onto s acc = Py.srev s +:+ acc.
Proof.
  intros acc. apply chars_inj.
  rewrite chars_append, chars_srev, chars_rev_onto. reflexivity.
Qed.

Lemma srev_append s t : Py.srev (s +:+ t) = Py.srev t +:+ Py.srev s.
Proof.
  apply chars_inj.
  rewrite chars_append, !chars_srev, chars_append, rev_app_distr. reflexivity.
Qed.

Lemma prefix_cons a p x s :
  String.prefix (String a p) (String x s)
  = if ascii_dec a x then String.prefix p s else false.
Proof. reflexivity. Qed.

Lemma prefix_empty s : String.prefix "" s = true.
Proof. destruct s; reflexivity. Qed.

Lemma prefix_append p x : String.prefix p (p +:+ x) = true.
Proof.
  induction p as [| a p IH]; [apply prefix_empty |].
  change (String a p +:+ x) with (String a (p +:+ x)).
  rewrite prefix_cons. destruct (ascii_dec a a); [exact IH | contradiction].
Qed.

Lemma prefix_split p : forall s,
  String.prefix p s = true -> exists t, s = p +:+ t.
Proof.
  induction p as [| a p IH]; intros s H.
  - exists s. reflexivity.
  - destruct s as [| x s]; [discriminate H |].
    rewrite prefix_cons in H. destruct (ascii_dec a x) as [<- |]; [| discriminate H].
    destruct (IH s H) as [t ->]. exists t. reflexivity.
Qed.

Lemma srev_involutive s : Py.srev (Py.srev s) = s.
Proof. apply chars_inj. rewrite !chars_srev. apply rev_involutive. Qed.

Lemma endswith_append x p : Py.endswith (x +:+ p) p = true.
Proof. unfold Py.endswith. rewrite srev_append. apply prefix_append. Qed.

Lemma endswith_split s p :
  Py.endswith s p = true -> exists x, s = x +:+ p.
Proof.
  unfold Py.endswith. intros H. apply prefix_split in H as [t Ht].
  exists (Py.srev t). rewrite <- (srev_involutive s), Ht, srev_append, srev_involutive.
  reflexivity.
Qed.

Lemma take_append s t : Py.take (String.length s) (s +:+ t) = s.
Proof.
  induction s as [| c s IH]; [destruct t; reflexivity |].
  change (String c s +:+ t) with (String c (s +:+ t)). simpl. f_equal. exact IH.
Qed.

Lemma drop_last_append x p : Py.drop_last (String.length p) (x +:+ p) = x.
Proof.
  unfold Py.drop_last. rewrite append_length.
  replace (String.length x + String.length p - String.length p)
    with (String.length x) by lia.
  apply take_append.
Qed.

Lemma not_endswith_html_md x : Py.endswith (x +:+ ".md") ".html" = false.
Proof. unfold Py.endswith. rewrite srev_append. reflexivity. Qed.

Lemma startswith_one x s a :
  Py.startswith (String x s) (String a "")
  = if ascii_dec a x then true else false.
Proof. apply prefix_one_char. Qed.

Lemma startswith_two x y s a b :
  Py.startswith (String x (String y s)) (String a (String b ""))
  = if ascii_dec a x then (if ascii_dec b y then true else false) else false.
Proof.
  unfold Py.startswith. rewrite prefix_cons.
  destruct (ascii_dec a x); [apply prefix_one_char | reflexivity].
Qed.

Lemma startswith_two_short x a b :
  Py.startswith (String x "") (String a (String b "")) = false.
Proof.
  unfold Py.startswith. rewrite prefix_cons. destruct (ascii_dec a x); reflexivity.
Qed.

(** ** The paths of the outline *)

Lemma rooted_dot href : exists r, rooted href = "." +:+ r.
Proof.
  unfold rooted. destruct (Py.startswith href "/"); [eauto |].
  destruct (Py.startswith href "./") eqn:H; simpl; [| eauto].
  apply prefix_split in H as [t ->]. eauto.
Qed.

Lemma path_join_rooted base_path href tail :
  Py.path_join base_path (rooted href +:+ tail)
  = join_prefix base_path +:+ rooted href +:+ tail.
Proof.
  destruct (rooted_dot href) as [r ->]. unfold Py.path_join, join_prefix.
  change (("." +:+ r) +:+ tail) with (String "." (r +:+ tail)).
  rewrite startswith_one.
  destruct (ascii_dec "/" ".") as [Habs |]; [discriminate Habs |].
  destruct (String.eqb base_path "" || Py.endswith base_path "/");
    [reflexivity | rewrite !append_assoc; reflexivity].
Qed.

(** An extension does not change how an address is made relative. *)
Lemma rooted_extension b e :
  rooted (b +:+ String "." e)
  = (if String.eqb b "" then "./" else rooted b) +:+ String "." e
  \/ (b = "" /\ Py.startswith e "/" = true).
Proof.
  destruct b as [| c [| d b]].
  - change ("" +:+ String "." e) with (String "." e).
    destruct e as [| x e]; [left; reflexivity |].
    unfold rooted. rewrite startswith_one, startswith_two, startswith_one.
    simpl String.eqb.
    destruct (ascii_dec "/" "."); [discriminate |].
    destruct (ascii_dec "." "."); [| contradiction].
    destruct (ascii_dec "/" x); [right; split; reflexivity | left; reflexivity].
  - left. change (String c "" +:+ String "." e) with (String c (String "." e)).
    unfold rooted. rewrite !startswith_one, startswith_two, startswith_two_short.
    simpl String.eqb.
    destruct (ascii_dec "/" c); [reflexivity |].
    destruct (ascii_dec "." c); [| reflexivity].
    destruct (ascii_dec "/" "."); [discriminate | reflexivity].
  - left.
    change (String c (String d b) +:+ String "." e)
      with (String c (String d (b +:+ String "." e))).
    unfold rooted. rewrite !startswith_one, !startswith_two.
    simpl String.eqb.
    destruct (ascii_dec "/" c); [reflexivity |].
    destruct (ascii_dec "." c); [| reflexivity].
    destruct (ascii_dec "/" d); reflexivity.
Qed.

Lemma rooted_slash h : rooted ("/" +:+ h) = "./" +:+ h.
Proof.
  unfold rooted. change ("/" +:+ h) with (String "/" h).
  rewrite startswith_one. destruct (ascii_dec "/" "/"); [reflexivity | contradiction].
Qed.

Lemma rooted_dot_slash h : rooted ("./" +:+ h) = "./" +:+ h.
Proof.
  unfold rooted. change ("./" +:+ h) with (String "." (String "/" h)).
  rewrite startswith_one, startswith_two.
  destruct (ascii_dec "/" "."); [discriminate |].
  destruct (ascii_dec "." "."); [| contradiction].
  destruct (ascii_dec "/" "/"); [reflexivity | contradiction].
Qed.

Lemma rooted_bare h :
  Py.startswith h "/" = false -> Py.startswith h "./" = false ->
  rooted h = "./" +:+ h.
Proof. intros H1 H2. unfold rooted. rewrite H1, H2. reflexivity. Qed.

Lemma outline_path_rooted base_path href :
  outline_path base_path href
  = let joined := join_prefix base_path +:+ rooted href in
    if Py.endswith joined ".html"
    then Py.drop_last 5 joined +:+ ".md" else joined.
Proof.
  assert (Hjoin : Py.path_join base_path (rooted href)
                  = join_prefix base_path +:+ rooted href).
  { pose proof (path_join_rooted base_path href "") as H.
    rewrite !append_nil_r in H. exact H. }
  unfold outline_path. fold (rooted href). cbv zeta. rewrite Hjoin. reflexivity.
Qed.

(** The path of a target that ends in [.html] or in [.md]. *)
Lemma outline_path_html base_path b :
  outline_path base_path (b +:+ ".html")
  = join_prefix base_path +:+ (if String.eqb b "" then "./" else rooted b)
    +:+ ".md".
Proof.
  rewrite outline_path_rooted.
  destruct (rooted_extension b "html") as [-> | [_ H]]; [| discriminate H].
  cbv zeta. rewrite <- append_assoc, endswith_append.
  change 5 with (String.length ".html"). rewrite drop_last_append.
  apply append_assoc.
Qed.

Lemma outline_path_md base_path b :
  outline_path base_path (b +:+ ".md")
  = join_prefix base_path +:+ (if String.eqb b "" then "./" else rooted b)
    +:+ ".md".
Proof.
  rewrite outline_path_rooted.
  destruct (rooted_extension b "md") as [-> | [_ H]]; [| discriminate H].
  cbv zeta. rewrite <- append_assoc, not_endswith_html_md. reflexivity.
Qed.

(** X4.  The first pass does not tell the spellings of a target apart: the
    targets [/h] and [./h] get the same path, and so does [h] itself when
    it starts with neither; [b.html] gets the path of [b.md].  A second
    target with the path of one already registered is not counted, gets no
    topic of its own and leaves the index as it is, and its key is present
    in the index. *)
Theorem outline_spellings_collide (base_path : string) :
  (forall h, outline_path base_path ("/" +:+ h)
             = outline_path base_path ("./" +:+ h))
  /\ (forall h, Py.startswith h "/" = false -> Py.startswith h "./" = false ->
        outline_path base_path ("./" +:+ h) = outline_path base_path h)
  /\ (forall b, outline_path base_path (b +:+ ".html")
                = outline_path base_path (b +:+ ".md"))
  /\ (forall st title title' h h',
        outline_path base_path h = outline_path base_path h' ->
        let st' := register title (outline_path base_path h) st in
        register title' (outline_path base_path h') st' = st'
        /\ is_Some (file_to_topic st'
                    !! normalize_path (outline_path base_path h'))).
Proof.
  split.
  { intros h. rewrite !outline_path_rooted, rooted_slash, rooted_dot_slash.
    reflexivity. }
  split.
  { intros h H1 H2.
    rewrite !outline_path_rooted, rooted_dot_slash, (rooted_bare h H1 H2).
    reflexivity. }
  split; [intros b; rewrite outline_path_html, outline_path_md; reflexivity |].
  intros st title title' h h' <- st'.
  assert (Hsome : is_Some (file_to_topic st'
                           !! normalize_path (outline_path base_path h))).
  { subst st'. unfold register.
    destruct (file_to_topic st !! _) as [info |] eqn:Hk; [rewrite Hk; eauto |].
    simpl. rewrite lookup_insert_eq. eauto. }
  split; [| exact Hsome].
  destruct Hsome as [info Hinfo]. unfold register at 1. rewrite Hinfo. reflexivity.
Qed.

(** ** Fragments and queries *)

(** The key of a base path, with the rooted form of the link path. *)
Lemma key_of_base_rooted base_path :
  key_of_base base_path
  = let base_path := if Py.contains "#" base_path
                     then hd "" (Py.split "#" base_path) else base_path in
    let base_path := if Py.contains "?" base_path
                     then hd "" (Py.split "?" base_path) else base_path in
    let base_path := if Py.endswith base_path ".html"
                     then Py.drop_last 5 base_path else base_path in
    if negb (truthy base_path) || String.eqb base_path "/" then None
    else Some (normalize_path (Py.path_join MD_DIR (rooted (base_path +:+ ".md")))).
Proof. reflexivity. Qed.

Lemma link_key_relative urlparse href :
  Py.startswith href "#" = false -> is_url href = false ->
  link_key urlparse href = Some (key_of_base href).
Proof. intros H1 H2. unfold link_key. rewrite H1, H2. reflexivity. Qed.

Lemma link_key_on_site urlparse href netloc path :
  Py.startswith href "#" = false -> is_url href = true ->
  urlparse href = Some (netloc, path) ->
  Py.contains "helpx.adobe.com" netloc || Py.contains "adobe.com" netloc = true ->
  link_key urlparse href = Some (key_of_base path).
Proof.
  intros H1 H2 Hparse Hsite. unfold link_key. rewrite H1, H2, Hparse.
  simpl. rewrite Hsite. reflexivity.
Qed.

Lemma until_free stops s : free_of stops s -> Url.until stops s = s.
Proof.
  induction s as [| c s IH]; intros Hfree; [reflexivity |].
  simpl. rewrite (Hfree c) by (left; reflexivity). f_equal.
  apply IH. intros d Hd. apply Hfree. right. exact Hd.
Qed.

Lemma until_append_free stops s t :
  free_of stops s -> Url.until stops (s +:+ t) = s +:+ Url.until stops t.
Proof.
  induction s as [| c s IH]; intros Hfree; [reflexivity |].
  change (String c s +:+ t) with (String c (s +:+ t)).
  simpl. rewrite (Hfree c) by (left; reflexivity).
  change (String c s +:+ Url.until stops t)
    with (String c (s +:+ Url.until stops t)).
  f_equal. apply IH. intros d Hd. apply Hfree. right. exact Hd.
Qed.

Lemma mem_char_one c d :
  Py.mem_char c (String d "") = if ascii_dec d c then true else false.
Proof.
  simpl. destruct (ascii_dec d c) as [-> | Hne].
  - rewrite Ascii.eqb_refl. reflexivity.
  - destruct (Ascii.eqb_spec c d) as [-> |]; [contradiction | reflexivity].
Qed.

Lemma contains_char c s :
  Py.contains (String c "") s = false -> free_of (String c "") s.
Proof.
  induction s as [| x s IH]; intros H d Hd; [destruct Hd |].
  cbn [Py.contains] in H. rewrite prefix_one_char in H.
  destruct (ascii_dec c x) as [-> | Hne]; [discriminate H |].
  destruct Hd as [<- | Hd].
  - rewrite mem_char_one. destruct (ascii_dec c x); [contradiction | reflexivity].
  - apply IH; assumption.
Qed.

Lemma split_head c s : forall cur,
  hd "" (Py.split_go (String c "") None 0 cur s)
  = Py.srev cur +:+ Url.until (String c "") s.
Proof.
  induction s as [| x s IH]; intros cur.
  - simpl. rewrite append_nil_r. reflexivity.
  - cbn [Py.split_go andb]. rewrite prefix_one_char.
    cbn [Url.until]. rewrite mem_char_one.
    destruct (ascii_dec c x) as [Heq | Hne].
    + simpl. rewrite append_nil_r. reflexivity.
    + rewrite IH. unfold Py.srev. cbn [Py.rev_onto].
      rewrite (rev_onto_append cur (String x "")), append_assoc. reflexivity.
Qed.

(** Cutting at a separator keeps the text before its first occurrence. *)
Lemma cut_until c s :
  (if Py.contains (String c "") s
   then hd "" (Py.split (String c "") s) else s)
  = Url.until (String c "") s.
Proof.
  destruct (Py.contains (String c "") s) eqn:H.
  - unfold Py.split. rewrite split_head. reflexivity.
  - symmetry. apply until_free, contains_char, H.
Qed.

Lemma free_of_append stops s t :
  free_of stops s -> free_of stops t -> free_of stops (s +:+ t).
Proof.
  intros Hs Ht c Hc. rewrite chars_append in Hc.
  apply in_app_iff in Hc as [Hc | Hc]; [apply Hs | apply Ht]; exact Hc.
Qed.

Lemma free_of_weaken c stops s :
  Py.mem_char c stops = true -> free_of stops s -> free_of (String c "") s.
Proof.
  intros Hc Hfree d Hd. rewrite mem_char_one.
  destruct (ascii_dec c d) as [<- |]; [| reflexivity].
  rewrite (Hfree c Hd) in Hc. discriminate Hc.
Qed.

(** The path that is left of a path followed by a fragment or a query. *)
Lemma cut_suffix x suffix :
  free_of "#?" x -> is_suffix suffix ->
  Url.until "?" (Url.until "#" (x +:+ suffix)) = x.
Proof.
  intros Hfree Hsuffix.
  assert (Hh : free_of "#" x) by (apply (free_of_weaken "#" "#?"); [reflexivity | exact Hfree]).
  assert (Hq : free_of "?" x) by (apply (free_of_weaken "?" "#?"); [reflexivity | exact Hfree]).
  rewrite (until_append_free "#" x suffix Hh).
  destruct Hsuffix as [-> | [H | H]].
  - simpl. rewrite append_nil_r. apply until_free, Hq.
  - apply prefix_split in H as [t ->]. simpl. rewrite append_nil_r.
    apply until_free, Hq.
  - apply prefix_split in H as [t ->].
    change (Url.until "#" ("?" +:+ t)) with (String "?" (Url.until "#" t)).
    rewrite (until_append_free "?" x _ Hq). simpl. apply append_nil_r.
Qed.

(** The key of a path to a rendered page, with or without a suffix. *)
Lemma key_of_base_html b suffix :
  free_of "#?" b -> truthy b = true -> String.eqb b "/" = false ->
  is_suffix suffix ->
  key_of_base (b +:+ ".html" +:+ suffix)
  = Some (target_key MD_DIR (b +:+ ".html")).
Proof.
  intros Hfree Hb Hroot Hsuffix. rewrite key_of_base_rooted.
  rewrite (cut_until "#"). cbv zeta. rewrite (cut_until "?").
  rewrite <- append_assoc, cut_suffix; [| | exact Hsuffix].
  2: { apply free_of_append; [exact Hfree |]. intros c Hc.
       simpl in Hc. repeat (destruct Hc as [<- | Hc]; [reflexivity |]). destruct Hc. }
  rewrite endswith_append. change 5 with (String.length ".html").
  rewrite drop_last_append, Hb, Hroot. simpl negb. cbv iota.
  unfold target_key. rewrite outline_path_html.
  destruct (rooted_extension b "md") as [-> | [-> _]]; [| discriminate Hb].
  destruct (String.eqb b "") eqn:Hempty;
    [apply String.eqb_eq in Hempty; subst b; discriminate Hb |].
  rewrite path_join_rooted. reflexivity.
Qed.

(** The key of a relative link to a rendered page. *)
Lemma link_key_page (urlparse : string -> option (string * string))
    (b suffix : string) :
  free_of "#?" b -> truthy b = true -> String.eqb b "/" = false ->
  is_suffix suffix ->
  is_url (b +:+ ".html" +:+ suffix) = false ->
  link_key urlparse (b +:+ ".html" +:+ suffix)
  = Some (Some (target_key MD_DIR (b +:+ ".html"))).
Proof.
  intros Hfree Hb Hroot Hsuffix Hurl.
  rewrite link_key_relative;
    [f_equal; apply key_of_base_html; assumption | | exact Hurl].
  destruct b as [| c b]; [discriminate Hb |].
  change (String c b +:+ ".html" +:+ suffix)
    with (String c (b +:+ ".html" +:+ suffix)).
  rewrite startswith_one. destruct (ascii_dec "#" c) as [<- |]; [| reflexivity].
  specialize (Hfree "#"%char (or_introl eq_refl)). discriminate Hfree.
Qed.

(** X5.  The link loop computes, for a link to the page [b.html], the key
    the first pass gives the outline target [b.html]: for a relative
    address, followed or not by a fragment or a query, and for an absolute
    address of the expected site whose path is that page.  [b] holds
    neither [#] nor [?], is not empty and is not [/]. *)
Theorem link_key_agrees_with_index
    (urlparse : string -> option (string * string)) (b suffix : string) :
  free_of "#?" b -> truthy b = true -> String.eqb b "/" = false ->
  is_suffix suffix ->
  (is_url (b +:+ ".html" +:+ suffix) = false ->
   link_key urlparse (b +:+ ".html" +:+ suffix)
   = Some (Some (normalize_path (outline_path MD_DIR (b +:+ ".html")))))
  /\ (forall url netloc,
        is_url url = true ->
        urlparse url = Some (netloc, b +:+ ".html" +:+ suffix) ->
        Py.contains "helpx.adobe.com" netloc || Py.contains "adobe.com" netloc
        = true ->
        link_key urlparse url
        = Some (Some (normalize_path (outline_path MD_DIR (b +:+ ".html"))))).
Proof.
  intros Hfree Hb Hroot Hsuffix. split.
  - intros Hurl. apply link_key_page; assumption.
  - intros url netloc Hurl Hparse Hsite.
    assert (Hhash : Py.startswith url "#" = false).
    { unfold is_url in Hurl. apply orb_prop in Hurl as [H | H];
        apply prefix_split in H as [t ->]; reflexivity. }
    rewrite (link_key_on_site urlparse url netloc _ Hhash Hurl Hparse Hsite).
    f_equal. apply key_of_base_html; assumption.
Qed.



(** ** The nesting of the map *)

Lemma map_structure_nested base_path index ol :
  forall indent base stack rest,
    inner_indent base stack = indent ->
    read_map base stack (build_map_structure base_path index ol indent ++ rest)
    = read_map base stack rest.
Proof.
  induction ol as [s | s | cn s | nm a items IH] using node_ind_nested;
    intros indent base stack rest Hindent; [reflexivity | reflexivity | reflexivity |].
  rewrite build_map_structure_items.
  assert (Hitems : forall lis,
    (forall li, li ∈ lis -> li ∈ items) ->
    read_map base stack
      (concat (map (map_item base_path index indent) lis) ++ rest)
    = read_map base stack rest).
  { induction lis as [| li lis IHlis]; intros Hsub; [reflexivity |].
    simpl. rewrite <- app_assoc.
    assert (Hli : li ∈ items) by (apply Hsub, list_elem_of_here).
    assert (Hnested : forall ind bs st r,
      inner_indent bs st = ind ->
      read_map bs st
        (match Soup.find_direct is_list li with
         | Some nested_ol => build_map_structure base_path index nested_ol ind
         | None => []
         end ++ r) = read_map bs st r).
    { intros ind bs st r Hind.
      destruct (Soup.find_direct is_list li) as [c |] eqn:Hc; [| reflexivity].
      apply find_direct_child in Hc as [Hc _]. exact (IH li c Hli Hc ind bs st r Hind). }
    assert (Hrest : read_map base stack
                      (concat (map (map_item base_path index indent) lis) ++ rest)
                    = read_map base stack rest).
    { apply IHlis. intros x Hx. apply Hsub, list_elem_of_further, Hx. }
    unfold map_item.
    destruct (Soup.find_direct is_a_href li) as [link_tag |].
    - destruct (is_url _); [rewrite Hnested by exact Hindent; exact Hrest |].
      destruct (index !! _) as [info |]; [| exact Hrest].
      destruct (Soup.find_direct is_list li) as [c |] eqn:Hc.
      + rewrite ?Hc in Hnested. simpl. rewrite Hindent, String.eqb_refl.
        rewrite <- app_assoc, Hnested by reflexivity.
        simpl. rewrite String.eqb_refl. exact Hrest.
      + simpl. rewrite Hindent, String.eqb_refl. exact Hrest.
    - destruct (Soup.find_text_direct li) as [[| c s] |];
        try (rewrite Hnested by exact Hindent; exact Hrest).
      destruct (truthy _); [| exact Hrest].
      simpl. rewrite Hindent, String.eqb_refl.
      rewrite <- app_assoc, Hnested by reflexivity.
      simpl. rewrite String.eqb_refl. exact Hrest. }
  apply Hitems. intros li Hli.
  apply list_elem_of_In, filter_In in Hli as [Hli _]. apply list_elem_of_In, Hli.
Qed.

(** X7.  The lines the third pass appends are well nested, for every
    outline and every index: read from first to last, every closing line
    closes the element opened last, at the indentation of its opening
    line; an element is opened two spaces deeper than the one around it;
    and nothing is left open at the end. *)
Theorem map_is_well_nested (toc_soup : node) (base_path : string) :
  read_map "  " [] (map_lines toc_soup base_path) = Some []
  /\ (forall index ol indent,
        read_map indent [] (build_map_structure base_path index ol indent)
        = Some []).
Proof.
  assert (Hall : forall index ol indent,
            read_map indent [] (build_map_structure base_path index ol indent)
            = Some []).
  { intros index ol indent.
    rewrite <- (app_nil_r (build_map_structure base_path index ol indent)).
    rewrite map_structure_nested; reflexivity. }
  split; [| exact Hall].
  unfold map_lines. destruct (Soup.find is_list toc_soup); [apply Hall | reflexivity].
Qed.

(** ** The second pass, finished or not *)

(** X8.  The second pass writes the topics of a prefix of
    [files_to_process], in order, each under its own file name and with
    the text of its translation.  It runs to the end exactly when every
    entry translates without an exception, and then writes one file per
    entry; otherwise it stops at the first entry whose translation raises,
    the files before it written. *)
Theorem written_topics_are_a_prefix
    (urlparse : string -> option (string * string)) (markdown_soup : string -> list node)
    (resolve_relative : string -> string -> option string)
    (read_file : string -> source_file)
    (index : gmap string topic_info) (todo : list pending) :
  let translate p :=
    md_to_dita_topic urlparse markdown_soup resolve_relative read_file
      (p_href p) (p_id p) (p_title p) index in
  let result :=
    generate_topics urlparse markdown_soup resolve_relative read_file index todo in
  let done := take (length result.1) todo in
  result.1 = map (fun p => (p_filename p, default "" (translate p))) done
  /\ Forall (fun p => is_Some (translate p)) done
  /\ (result.2 = true <-> Forall (fun p => is_Some (translate p)) todo)
  /\ (result.2 = true -> length result.1 = length todo)
  /\ (result.2 = false ->
        exists p, todo !! length result.1 = Some p /\ translate p = None).
Proof.
  induction todo as [| p rest IH]; simpl.
  - repeat split; try constructor; discriminate.
  - destruct (md_to_dita_topic _ _ _ _ (p_href p) _ _ _) as [content |] eqn:Hp.
    + destruct (generate_topics _ _ _ _ index rest) as [written finished] eqn:Hrest.
      simpl in *. destruct IH as (Hw & Hdone & Hfin & Hlen & Hfail).
      split; [rewrite Hp; simpl; f_equal; exact Hw |].
      split; [constructor; [rewrite Hp; eauto | exact Hdone] |].
      split.
      { rewrite Hfin. split.
        - intros H. constructor; [rewrite Hp; eauto | exact H].
        - intros H. inversion H; assumption. }
      split; [intros H; rewrite (Hlen H); reflexivity |].
      exact Hfail.
    + simpl. split; [reflexivity |]. split; [constructor |].
      split.
      { split; [discriminate |]. intros H. inversion H as [| ? ? [c Hc] _]; subst.
        rewrite Hp in Hc. discriminate Hc. }
      split; [discriminate |]. intros _. exists p. split; [reflexivity | exact Hp].
Qed.

(** ** When a translation raises *)

Lemma named_both names tag element :
  Soup.named names element = true -> Soup.named [tag] element = true ->
  existsb (String.eqb tag) names = true.
Proof.
  destruct element as [| | | nm attrs cs]; simpl; [discriminate | discriminate | discriminate |].
  intros Hnames Htag. rewrite orb_false_r in Htag.
  apply String.eqb_eq in Htag. subst nm. exact Hnames.
Qed.

(** A top-level element is translated unless it is a table with a row
    span that [int] rejects. *)
Lemma convert_block_total element :
  is_Some (convert_block element) <->
  (Soup.named ["table"] element = true ->
   forall cell, cell ∈ table_cells element ->
     truthy (Soup.get_or_empty "rowspan" cell) = true ->
     is_Some (Py.int (Soup.get_or_empty "rowspan" cell))).
Proof.
  unfold convert_block.
  destruct (Soup.named ["h1"] element) eqn:H1;
    [split; [intros _ Ht | eauto];
     pose proof (named_both _ _ _ H1 Ht) as Hx; vm_compute in Hx; discriminate Hx |].
  destruct (Soup.named ["h2"; "h3"; "h4"; "h5"; "h6"] element) eqn:H2;
    [split; [intros _ Ht | eauto];
     pose proof (named_both _ _ _ H2 Ht) as Hx; vm_compute in Hx; discriminate Hx |].
  destruct (Soup.named ["p"] element) eqn:H3;
    [split; [intros _ Ht | eauto];
     pose proof (named_both _ _ _ H3 Ht) as Hx; vm_compute in Hx; discriminate Hx |].
  destruct (Soup.named ["ul"] element) eqn:H4;
    [split; [intros _ Ht | eauto];
     pose proof (named_both _ _ _ H4 Ht) as Hx; vm_compute in Hx; discriminate Hx |].
  destruct (Soup.named ["ol"] element) eqn:H5;
    [split; [intros _ Ht | eauto];
     pose proof (named_both _ _ _ H5 Ht) as Hx; vm_compute in Hx; discriminate Hx |].
  destruct (Soup.named ["pre"] element) eqn:H6;
    [split; [intros _ Ht | eauto];
     pose proof (named_both _ _ _ H6 Ht) as Hx; vm_compute in Hx; discriminate Hx |].
  destruct (Soup.named ["table"] element) eqn:H7.
  - split.
    + intros Hsome _.
      apply convert_table_to_dita_total.
      destruct (convert_table_to_dita element); [eauto |].
      destruct Hsome as [? Hs]; discriminate Hs.
    + intros Hspans.
      destruct (proj2 (convert_table_to_dita_total element) (Hspans eq_refl))
        as [text ->].
      simpl. eauto.
  - split; [intros _ Ht; discriminate Ht |]. intros _.
    destruct (Soup.named ["img"] element); [destruct (truthy _) |]; eauto.
Qed.

Section LoopRaises.

Variable urlparse : string -> option (string * string).
Variable index : gmap string topic_info.

Lemma mark_link_raises nm a cs cs' :
  is_a_href (Tag nm a cs) = true ->
  mark_link urlparse index (Tag nm a cs') = None
  <-> link_raises urlparse (Tag nm a cs) = true.
Proof.
  intros Hlink. unfold mark_link, link_raises. rewrite Hlink.
  change (Soup.get_or_empty "href" (Tag nm a cs'))
    with (Soup.get_or_empty "href" (Tag nm a cs)).
  unfold link_key.
  destruct (Py.startswith _ "#"); [split; discriminate |].
  destruct (is_url _); [| split; discriminate].
  destruct (urlparse _) as [[netloc path] |]; simpl.
  - destruct (_ || _); split; discriminate.
  - split; reflexivity.
Qed.

Lemma mapM_None {A B} (f : A -> option B) l :
  mapM f l = None <-> exists x, x ∈ l /\ f x = None.
Proof.
  induction l as [| x l IH]; simpl.
  - split; [discriminate | intros (x & Hx & _); inversion Hx].
  - destruct (f x) as [y |] eqn:Hx; simpl.
    + destruct (mapM f l) as [k |]; simpl.
      * split; [discriminate |]. intros (z & Hz & Hf).
        apply elem_of_cons in Hz as [-> | Hz]; [congruence |].
        assert (Hnone : @None (list B) = None -> Some k = None)
          by (intros _; apply IH; eauto).
        discriminate (Hnone eq_refl).
      * split; [| reflexivity]. intros _.
        destruct (proj1 IH eq_refl) as (z & Hz & Hf).
        exists z. split; [apply list_elem_of_further, Hz | exact Hf].
    + split; [| reflexivity]. intros _. exists x.
      split; [apply list_elem_of_here | exact Hx].
Qed.

(** The link loop raises on a node exactly when it raises on a link of
    the node. *)
Lemma mark_links_raises n :
  mark_links urlparse index n = None
  <-> exists d, d ∈ n :: Soup.descendants n /\ link_raises urlparse d = true.
Proof.
  induction n as [s | s | cn s | nm a cs IH] using node_ind_forall.
  - split; [discriminate |]. intros (d & Hd & Hr).
    apply list_elem_of_singleton in Hd as ->. discriminate Hr.
  - split; [discriminate |]. intros (d & Hd & Hr).
    apply list_elem_of_singleton in Hd as ->. discriminate Hr.
  - split; [discriminate |]. intros (d & Hd & Hr).
    apply list_elem_of_singleton in Hd as ->. discriminate Hr.
  - assert (Hbelow :
      mapM (mark_links urlparse index) cs = None
      <-> exists d, d ∈ Soup.descendants (Tag nm a cs)
                    /\ link_raises urlparse d = true).
    { rewrite mapM_None, descendants_tag. split.
      - intros (c & Hc & Hnone). rewrite Forall_forall in IH.
        destruct (proj1 (IH c Hc) Hnone) as (d & Hd & Hr).
        exists d. split; [| exact Hr].
        apply list_elem_of_In, in_flat_map. exists c.
        split; apply list_elem_of_In; assumption.
      - intros (d & Hd & Hr).
        apply list_elem_of_In, in_flat_map in Hd as (c & Hc & Hd).
        apply list_elem_of_In in Hc, Hd. exists c. split; [exact Hc |].
        rewrite Forall_forall in IH. apply (IH c Hc). eauto. }
    simpl mark_links.
    destruct (mapM (mark_links urlparse index) cs) as [cs' |] eqn:Hcs; simpl.
    + destruct (is_a_href (Tag nm a cs)) eqn:Hlink.
      * rewrite (mark_link_raises nm a cs cs' Hlink). split.
        -- intros Hr. exists (Tag nm a cs). split; [apply list_elem_of_here | exact Hr].
        -- intros (d & Hd & Hr). apply elem_of_cons in Hd as [-> | Hd]; [exact Hr |].
           discriminate (proj2 Hbelow (ex_intro _ d (conj Hd Hr))).
      * split; [discriminate |]. intros (d & Hd & Hr).
        apply elem_of_cons in Hd as [-> | Hd].
        -- unfold link_raises in Hr. rewrite Hlink in Hr. discriminate Hr.
        -- discriminate (proj2 Hbelow (ex_intro _ d (conj Hd Hr))).
    + split; [| reflexivity]. intros _.
      destruct (proj1 Hbelow eq_refl) as (d & Hd & Hr).
      exists d. split; [apply list_elem_of_further, Hd | exact Hr].
Qed.

End LoopRaises.

(** X9.  The translation returns a topic for a source that is missing and
    raises on one that exists and cannot be read.  For a source that is
    read it returns a topic exactly when the link loop and the tables do
    not raise: the link loop, which runs when the index is not empty, raises
    on a link whose address starts with [http://] or [https://] and is
    rejected by [urlparse]; a table among the top-level elements raises on
    a header or body cell whose non-empty [rowspan] is rejected by [int].
    The Markdown parser and [log] are taken to return; what the path
    resolution of an image raises is caught by the script. *)
Theorem translation_raises_exactly_when
    (urlparse : string -> option (string * string))
    (markdown_soup : string -> list node)
    (resolve_relative : string -> string -> option string)
    (read_file : string -> source_file)
    (md_path tid title : string) (index : gmap string topic_info) :
  is_Some (md_to_dita_topic urlparse markdown_soup resolve_relative read_file
             md_path tid title index)
  <-> match read_file md_path with
      | Absent => True
      | Unreadable => False
      | Contents md_content =>
          (index = ∅
           \/ forall n d, n ∈ markdown_soup md_content ->
                 d ∈ n :: Soup.descendants n ->
                 link_raises urlparse d = false)
          /\ (forall soup element,
                prepared_soup urlparse markdown_soup resolve_relative
                  md_path md_content index = Some soup ->
                element ∈ soup ->
                Soup.named ["table"] element = true ->
                forall cell, cell ∈ table_cells element ->
                  truthy (Soup.get_or_empty "rowspan" cell) = true ->
                  is_Some (Py.int (Soup.get_or_empty "rowspan" cell)))
      end.
Proof.
  unfold md_to_dita_topic.
  destruct (read_file md_path) as [| | md_content].
  - split; eauto.
  - split; [intros [? H]; discriminate H | intros []].
  - assert (Hloop :
      is_Some (prepared_soup urlparse markdown_soup resolve_relative
                 md_path md_content index)
      <-> (index = ∅
           \/ forall n d, n ∈ markdown_soup md_content ->
                 d ∈ n :: Soup.descendants n ->
                 link_raises urlparse d = false)).
    { unfold prepared_soup. destruct (decide (index = ∅)) as [Hempty | Hfull].
      - simpl. split; eauto.
      - destruct (mapM (mark_links urlparse index) (markdown_soup md_content))
          as [marked |] eqn:Hmarked; simpl.
        + split; [| eauto]. intros _. right. intros n d Hn Hd.
          destruct (link_raises urlparse d) eqn:Hr; [| reflexivity].
          exfalso.
          assert (Hnone : mark_links urlparse index n = None).
          { apply mark_links_raises. eauto. }
          assert (Hall : mapM (mark_links urlparse index) (markdown_soup md_content)
                         = None).
          { apply mapM_None. eauto. }
          congruence.
        + split; [intros [? H]; discriminate H |].
          intros [Hempty | Hnone]; [contradiction |]. exfalso.
          apply mapM_None in Hmarked as (n & Hn & Hraise).
          apply mark_links_raises in Hraise as (d & Hd & Hr).
          rewrite (Hnone n d Hn Hd) in Hr. discriminate Hr. }
    destruct (prepared_soup urlparse markdown_soup resolve_relative
                md_path md_content index) as [soup |] eqn:Hsoup; simpl.
    + split.
      * intros Hsome. split; [apply Hloop; eauto |].
        intros soup' element Hsoup' Hin. injection Hsoup' as <-.
        destruct (mapM convert_block soup) as [blocks |] eqn:Hblocks;
          [| destruct Hsome as [? Hs]; discriminate Hs].
        destruct (mapM_Some_elem _ _ _ _ Hblocks Hin) as (b & Hb & _).
        apply convert_block_total. eauto.
      * intros [_ Hall].
        assert (Hblocks : is_Some (mapM convert_block soup)).
        { apply mapM_is_Some, Forall_forall. intros element Hin.
          apply convert_block_total. intros Ht.
          exact (Hall soup element eq_refl Hin Ht). }
        destruct Hblocks as [blocks ->]. simpl. eauto.
    + split; [intros [? H]; discriminate H |].
      intros [Hlinks _]. apply Hloop in Hlinks as [? H]. discriminate H.
Qed.

(** ** The image loop *)

Lemma descendants_set_attr key value n :
  Soup.descendants (Soup.set_attr key value n) = Soup.descendants n.
Proof. destruct n; reflexivity. Qed.

Lemma is_url_truthy href : is_url href = true -> truthy href = true.
Proof. destruct href; [discriminate | reflexivity]. Qed.

Section ImageFacts.

Variable resolve_relative : string -> string -> option string.

Lemma process_images_below md_path n r :
  process_images resolve_relative md_path n = Some r ->
  Forall (fun d => remote_image d = false) (r :: Soup.descendants r).
Proof.
  revert r. induction n as [s | s | cn s | nm a cs IH] using node_ind_forall; intros r.
  - simpl. intros H. injection H as <-. repeat constructor.
  - simpl. intros H. injection H as <-. repeat constructor.
  - simpl. intros H. injection H as <-. repeat constructor.
  - simpl process_images.
    set (kept := omap (process_images resolve_relative md_path) cs).
    assert (Hbelow : Forall (fun d => remote_image d = false)
                       (flat_map (fun c => c :: Soup.descendants c) kept)).
    { subst kept. induction cs as [| c cs IHcs]; [constructor |].
      inversion IH as [| ? ? Hc Hcs]; subst. simpl.
      destruct (process_images resolve_relative md_path c) as [c' |] eqn:Hc';
        [| exact (IHcs Hcs)].
      simpl. rewrite app_comm_cons. apply Forall_app. split.
      - exact (Hc c' eq_refl).
      - exact (IHcs Hcs). }
    destruct (((nm =? "img") || false)
              && truthy (Soup.get_or_empty "src" (Tag nm a cs))) eqn:Himg.
    + destruct (Py.startswith _ "data:"); [intros H; discriminate H |].
      destruct (is_url (resolve_image_path resolve_relative _ md_path)) eqn:Hurl;
        [intros H; discriminate H |].
      intros H. injection H as <-. constructor.
      * unfold remote_image, Soup.get_or_empty. simpl Soup.get.
        rewrite lookup_insert_eq.
        change (default "" (Some ?x)) with x.
        change (Soup.get_or_empty "src" (Tag nm a cs))
          with (default "" (a !! "src")) in Hurl.
        rewrite Hurl. apply andb_false_r.
      * rewrite descendants_tag. exact Hbelow.
    + intros H. injection H as <-. constructor.
      * unfold remote_image.
        change (Soup.named ["img"] (Tag nm a kept)) with ((nm =? "img") || false).
        change (Soup.get_or_empty "src" (Tag nm a kept))
          with (Soup.get_or_empty "src" (Tag nm a cs)).
        destruct ((nm =? "img") || false); [| reflexivity].
        simpl in Himg. simpl.
        destruct (is_url (Soup.get_or_empty "src" (Tag nm a cs))) eqn:Hurl;
          [| reflexivity].
        apply is_url_truthy in Hurl. congruence.
      * rewrite descendants_tag. exact Hbelow.
Qed.

(** X10.  After the image loop no image, at any depth of the document,
    has a source that starts with [http://] or [https://], whether the
    address was in the source or came out of the path resolution. *)
Theorem no_remote_image_reaches_the_topic
    (urlparse : string -> option (string * string))
    (markdown_soup : string -> list node)
    (md_path md_content : string) (index : gmap string topic_info)
    (soup : list node) (element d : node) :
  prepared_soup urlparse markdown_soup resolve_relative
    md_path md_content index = Some soup ->
  element ∈ soup ->
  d ∈ element :: Soup.descendants element ->
  remote_image d = false.
Proof.
  unfold prepared_soup. intros Hsoup Hin Hd.
  destruct (if decide (index = ∅) then _ else _) as [marked |];
    [| discriminate Hsoup].
  injection Hsoup as <-.
  apply list_elem_of_omap in Hin as (n & _ & Hn).
  pose proof (process_images_below md_path n element Hn) as Hall.
  rewrite Forall_forall in Hall. exact (Hall d Hd).
Qed.

End ImageFacts.

(** ** The link loop *)

Lemma unmark_set_href value n :
  unmark (Soup.set_attr "data-dita-href" value n) = unmark n.
Proof.
  destruct n; [reflexivity | reflexivity | reflexivity |]. simpl.
  rewrite delete_insert_eq. reflexivity.
Qed.

Lemma unmark_set_scope value n :
  unmark (Soup.set_attr "data-dita-scope" value n) = unmark n.
Proof.
  destruct n; [reflexivity | reflexivity | reflexivity |]. simpl.
  rewrite delete_insert_ne; [| intros H; discriminate H].
  rewrite delete_insert_eq. reflexivity.
Qed.

Section LinkLoop.

Variable urlparse : string -> option (string * string).

Lemma unmark_mark_link index a_tag marked :
  mark_link urlparse index a_tag = Some marked -> unmark marked = unmark a_tag.
Proof.
  unfold mark_link. destruct (link_key _ _) as [found |]; [| discriminate].
  simpl. intros H. injection H as <-.
  destruct found; [| reflexivity].
  destruct (index !! _); [| reflexivity].
  rewrite unmark_set_scope, unmark_set_href. reflexivity.
Qed.

Lemma mark_link_empty a_tag marked :
  mark_link urlparse ∅ a_tag = Some marked -> marked = a_tag.
Proof.
  unfold mark_link. destruct (link_key _ _) as [found |]; [| discriminate].
  simpl. intros H. injection H as <-.
  destruct found; [| reflexivity].
  rewrite lookup_empty. reflexivity.
Qed.

Lemma mapM_pointwise {A B} (R : A -> B -> Prop) (f : A -> option B) l :
  Forall (fun x => forall y, f x = Some y -> R x y) l ->
  forall k, mapM f l = Some k -> Forall2 R l k.
Proof.
  induction 1 as [| x l Hx _ IH]; simpl; intros k Hk.
  - injection Hk as <-. constructor.
  - destruct (f x) as [y |]; [| discriminate Hk]. simpl in Hk.
    destruct (mapM f l) as [k' |]; [| discriminate Hk].
    injection Hk as <-. constructor; [apply Hx; reflexivity | apply IH; reflexivity].
Qed.

(** X11.  The link loop raises on a node exactly when the node has a link
    whose address starts with [http://] or [https://] and is rejected by
    [urlparse].  When it does not raise it changes nothing but the two
    attributes [data-dita-href] and [data-dita-scope]: the tree without
    them is the same before and after, so names, other attributes (the
    [href] among them), children and order are kept, and so is the text,
    stripped or not.  With an empty index the loop changes nothing at
    all. *)
Theorem link_loop_only_marks (index : gmap string topic_info) (n : node) :
  (mark_links urlparse index n = None
   <-> exists d, d ∈ n :: Soup.descendants n /\ link_raises urlparse d = true)
  /\ (forall marked, mark_links urlparse index n = Some marked ->
       unmark marked = unmark n
       /\ Soup.get_text marked = Soup.get_text n
       /\ Soup.get_text_strip marked = Soup.get_text_strip n)
  /\ (forall marked, mark_links urlparse ∅ n = Some marked -> marked = n).
Proof.
  split; [apply mark_links_raises | split].
  - intros marked Hmarked. split; [| split].
    + revert marked Hmarked.
      induction n as [s | s | cn s | nm a cs IH] using node_ind_forall;
        intros marked Hmarked;
        [injection Hmarked as <-; reflexivity | injection Hmarked as <-; reflexivity | injection Hmarked as <-; reflexivity |].
      simpl mark_links in Hmarked.
      destruct (mapM (mark_links urlparse index) cs) as [cs' |] eqn:Hcs;
        [| discriminate Hmarked].
      simpl in Hmarked.
      assert (Hinner : unmark (Tag nm a cs') = unmark (Tag nm a cs)).
      { simpl. f_equal.
        pose proof (mapM_pointwise (fun c c' => unmark c' = unmark c)
                      _ cs IH cs' Hcs) as Hall.
        clear -Hall. induction Hall as [| c c' cs cs' Hc _ IH];
          [reflexivity | simpl; rewrite Hc, IH; reflexivity]. }
      destruct (is_a_href (Tag nm a cs)).
      * rewrite (unmark_mark_link _ _ _ Hmarked). exact Hinner.
      * injection Hmarked as <-. exact Hinner.
    + unfold Soup.get_text.
      rewrite (strings_mark_links urlparse index n marked Hmarked). reflexivity.
    + unfold Soup.get_text_strip.
      rewrite (strings_mark_links urlparse index n marked Hmarked). reflexivity.
  - induction n as [s | s | cn s | nm a cs IH] using node_ind_forall;
      intros marked Hmarked;
      [injection Hmarked as <-; reflexivity | injection Hmarked as <-; reflexivity | injection Hmarked as <-; reflexivity |].
    simpl mark_links in Hmarked.
    destruct (mapM (mark_links urlparse ∅) cs) as [cs' |] eqn:Hcs;
      [| discriminate Hmarked].
    simpl in Hmarked.
    assert (Hinner : cs' = cs).
    { pose proof (mapM_pointwise (fun c c' => c' = c) _ cs IH cs' Hcs) as Hall.
      clear -Hall. induction Hall as [| c c' cs cs' Hc _ IH];
        [reflexivity | rewrite Hc, IH; reflexivity]. }
    subst cs'.
    destruct (is_a_href (Tag nm a cs)).
    * exact (mark_link_empty _ _ Hmarked).
    * injection Hmarked as <-. reflexivity.
Qed.

End LinkLoop.

(** ** Lists in a topic body *)

Lemma is_list_order child : Soup.named ["ul"; "ol"] child = is_list child.
Proof.
  destruct child as [| | | nm a cs]; [reflexivity | reflexivity | reflexivity |].
  unfold is_list. simpl. rewrite !orb_false_r. apply orb_comm.
Qed.

Lemma item_content_without_nested_lists li :
  convert_list_item_content (without_nested_lists li) = convert_list_item_content li.
Proof.
  destruct li as [s | s | cn s | nm a cs]; [reflexivity | reflexivity | reflexivity |].
  unfold convert_list_item_content. simpl.
  induction cs as [| c cs IH]; [reflexivity |].
  simpl. destruct (is_list c) eqn:Hc; simpl.
  - rewrite IH. destruct c as [s | s | cn s | nm' a' cs']; [discriminate Hc | discriminate Hc | discriminate Hc |].
    unfold convert_list_item_child.
    rewrite is_list_order, Hc.
    destruct (Soup.named ["p"] _) eqn:Hp;
      [pose proof (named_both _ _ _ Hc Hp) as Hx; vm_compute in Hx; discriminate Hx |].
    destruct (Soup.named ["pre"] _) eqn:Hpre;
      [pose proof (named_both _ _ _ Hc Hpre) as Hx; vm_compute in Hx; discriminate Hx |].
    reflexivity.
  - rewrite IH. reflexivity.
Qed.

(** X12.  A list nested in an item of a top-level list of a document does
    not reach the topic: the block written for the list is the block
    written for the same list with the nested lists removed from its
    items. *)
Theorem nested_lists_are_left_out (element : node) :
  is_list element = true ->
  convert_block (flat_list element) = convert_block element.
Proof.
  destruct element as [s | s | cn s | nm a cs]; [discriminate | discriminate | discriminate |]. intros Hlist.
  assert (Hitems :
    map (fun li => "      <li>"
                   :: map (fun part => "        " +:+ part)
                          (convert_list_item_content li) ++ ["      </li>"])
        (Soup.find_all_direct is_li (flat_list (Tag nm a cs)))
    = map (fun li => "      <li>"
                   :: map (fun part => "        " +:+ part)
                          (convert_list_item_content li) ++ ["      </li>"])
        (Soup.find_all_direct is_li (Tag nm a cs))).
  { clear Hlist. unfold Soup.find_all_direct. simpl.
    induction cs as [| c cs IH]; [reflexivity |].
    simpl.
    assert (Hli : is_li (without_nested_lists c) = is_li c) by (destruct c; reflexivity).
    rewrite Hli. destruct (is_li c); [| exact IH].
    simpl. rewrite item_content_without_nested_lists, IH. reflexivity. }
  unfold convert_block.
  change (Soup.named ?l (flat_list (Tag nm a cs))) with (Soup.named l (Tag nm a cs)).
  rewrite Hitems.
  destruct (Soup.named ["h1"] _) eqn:H1;
    [pose proof (named_both _ _ _ Hlist H1) as Hx; vm_compute in Hx; discriminate Hx |].
  destruct (Soup.named ["h2"; "h3"; "h4"; "h5"; "h6"] _) eqn:H2.
  { exfalso. unfold is_list in Hlist. simpl in Hlist, H2.
    rewrite !orb_false_r in *.
    apply orb_true_iff in Hlist as [H | H]; apply String.eqb_eq in H; subst nm;
      vm_compute in H2; discriminate H2. }
  destruct (Soup.named ["p"] _) eqn:H3;
    [pose proof (named_both _ _ _ Hlist H3) as Hx; vm_compute in Hx; discriminate Hx |].
  destruct (Soup.named ["ul"] _) eqn:Hul; [reflexivity |].
  destruct (Soup.named ["ol"] _) eqn:Hol; [reflexivity |].
  exfalso. unfold is_list in Hlist. simpl in Hlist, Hul, Hol.
  rewrite !orb_false_r in Hlist, Hul, Hol.
  rewrite Hul, Hol in Hlist. discriminate Hlist.
Qed.

(** ** [escape_xml], character by character *)

Lemma flat_map_flat_map {A B C} (f : A -> list B) (g : B -> list C) l :
  flat_map g (flat_map f l) = flat_map (fun x => flat_map g (f x)) l.
Proof.
  induction l as [| x l IH]; [reflexivity |].
  simpl. rewrite flat_map_app, IH. reflexivity.
Qed.

Lemma chars_escape_xml text :
  list_ascii_of_string (escape_xml text)
  = flat_map escape_char (list_ascii_of_string text).
Proof.
  unfold escape_xml, dq.
  rewrite !chars_replace_char, !flat_map_flat_map.
  apply flat_map_ext. intros x. unfold escape_char.
  destruct (ascii_dec "&" x) as [<- | H1]; [reflexivity |].
  cbn [flat_map]. rewrite app_nil_r.
  destruct (ascii_dec "<" x) as [<- | H2]; [reflexivity |].
  cbn [flat_map]. rewrite app_nil_r.
  destruct (ascii_dec ">" x) as [<- | H3]; [reflexivity |].
  cbn [flat_map]. rewrite app_nil_r.
  destruct (ascii_dec "034" x) as [<- | H4]; [reflexivity |].
  cbn [flat_map]. rewrite app_nil_r.
  destruct (ascii_dec "'" x) as [<- | H5]; reflexivity.
Qed.

Lemma escape_char_cases x :
  (escape_char x = [x] /\ x <> "&"%char)
  \/ (x = "&"%char) \/ (x = "<"%char) \/ (x = ">"%char)
  \/ (x = "034"%char) \/ (x = "'"%char).
Proof.
  unfold escape_char.
  destruct (ascii_dec "&" x) as [<- | H1]; [tauto |].
  destruct (ascii_dec "<" x) as [<- | H2]; [tauto |].
  destruct (ascii_dec ">" x) as [<- | H3]; [tauto |].
  destruct (ascii_dec "034" x) as [<- | H4]; [tauto |].
  destruct (ascii_dec "'" x) as [<- | H5]; [tauto |].
  left. split; [reflexivity | congruence].
Qed.

Lemma escape_chars_inj a : forall b,
  flat_map escape_char a = flat_map escape_char b -> a = b.
Proof.
  induction a as [| x a IH]; intros [| y b] H.
  - reflexivity.
  - exfalso. simpl in H.
    destruct (escape_char_cases y) as [[Hy _] | [-> | [-> | [-> | [-> | ->]]]]];
      [rewrite Hy in H |..]; discriminate H.
  - exfalso. simpl in H.
    destruct (escape_char_cases x) as [[Hx _] | [-> | [-> | [-> | [-> | ->]]]]];
      [rewrite Hx in H |..]; discriminate H.
  - simpl in H.
    destruct (escape_char_cases x) as [[Hx Hxa] | [-> | [-> | [-> | [-> | ->]]]]];
      destruct (escape_char_cases y) as [[Hy Hya] | [-> | [-> | [-> | [-> | ->]]]]];
      try rewrite Hx in H; try rewrite Hy in H;
      try (cbn in H; injection H as H; try congruence;
           repeat match goal with
                  | E : _ :: _ = _ :: _ |- _ => injection E as E; try congruence
                  end;
           f_equal; try congruence; apply IH; assumption).
Qed.

(** X13.  [escape_xml] works character by character and loses nothing:
    the escaped form of a concatenation is the concatenation of the
    escaped forms, and two texts with the same escaped form are the same
    text. *)
Theorem escape_xml_faithful (s t : string) :
  escape_xml (s +:+ t) = escape_xml s +:+ escape_xml t
  /\ (escape_xml s = escape_xml t -> s = t).
Proof.
  split.
  - apply chars_inj.
    rewrite chars_append, !chars_escape_xml, chars_append. apply flat_map_app.
  - intros H. apply chars_inj, escape_chars_inj.
    rewrite <- !chars_escape_xml, H. reflexivity.
Qed.

(** ** The stack of open headings *)

Lemma pop_closed_open level stack :
  open_levels stack ->
  open_levels (pop_closed level stack)
  /\ Forall (fun l => l < level) (pop_closed level stack).
Proof.
  induction stack as [| top below IH]; intros Hopen; [split; constructor |].
  simpl. destruct Hopen as (Htop & Hbelow & Hrest).
  destruct (level <=? top)%nat eqn:Hle.
  - apply IH, Hrest.
  - apply Nat.leb_gt in Hle. split; [simpl; tauto |].
    constructor; [exact Hle |].
    eapply Forall_impl; [exact Hbelow |]. simpl. intros l Hl. lia.
Qed.

Lemma open_levels_depth stack :
  open_levels stack ->
  match stack with [] => True | top :: _ => length stack + 1 <= top end.
Proof.
  induction stack as [| top below IH]; [trivial |].
  intros (Htop & Hbelow & Hrest). specialize (IH Hrest).
  destruct below as [| next rest]; [simpl; lia |].
  inversion Hbelow; subst. simpl in *. lia.
Qed.

Lemma count_hashes_level s :
  Py.startswith s "#" = true -> 1 <= (count_hashes s).1.
Proof.
  destruct s as [| c s]; [discriminate |].
  unfold Py.startswith. rewrite prefix_one_char.
  destruct (ascii_dec "#" c) as [<- | Hne]; [| discriminate].
  intros _. simpl. destruct (count_hashes s). simpl. lia.
Qed.

Lemma toc_line_stack st line :
  open_levels (heading_stack st) -> open_levels (heading_stack (toc_line st line)).
Proof.
  intros Hopen. unfold toc_line.
  destruct (Py.startswith (Py.strip line) "#") eqn:Hhash.
  - pose proof (count_hashes_level _ Hhash) as Hlevel.
    destruct (count_hashes (Py.strip line)) as [level rest]. simpl in Hlevel.
    destruct (level =? 1)%nat eqn:Hone; [exact Hopen |].
    apply Nat.eqb_neq in Hone. simpl.
    destruct (pop_closed_open level _ Hopen) as [Hpop Hless].
    repeat split; [lia | exact Hless | exact Hpop].
  - destruct (truthy (Py.strip line)); [| exact Hopen].
    destruct (Py.strip line) as [| c s]; [exact Hopen |].
    destruct (Py.isdigit c && _); [exact Hopen |].
    destruct (Py.startswith _ "- "); exact Hopen.
Qed.

(** X14.  At every point of [convert_headings_to_lists] the stack of open
    headings holds levels of at least 2, each deeper than the ones below
    it.  So the depth at which the next list line is written (the height
    of the stack) is at most one more than the depth of the heading on top
    of the stack (its level minus 2). *)
Theorem open_headings_nest (lines : list string) :
  let st := foldl toc_line (TocState [] ∅ []) lines in
  open_levels (heading_stack st)
  /\ match heading_stack st with
     | [] => True
     | level :: _ => length (heading_stack st) <= (level - 2) + 1
     end.
Proof.
  assert (Hopen : forall st, open_levels (heading_stack st) ->
                    open_levels (heading_stack (foldl toc_line st lines))).
  { induction lines as [| line lines IH]; intros st Hst; [exact Hst |].
    simpl. apply IH, toc_line_stack, Hst. }
  intros st. assert (Hst : open_levels (heading_stack st)) by (apply Hopen; exact I).
  split; [exact Hst |].
  pose proof (open_levels_depth _ Hst) as Hdepth.
  destruct (heading_stack st) as [| level below]; [trivial |].
  destruct Hst as (Hlevel & _). lia.
Qed.

(** ** The blank lines of the outline *)

Lemma list_line_not_blank line : is_list_line line = true -> is_blank line = false.
Proof.
  unfold is_list_line, is_blank, truthy. intros H.
  apply andb_true_iff in H as [H _]. apply negb_true_iff in H. exact H.
Qed.

Lemma drop_list_blanks_cons prev line rest :
  drop_list_blanks prev (line :: rest)
  = if is_blank line && neighbour_is_list prev && neighbour_is_list (head rest)
    then drop_list_blanks (Some line) rest
    else line :: drop_list_blanks (Some line) rest.
Proof. reflexivity. Qed.

(** The first line that is kept is the first line, unless that one is
    dropped; a dropped line is followed by a list line. *)
Lemma drop_list_blanks_head prev lines :
  neighbour_is_list (head (drop_list_blanks prev lines)) = true ->
  neighbour_is_list (head lines) = true
  \/ (exists line, head lines = Some line /\ is_blank line = true
                   /\ neighbour_is_list prev = true).
Proof.
  destruct lines as [| line rest]; [discriminate |].
  rewrite drop_list_blanks_cons.
  destruct (is_blank line && neighbour_is_list prev && neighbour_is_list (head rest))
    eqn:Hdrop.
  - intros _. right. exists line.
    apply andb_true_iff in Hdrop as [Hdrop _].
    apply andb_true_iff in Hdrop as [Hb Hp]. auto.
  - intros H. left. exact H.
Qed.

Lemma drop_list_blanks_idempotent lines : forall prev,
  drop_list_blanks prev (drop_list_blanks prev lines) = drop_list_blanks prev lines.
Proof.
  induction lines as [| line rest IH]; intros prev; [reflexivity |].
  rewrite drop_list_blanks_cons.
  destruct (is_blank line && neighbour_is_list prev && neighbour_is_list (head rest))
    eqn:Hdrop.
  - apply andb_true_iff in Hdrop as [Hdrop Hnext].
    destruct rest as [| next rest']; [discriminate Hnext |].
    simpl in Hnext. pose proof (list_line_not_blank _ Hnext) as Hnb.
    assert (Hstep : forall p tail,
              drop_list_blanks p (next :: tail)
              = next :: drop_list_blanks (Some next) tail).
    { intros p tail. rewrite drop_list_blanks_cons, Hnb. reflexivity. }
    pose proof (IH (Some line)) as IH1.
    rewrite (Hstep (Some line) rest') in IH1. rewrite Hstep in IH1.
    rewrite (Hstep (Some line) rest'), Hstep. exact IH1.
  - rewrite drop_list_blanks_cons.
    assert (Hkeep : is_blank line && neighbour_is_list prev
                    && neighbour_is_list (head (drop_list_blanks (Some line) rest))
                    = false).
    { destruct (is_blank line) eqn:Hb; [| reflexivity].
      destruct (neighbour_is_list prev); [| reflexivity].
      simpl in *.
      destruct (neighbour_is_list (head (drop_list_blanks (Some line) rest))) eqn:Hh;
        [| reflexivity].
      apply drop_list_blanks_head in Hh as [Hh | (l & _ & _ & Hh)]; [congruence |].
      simpl in Hh. apply list_line_not_blank in Hh. congruence. }
    rewrite Hkeep, IH. reflexivity.
Qed.

Lemma drop_list_blanks_visible lines : forall prev,
  List.filter (fun line => negb (is_blank line)) (drop_list_blanks prev lines)
  = List.filter (fun line => negb (is_blank line)) lines.
Proof.
  induction lines as [| line rest IH]; intros prev; [reflexivity |].
  rewrite drop_list_blanks_cons.
  destruct (is_blank line) eqn:Hb; simpl.
  - rewrite Hb. simpl.
    destruct (neighbour_is_list prev && neighbour_is_list (head rest)); simpl;
      [| rewrite Hb; simpl]; apply IH.
  - rewrite Hb. simpl. f_equal. apply IH.
Qed.

Lemma drop_list_blanks_sublist lines : forall prev,
  sublist (drop_list_blanks prev lines) lines.
Proof.
  induction lines as [| line rest IH]; intros prev; [constructor |].
  rewrite drop_list_blanks_cons.
  destruct (_ && _); [apply sublist_cons | apply sublist_skip]; apply IH.
Qed.

(** A blank line between two list lines makes the result shorter. *)
Lemma drop_list_blanks_shorter pre : forall prev before line after rest,
  is_list_line before = true -> is_blank line = true -> is_list_line after = true ->
  length (drop_list_blanks prev (pre ++ before :: line :: after :: rest))
  < length (pre ++ before :: line :: after :: rest).
Proof.
  induction pre as [| x pre IH]; intros prev before line after rest Hb Hl Ha.
  - pose proof (list_line_not_blank _ Hb) as Hnb.
    assert (Hkept : drop_list_blanks prev (before :: line :: after :: rest)
                    = before :: drop_list_blanks (Some line) (after :: rest)).
    { rewrite drop_list_blanks_cons, Hnb. cbn [andb].
      rewrite drop_list_blanks_cons, Hl. cbn [neighbour_is_list head].
      rewrite Hb, Ha. reflexivity. }
    change ([] ++ before :: line :: after :: rest)
      with (before :: line :: after :: rest).
    rewrite Hkept.
    pose proof (sublist_length _ _
                  (drop_list_blanks_sublist (after :: rest) (Some line))) as Hlen.
    remember (drop_list_blanks (Some line) (after :: rest)) as kept.
    simpl in *. lia.
  - change ((x :: pre) ++ before :: line :: after :: rest)
      with (x :: (pre ++ before :: line :: after :: rest)).
    rewrite drop_list_blanks_cons.
    specialize (IH (Some x) before line after rest Hb Hl Ha).
    remember (drop_list_blanks (Some x) (pre ++ before :: line :: after :: rest))
      as kept.
    remember (pre ++ before :: line :: after :: rest) as tail.
    destruct (_ && _); simpl; lia.
Qed.

(** X15.  The removal of blank lines in [parse_markdown_toc] only removes
    lines: what is kept is a subsequence of the lines, with every line that
    is not blank in it, in order.  In the result no blank line stands
    between two indented lines that are not blank, and a second removal
    changes nothing. *)
Theorem blank_line_removal (lines : list string) :
  let cleaned_lines := drop_list_blanks None lines in
  sublist cleaned_lines lines
  /\ List.filter (fun line => negb (String.eqb (Py.strip line) "")) cleaned_lines
     = List.filter (fun line => negb (String.eqb (Py.strip line) "")) lines
  /\ drop_list_blanks None cleaned_lines = cleaned_lines
  /\ (forall pre before line after rest,
        cleaned_lines = pre ++ before :: line :: after :: rest ->
        is_list_line before = true -> is_list_line after = true ->
        String.eqb (Py.strip line) "" = false).
Proof.
  intros cleaned_lines.
  assert (Hfixed : drop_list_blanks None cleaned_lines = cleaned_lines)
    by apply drop_list_blanks_idempotent.
  split; [apply drop_list_blanks_sublist |].
  split; [apply (drop_list_blanks_visible lines None) |].
  split; [exact Hfixed |].
  intros pre before line after rest Hshape Hbefore Hafter.
  fold (is_blank line). destruct (is_blank line) eqn:Hl; [| reflexivity].
  exfalso.
  pose proof (drop_list_blanks_shorter pre None before line after rest
                Hbefore Hl Hafter) as Hshort.
  rewrite <- Hshape, Hfixed in Hshort. lia.
Qed.

(** ** The title of the map *)

(** A stripped text does not end in white space. *)
Lemma strip_last line : forall c r,
  Py.srev (Py.strip line) = String c r -> Py.isspace c = false.
Proof.
  intros c r. unfold Py.strip, Py.rstrip. rewrite srev_involutive.
  apply drop_while_head.
Qed.

Lemma heading_text_visible line :
  Py.startswith (Py.strip line) "# " = true ->
  truthy (Py.strip (Py.drop 2 (Py.strip line))) = true.
Proof.
  intros Hstart. apply strip_truthy.
  apply prefix_split in Hstart as [r Hr].
  pose proof (strip_last line) as Hlast.
  rewrite Hr in *. change (Py.drop 2 ("# " +:+ r)) with r.
  rewrite srev_append in Hlast.
  destruct (Py.srev r) as [| c r'] eqn:Hrev.
  - exfalso. specialize (Hlast " "%char "#" eq_refl). discriminate Hlast.
  - exists c. split.
    + apply in_rev. rewrite <- chars_srev, Hrev. left. reflexivity.
    + exact (Hlast c (r' +:+ Py.srev "# ") eq_refl).
Qed.

Lemma extract_title_visible toc_md_text t :
  extract_title toc_md_text = Some t -> truthy t = true.
Proof.
  unfold extract_title. intros H.
  apply fmap_Some in H as (line & Hfind & ->).
  apply find_some in Hfind as [_ Hstart].
  apply heading_text_visible, Hstart.
Qed.

Lemma truthy_nonempty s : truthy s = true <-> s <> "".
Proof.
  unfold truthy. rewrite negb_true_iff. apply String.eqb_neq.
Qed.

(** X16.  The title of the map is never empty.  It is the title of the
    command line when that one is given and not empty; otherwise the text
    of the first line of the outline that starts with one [#] and a space,
    which is never empty when there is such a line; otherwise what
    [build_dita_map] finds without a title (the text of the first link of
    the outline, or [Documentation]). *)
Theorem title_resolution (toc_soup : node) (arg_title : option string)
    (toc_md_text : string) :
  let extracted_title := extract_title toc_md_text in
  let doc_title :=
    document_title toc_soup (final_title arg_title extracted_title) in
  doc_title <> ""
  /\ (forall t, arg_title = Some t -> t <> "" -> doc_title = t)
  /\ (forall t, default "" arg_title = "" -> extracted_title = Some t ->
                doc_title = t /\ t <> "")
  /\ (default "" arg_title = "" -> extracted_title = None ->
      doc_title = document_title toc_soup None).
Proof.
  intros extracted_title doc_title. subst doc_title.
  split; [| split; [| split]].
  - unfold document_title.
    destruct (truthy (default "" (final_title arg_title extracted_title))) eqn:Hg;
      [apply truthy_nonempty, Hg |].
    match goal with
    | |- (if truthy ?d then _ else _) <> _ =>
        destruct (truthy d) eqn:Hd; [apply truthy_nonempty, Hd | discriminate]
    end.
  - intros t -> Ht. apply truthy_nonempty in Ht.
    unfold final_title, document_title. simpl. rewrite Ht. simpl. rewrite Ht.
    reflexivity.
  - intros t Harg Hext. subst extracted_title.
    pose proof (extract_title_visible _ _ Hext) as Ht.
    split; [| apply truthy_nonempty, Ht].
    unfold final_title, document_title. rewrite Harg, Hext. simpl. rewrite Ht.
    reflexivity.
  - intros Harg Hext. unfold final_title, document_title.
    rewrite Harg, Hext. reflexivity.
Qed.

(** ** The numbering in front of a heading *)

Lemma space_is_no_numbering c : Py.isspace c = true -> numbering_char c = false.
Proof.
  destruct c as [[] [] [] [] [] [] [] []]; vm_compute; intros H;
    first [reflexivity | discriminate H].
Qed.

Lemma drop_while_append p s t :
  all_chars p s -> Py.drop_while p (s +:+ t) = Py.drop_while p t.
Proof.
  induction s as [| c s IH]; intros Hall; [reflexivity |].
  change (String c s +:+ t) with (String c (s +:+ t)). simpl.
  rewrite (Hall c) by (left; reflexivity).
  apply IH. intros d Hd. apply Hall. right. exact Hd.
Qed.

Lemma drop_while_stop p c r : p c = false -> Py.drop_while p (String c r) = String c r.
Proof. intros H. simpl. rewrite H. reflexivity. Qed.

Lemma longer_differs s t : s <> "" -> String.eqb t (s +:+ t) = false.
Proof.
  intros Hs. apply String.eqb_neq. intros H.
  apply (f_equal String.length) in H. rewrite append_length in H.
  destruct s; [congruence | simpl in H; lia].
Qed.

(** X17.  What [convert_headings_to_lists] removes in front of a
    heading: a run of digits and dots followed by white space is removed
    with that white space; a heading that does not start with a digit or a
    dot is kept as it is, and so is one whose digits and dots are not
    followed by white space. *)
Theorem clean_heading_strips_numbering :
  (forall number gap c text,
     number <> "" -> all_chars numbering_char number ->
     gap <> "" -> all_chars Py.isspace gap ->
     Py.isspace c = false ->
     clean_heading (number +:+ gap +:+ String c text) = String c text)
  /\ (forall c text,
        numbering_char c = false -> clean_heading (String c text) = String c text)
  /\ (forall number c text,
        all_chars numbering_char number ->
        numbering_char c = false -> Py.isspace c = false ->
        clean_heading (number +:+ String c text) = number +:+ String c text).
Proof.
  split; [| split].
  - intros number gap c text Hnumber Hdigits Hgap Hspaces Hc.
    unfold clean_heading. fold numbering_char.
    destruct gap as [| g gap]; [congruence |].
    assert (Hg : numbering_char g = false).
    { apply space_is_no_numbering, Hspaces. left. reflexivity. }
    rewrite (drop_while_append numbering_char number _ Hdigits).
    change (String g gap +:+ String c text) with (String g (gap +:+ String c text)).
    rewrite (drop_while_stop numbering_char g _ Hg).
    change (String g (gap +:+ String c text)) with (String g gap +:+ String c text).
    rewrite (drop_while_append Py.isspace (String g gap) _ Hspaces).
    rewrite (drop_while_stop Py.isspace c _ Hc).
    rewrite (longer_differs number _ Hnumber).
    rewrite (longer_differs (String g gap) (String c text)) by discriminate.
    reflexivity.
  - intros c text Hc. unfold clean_heading. fold numbering_char.
    rewrite (drop_while_stop numbering_char c _ Hc), String.eqb_refl. reflexivity.
  - intros number c text Hdigits Hc Hspace. unfold clean_heading. fold numbering_char.
    rewrite (drop_while_append numbering_char number _ Hdigits).
    rewrite (drop_while_stop numbering_char c _ Hc).
    rewrite (drop_while_stop Py.isspace c _ Hspace).
    destruct (String.eqb (String c text) (number +:+ String c text)); [reflexivity |].
    rewrite String.eqb_refl. reflexivity.
Qed.

(** ** Inline content without markup *)

Lemma concat_all_cons s l : Py.concat_all (s :: l) = s +:+ Py.concat_all l.
Proof.
  unfold Py.concat_all. destruct l as [| t l]; [| reflexivity].
  simpl. rewrite append_nil_r. reflexivity.
Qed.

Lemma concat_all_app l1 l2 :
  Py.concat_all (l1 ++ l2) = Py.concat_all l1 +:+ Py.concat_all l2.
Proof.
  induction l1 as [| s l1 IH]; [reflexivity |].
  change ((s :: l1) ++ l2) with (s :: (l1 ++ l2)).
  rewrite !concat_all_cons, IH, append_assoc. reflexivity.
Qed.

Lemma omap_pointwise {A B} (f g : A -> option B) (l : list A) :
  (forall x, f x = g x) -> omap f l = omap g l.
Proof.
  intros H. induction l as [| x l IH]; [reflexivity |].
  cbn [omap list_omap]. rewrite H. destruct (g x); [f_equal |]; exact IH.
Qed.

Lemma interesting_text name name' d :
  existsb (String.eqb name) string_containers = false ->
  existsb (String.eqb name') string_containers = false ->
  Soup.interesting name d = Soup.interesting name' d.
Proof.
  intros H H'. unfold Soup.interesting. rewrite H, H'. reflexivity.
Qed.

(** The text of an element is the text of its children put together when
    neither the element nor a child has a class of strings of its own. *)
Lemma get_text_tag nm a cs :
  Forall (fun d => Soup.named string_containers d = false) (Tag nm a cs :: cs) ->
  Soup.get_text (Tag nm a cs) = Py.concat_all (map Soup.get_text cs).
Proof.
  intros Hplain. inversion Hplain as [| ? ? Hnm Hcs]; subst.
  change (existsb (String.eqb nm) string_containers = false) in Hnm.
  assert (Hchild : Forall (fun c => strings_for nm c = Soup.strings c) cs).
  { apply (Forall_impl _ _ _ Hcs). intros c Hc.
    destruct c as [s | s | cn s | nm' a' cs'].
    - unfold strings_for, Soup.interesting. rewrite Hnm. reflexivity.
    - reflexivity.
    - unfold strings_for, Soup.interesting. rewrite Hnm. reflexivity.
    - change (existsb (String.eqb nm') string_containers = false) in Hc.
      rewrite strings_for_tag, strings_tag. unfold strings_for.
      apply flat_map_ext. intros d. apply omap_pointwise.
      intros x. apply interesting_text; assumption. }
  unfold Soup.get_text at 1. rewrite strings_tag.
  clear Hplain Hcs. induction Hchild as [| c cs Hc _ IH]; [reflexivity |].
  cbn [flat_map map]. rewrite concat_all_app, concat_all_cons, IH, Hc.
  reflexivity.
Qed.

Lemma escape_xml_append s t : escape_xml (s +:+ t) = escape_xml s +:+ escape_xml t.
Proof.
  apply chars_inj.
  rewrite chars_append, !chars_escape_xml, chars_append. apply flat_map_app.
Qed.

Lemma escape_xml_concat l :
  escape_xml (Py.concat_all l) = Py.concat_all (map escape_xml l).
Proof.
  induction l as [| s l IH]; [reflexivity |].
  simpl map. rewrite !concat_all_cons, escape_xml_append, IH. reflexivity.
Qed.

Lemma named_subset names1 names2 n :
  incl names1 names2 -> Soup.named names1 n = true -> Soup.named names2 n = true.
Proof.
  intros Hincl. destruct n as [| | | nm a cs]; [discriminate | discriminate | discriminate |]. simpl.
  rewrite !existsb_exists. intros (x & Hx & Heq). exists x. split; [apply Hincl, Hx | exact Heq].
Qed.

Lemma convert_child_plain element child :
  left_out child = false ->
  Soup.named inline_markup child = false ->
  convert_child element child = escape_xml (Soup.get_text child).
Proof.
  intros Hleft Hplain. destruct child as [s | s | cn s | nm a cs].
  - unfold Soup.get_text. simpl. rewrite concat_all_cons.
    change (Py.concat_all []) with "". rewrite append_nil_r. reflexivity.
  - discriminate Hleft.
  - discriminate Hleft.
  - assert (Hno : forall names, incl names inline_markup ->
                    Soup.named names (Tag nm a cs) = false).
    { intros names Hincl. destruct (Soup.named names (Tag nm a cs)) eqn:Hn; [| reflexivity].
      rewrite (named_subset _ _ _ Hincl Hn) in Hplain. discriminate Hplain. }
    unfold convert_child.
    rewrite !Hno by (unfold inline_markup; intros x Hx; simpl in *; tauto).
    reflexivity.
Qed.

(** X18.  The content written for an element is the escaped text of the
    element when none of its children is a link, [code], bold, italics, an
    image or a string that is not text (a comment, say), and neither the
    element nor a child is a [script], [style], [template], [rt] or [rp]:
    the texts of the children, escaped and put together, are the escaped
    text of the whole.  A comment among the children is written although
    it is not part of the text, and so is the text of an [rt] child. *)
Theorem plain_content_is_escaped_text (name : string) (attrs : gmap string string)
    (contents : list node) :
  Forall (fun child => left_out child = false
                       /\ Soup.named inline_markup child = false) contents ->
  Forall (fun d => Soup.named string_containers d = false)
         (Tag name attrs contents :: contents) ->
  convert_element_content (Tag name attrs contents)
  = escape_xml (Soup.get_text (Tag name attrs contents))
  /\ convert_element_content (Tag "p" ∅ [NavigableString "a"; Comment " c "])
     = "a c "
  /\ Soup.get_text (Tag "p" ∅ [NavigableString "a"; Comment " c "]) = "a"
  /\ convert_element_content
       (Tag "p" ∅ [NavigableString "a"; Tag "rt" ∅ [ContainerString "rt" "b"]])
     = "ab"
  /\ Soup.get_text
       (Tag "p" ∅ [NavigableString "a"; Tag "rt" ∅ [ContainerString "rt" "b"]])
     = "a".
Proof.
  intros Hplain Hclass. split; [| vm_compute; repeat split; reflexivity].
  unfold convert_element_content.
  rewrite (get_text_tag _ _ _ Hclass), escape_xml_concat, map_map.
  simpl Soup.children.
  f_equal. apply map_ext_in. intros c Hc.
  rewrite Forall_forall in Hplain.
  destruct (Hplain c (proj2 (list_elem_of_In _ _) Hc)) as [Hleft Hmarkup].
  apply convert_child_plain; assumption.
Qed.

(** ** The start of a normalized path *)

(** X19.  [normalize_path] ignores any run of dots and slashes at the
    start of a path: [../a.md], [./a.md], [.a.md] and [a.md] are
    normalized alike. *)
Theorem normalize_path_ignores_leading_dots (dots path : string) :
  all_chars (fun c => Py.mem_char c "./") dots ->
  normalize_path (dots +:+ path) = normalize_path path.
Proof.
  intros Hdots. unfold normalize_path, Py.lstrip_chars.
  rewrite (drop_while_append _ dots path Hdots). reflexivity.
Qed.

(** ** The properties on sample inputs *)

Lemma escape_xml_no_markup_witness :
  In "<"%char markup_chars
  /\ ~ In "<"%char (list_ascii_of_string (escape_xml "a < b")).
Proof.
  assert (H : In "<"%char markup_chars) by (left; reflexivity).
  exact (conj H (escape_xml_no_markup "a < b" "<" H)).
Defined.

Lemma escape_xml_plain_witness : escape_xml "plain text" = "plain text".
Proof.
  apply (escape_xml_plain "plain text").
  intros c Hc Hin. simpl in Hc, Hin.
  repeat (destruct Hc as [<- | Hc];
          [repeat (destruct Hin as [Hin | Hin]; [discriminate Hin |]); exact Hin |]).
  exact Hc.
Defined.

Lemma link_key_agrees_with_index_witness :
  link_key Url.urlparse "guide/intro.html#top"
  = Some (Some (normalize_path (outline_path MD_DIR "guide/intro.html")))
  /\ link_key Url.urlparse "https://helpx.adobe.com/guide/intro.html#top"
     = Some (Some (normalize_path (outline_path MD_DIR "/guide/intro.html"))).
Proof.
  assert (Hfree : free_of "#?" "guide/intro").
  { intros c Hc. simpl in Hc.
    repeat (destruct Hc as [<- | Hc]; [reflexivity |]). destruct Hc. }
  assert (Hfree' : free_of "#?" "/guide/intro").
  { intros c Hc. simpl in Hc.
    repeat (destruct Hc as [<- | Hc]; [reflexivity |]). destruct Hc. }
  split.
  - refine (proj1 (link_key_agrees_with_index Url.urlparse "guide/intro" "#top"
                     Hfree eq_refl eq_refl _) eq_refl).
    right. left. reflexivity.
  - refine (proj2 (link_key_agrees_with_index Url.urlparse "/guide/intro" ""
                     Hfree' eq_refl eq_refl _)
              "https://helpx.adobe.com/guide/intro.html#top" "helpx.adobe.com"
              _ _ _).
    + left. reflexivity.
    + reflexivity.
    + vm_compute. reflexivity.
    + reflexivity.
Defined.


Lemma no_remote_image_reaches_the_topic_witness :
  prepared_soup Url.urlparse (fun _ => sample_images) sample_resolve
    "md/page.md" "" ∅
  = Some [Tag "p" ∅ [Tag "img" {[ "src" := "../md/figure.png" ]} []]]
  /\ remote_image (Tag "img" {[ "src" := "../md/figure.png" ]} []) = false.
Proof.
  assert (Hsoup : prepared_soup Url.urlparse (fun _ => sample_images) sample_resolve
                    "md/page.md" "" ∅
                  = Some [Tag "p" ∅ [Tag "img" {[ "src" := "../md/figure.png" ]} []]]).
  { vm_compute. reflexivity. }
  split; [exact Hsoup |].
  apply (no_remote_image_reaches_the_topic sample_resolve Url.urlparse
           (fun _ => sample_images) "md/page.md" "" ∅
           [Tag "p" ∅ [Tag "img" {[ "src" := "../md/figure.png" ]} []]]
           (Tag "p" ∅ [Tag "img" {[ "src" := "../md/figure.png" ]} []])).
  - exact Hsoup.
  - apply list_elem_of_here.
  - apply list_elem_of_further, list_elem_of_here.
Defined.

Lemma nested_lists_are_left_out_witness :
  convert_block sample_nested_list
  = Some ["    <ul>"; "      <li>"; "        outer"; "      </li>"; "    </ul>"].
Proof.
  refine (eq_trans (eq_sym (nested_lists_are_left_out sample_nested_list _)) _).
  - reflexivity.
  - vm_compute. reflexivity.
Defined.

Lemma plain_content_is_escaped_text_witness :
  convert_element_content
    (Tag "p" ∅ [NavigableString "a < b & "; Tag "span" ∅ [NavigableString "c"]])
  = "a &lt; b &amp; c".
Proof.
  refine (eq_trans
            (proj1 (plain_content_is_escaped_text "p" ∅
                      [NavigableString "a < b & ";
                       Tag "span" ∅ [NavigableString "c"]] _ _)) _).
  - repeat constructor.
  - repeat constructor.
  - vm_compute. reflexivity.
Defined.

Lemma normalize_path_ignores_leading_dots_witness :
  normalize_path ("../" +:+ "guide/intro.md") = normalize_path "guide/intro.md".
Proof.
  apply (normalize_path_ignores_leading_dots "../" "guide/intro.md").
  intros c Hc. simpl in Hc.
  repeat (destruct Hc as [<- | Hc]; [reflexivity |]). destruct Hc.
Defined.
